(** * Focus and layer-navigation engine of the TV dashboard

    A shallow embedding of the remote-control input handler
    (TVRemoteInputHandler), the layer coordinator
    (LayerNavigationManager), the dashboard grid's neighbour annotations
    (DashboardGrid.setNavigationAttributes) and the focus store
    (FocusManager), with the properties the specification states about
    them.

    Conventions of the embedding.
    - A JavaScript number that the code only uses as an integer is a [Z];
      a value that may be [undefined] is an [option].
    - Object identity ([===] on DOM nodes) is equality of a node's [uid].
    - Code that calls into collaborators the repository treats as
      external (map widget, iframe loader, CSS transitions) receives the
      collaborator's outcome as an argument. *)

From Stdlib Require Import ZArith List String Ascii Bool Lia.
From stdpp Require Import base option gmap strings pretty.
Import ListNotations.
Local Open Scope Z_scope.
Local Open Scope string_scope.

(** ** Small JavaScript helpers *)

(** Own-property lookup in an object literal used as a table. *)
Fixpoint table_get {V : Type} (k : string) (t : list (string * V)) : option V :=
  match t with
  | [] => None
  | (k', v) :: t' => if String.eqb k k' then Some v else table_get k t'
  end.

(** [s === c] for an [event.key] that may be [undefined]. *)
Definition key_is (k : option string) (c : string) : bool :=
  match k with
  | Some s => String.eqb s c
  | None => false
  end.

(** [n === c] for a number that may be [undefined]. *)
Definition code_is (n : option Z) (c : Z) : bool :=
  match n with
  | Some z => Z.eqb z c
  | None => false
  end.

(** * TVRemoteInputHandler: key tables and normalisation *)

Module Keys.

(** TIZEN_KEY_CODES *)
Definition BACK : Z := 10009.
Definition VOLUME_UP : Z := 447.
Definition VOLUME_DOWN : Z := 448.
Definition VOLUME_MUTE : Z := 449.
Definition CHANNEL_UP : Z := 427.
Definition CHANNEL_DOWN : Z := 428.
Definition PLAY : Z := 415.
Definition PAUSE : Z := 19.
Definition STOP : Z := 413.
Definition REWIND : Z := 412.
Definition FAST_FORWARD : Z := 417.
Definition RED : Z := 403.
Definition GREEN : Z := 404.
Definition YELLOW : Z := 405.
Definition BLUE : Z := 406.
Definition INFO : Z := 457.
Definition NUM_0 : Z := 48.
Definition NUM_9 : Z := 57.

(** NAVIGATION_KEY_CODES *)
Definition ARROW_UP : Z := 38.
Definition ARROW_DOWN : Z := 40.
Definition ARROW_LEFT : Z := 37.
Definition ARROW_RIGHT : Z := 39.
Definition ENTER : Z := 13.
Definition ESCAPE : Z := 27.

(** KEY_NAME_MAP, in source order.  The source reads it with
    [KEY_NAME_MAP[key]]; [event.key] is taken to range over key names,
    none of which is a member of [Object.prototype]. *)
Definition KEY_NAME_MAP : list (string * Z) :=
  [ ("ArrowUp", ARROW_UP); ("ArrowDown", ARROW_DOWN);
    ("ArrowLeft", ARROW_LEFT); ("ArrowRight", ARROW_RIGHT);
    ("Up", ARROW_UP); ("Down", ARROW_DOWN);
    ("Left", ARROW_LEFT); ("Right", ARROW_RIGHT);
    ("Enter", ENTER); ("Return", ENTER);
    ("Escape", ESCAPE);
    ("XF86Back", BACK); ("Back", BACK);
    ("0", 48); ("1", 49); ("2", 50); ("3", 51); ("4", 52);
    ("5", 53); ("6", 54); ("7", 55); ("8", 56); ("9", 57) ].

(** PREVENT_DEFAULT_KEYS *)
Definition PREVENT_DEFAULT_KEYS : list Z :=
  [ ARROW_UP; ARROW_DOWN; ARROW_LEFT; ARROW_RIGHT; ENTER; ESCAPE;
    BACK; VOLUME_UP; VOLUME_DOWN ].

(** The two fields of a [KeyboardEvent] the handler reads. *)
Record KeyboardEvent : Type := mkEvent {
  keyCode : option Z;
  key : option string
}.

(** The object [normalizeKeyCode] returns ([originalEvent] is the
    argument itself and is not kept). *)
Record NormalizedKey : Type := mkNormalized {
  nkey : option string;
  nkeyCode : option Z
}.

(** [!keyCode || keyCode === 0 || keyCode === 229] *)
Definition unreliable (c : option Z) : bool :=
  match c with
  | None => true
  | Some z => Z.eqb z 0 || Z.eqb z 229
  end.

(** [key && KEY_NAME_MAP[key] !== undefined] *)
Definition name_code (k : option string) : option Z :=
  match k with
  | Some s => if String.eqb s "" then None else table_get s KEY_NAME_MAP
  | None => None
  end.

Definition normalizeKeyCode (event : KeyboardEvent) : NormalizedKey :=
  let keyCode0 := keyCode event in
  let key0 := key event in
  (* keyCode missing: take it from the name table *)
  let keyCode1 :=
    if unreliable keyCode0 then
      match name_code key0 with
      | Some c => Some c
      | None => keyCode0
      end
    else keyCode0 in
  (* Tizen Back under its several names *)
  let '(keyCode2, key2) :=
    if key_is key0 "XF86Back" || key_is key0 "Back" || code_is keyCode1 BACK
    then (Some BACK, Some "Back")
    else (keyCode1, key0) in
  (* arrow and confirm names *)
  let keyCode3 :=
    if key_is key2 "Up" || key_is key2 "ArrowUp" then Some ARROW_UP
    else if key_is key2 "Down" || key_is key2 "ArrowDown" then Some ARROW_DOWN
    else if key_is key2 "Left" || key_is key2 "ArrowLeft" then Some ARROW_LEFT
    else if key_is key2 "Right" || key_is key2 "ArrowRight" then Some ARROW_RIGHT
    else if key_is key2 "Enter" || key_is key2 "Return" then Some ENTER
    else keyCode2 in
  {| nkey := key2; nkeyCode := keyCode3 |}.

(** [getTizenKeyCode]: [keyMap[keyName] || 0]. *)
Definition getTizenKeyCode (keyName : string) : Z :=
  match table_get keyName
          [ ("back", BACK); ("VolumeUp", VOLUME_UP); ("VolumeDown", VOLUME_DOWN);
            ("VolumeMute", VOLUME_MUTE); ("ChannelUp", CHANNEL_UP);
            ("ChannelDown", CHANNEL_DOWN); ("MediaPlay", PLAY);
            ("MediaPause", PAUSE); ("MediaStop", STOP);
            ("MediaRewind", REWIND); ("MediaFastForward", FAST_FORWARD);
            ("Info", INFO); ("ColorF0Red", RED); ("ColorF1Green", GREEN);
            ("ColorF2Yellow", YELLOW); ("ColorF3Blue", BLUE) ] with
  | Some c => c
  | None => 0
  end.

(** The default behaviours [processKey] selects with its [switch] on the
    normalised key code: four arrows, Enter, Back (Escape and the Tizen
    code share one [case]), the volume pair, and the digits 48..57. *)
Inductive Direction : Type := DirUp | DirDown | DirLeft | DirRight.

Inductive Action : Type :=
  | ActArrow (d : Direction)
  | ActEnter
  | ActBack
  | ActVolume (delta : Z)
  | ActNumber (n : Z).

Definition default_action (c : option Z) : option Action :=
  match c with
  | None => None
  | Some z =>
      if Z.eqb z ARROW_UP then Some (ActArrow DirUp)
      else if Z.eqb z ARROW_DOWN then Some (ActArrow DirDown)
      else if Z.eqb z ARROW_LEFT then Some (ActArrow DirLeft)
      else if Z.eqb z ARROW_RIGHT then Some (ActArrow DirRight)
      else if Z.eqb z ENTER then Some ActEnter
      else if Z.eqb z ESCAPE || Z.eqb z BACK then Some ActBack
      else if Z.eqb z VOLUME_UP then Some (ActVolume 1)
      else if Z.eqb z VOLUME_DOWN then Some (ActVolume (-1))
      else if Z.leb 48 z && Z.leb z 57 then Some (ActNumber (z - 48))
      else None
  end.

(** An event is an accepted raw spelling of a logical action when the
    field the normaliser trusts selects that action: the numeric code if
    one is delivered and reliable, the key name otherwise.  With a
    reliable code, a key name from the table must not name a different
    action. *)
Definition name_action (ev : KeyboardEvent) : option Action :=
  default_action (name_code (key ev)).

Definition agrees (o : option Action) (a : Action) : Prop :=
  o = None \/ o = Some a.

Definition spells (ev : KeyboardEvent) (a : Action) : Prop :=
  if unreliable (keyCode ev)
  then name_action ev = Some a
  else default_action (keyCode ev) = Some a /\ agrees (name_action ev) a.

(** The spellings under which the Tizen back key arrives. *)
Definition tizen_back (ev : KeyboardEvent) : bool :=
  key_is (key ev) "XF86Back" || key_is (key ev) "Back" ||
  code_is (keyCode ev) BACK.

(** The key names [normalizeKeyCode] compares against. *)
Definition compared_names : list string :=
  ["XF86Back"; "Back"; "Up"; "ArrowUp"; "Down"; "ArrowDown";
   "Left"; "ArrowLeft"; "Right"; "ArrowRight"; "Enter"; "Return"].

End Keys.

(** * TVRemoteInputHandler: dispatch and debounce *)

Module Input.
Import Keys.

(** What a call to a handler does: it returns (a truthy or a falsy
    value), or it throws. *)
Inductive Outcome : Type :=
  | Returned (v : bool)
  | Threw (err : string).

(** A listener registered with [addKeyListener]:
    [(normalizedKey) => boolean]. *)
Definition KeyHandler : Type := NormalizedKey -> Outcome.

(** Marks the handler leaves on the time line: a key passed the guard of
    [handleKeyDown]/[handleTizenKey] and entered [processKey]; the
    [finally] block of that [processKey] call ran. *)
Inductive Mark : Type :=
  | Accepted (k : NormalizedKey)
  | Finished.

(** Which function [processKey] called for a key. *)
Inductive Invocation : Type :=
  | ByListener (k : NormalizedKey)
  | ByDefault (a : Action).

(** The handler instance together with the part of the event loop it
    depends on.  [timers] holds the due times of the pending
    [setTimeout(() => { this.isProcessing = false }, inputDelay)]
    callbacks, oldest first; [awaiting] is the [processKey] call
    suspended at [await this.handleEnterKey()] or
    [await this.handleBackKey()]. *)
Record World : Type := mkWorld {
  isEnabled : bool;
  isProcessing : bool;
  inputDelay : Z;
  keyListeners : gmap string KeyHandler;
  now : Z;
  timers : list Z;
  awaiting : option Action;
  history : list (Z * Mark);          (* newest first *)
  invoked : list Invocation;          (* oldest first *)
  prevented : list (option Z);        (* preventDefault calls, by keyCode *)
  logged : list string;               (* error messages passed to this.log *)
  rejected : list string              (* rejections of processKey promises *)
}.

(** The state the constructor builds. *)
Definition initial : World :=
  {| isEnabled := true; isProcessing := false; inputDelay := 100;
     keyListeners := ∅; now := 0; timers := []; awaiting := None;
     history := []; invoked := []; prevented := []; logged := [];
     rejected := [] |}.

Definition set_isEnabled (b : bool) (w : World) : World :=
  mkWorld b (isProcessing w) (inputDelay w) (keyListeners w) (now w)
    (timers w) (awaiting w) (history w) (invoked w) (prevented w)
    (logged w) (rejected w).

Definition set_isProcessing (b : bool) (w : World) : World :=
  mkWorld (isEnabled w) b (inputDelay w) (keyListeners w) (now w)
    (timers w) (awaiting w) (history w) (invoked w) (prevented w)
    (logged w) (rejected w).

Definition set_keyListeners (m : gmap string KeyHandler) (w : World) : World :=
  mkWorld (isEnabled w) (isProcessing w) (inputDelay w) m (now w)
    (timers w) (awaiting w) (history w) (invoked w) (prevented w)
    (logged w) (rejected w).

Definition set_now (t : Z) (w : World) : World :=
  mkWorld (isEnabled w) (isProcessing w) (inputDelay w) (keyListeners w) t
    (timers w) (awaiting w) (history w) (invoked w) (prevented w)
    (logged w) (rejected w).

Definition set_timers (l : list Z) (w : World) : World :=
  mkWorld (isEnabled w) (isProcessing w) (inputDelay w) (keyListeners w)
    (now w) l (awaiting w) (history w) (invoked w) (prevented w)
    (logged w) (rejected w).

Definition set_awaiting (a : option Action) (w : World) : World :=
  mkWorld (isEnabled w) (isProcessing w) (inputDelay w) (keyListeners w)
    (now w) (timers w) a (history w) (invoked w) (prevented w)
    (logged w) (rejected w).

Definition mark (m : Mark) (w : World) : World :=
  mkWorld (isEnabled w) (isProcessing w) (inputDelay w) (keyListeners w)
    (now w) (timers w) (awaiting w) ((now w, m) :: history w) (invoked w)
    (prevented w) (logged w) (rejected w).

Definition invoke (i : Invocation) (w : World) : World :=
  mkWorld (isEnabled w) (isProcessing w) (inputDelay w) (keyListeners w)
    (now w) (timers w) (awaiting w) (history w) (invoked w ++ [i])
    (prevented w) (logged w) (rejected w).

Definition preventDefault (c : option Z) (w : World) : World :=
  mkWorld (isEnabled w) (isProcessing w) (inputDelay w) (keyListeners w)
    (now w) (timers w) (awaiting w) (history w) (invoked w)
    (prevented w ++ [c]) (logged w) (rejected w).

Definition log (msg : string) (w : World) : World :=
  mkWorld (isEnabled w) (isProcessing w) (inputDelay w) (keyListeners w)
    (now w) (timers w) (awaiting w) (history w) (invoked w) (prevented w)
    (logged w ++ [msg]) (rejected w).

Definition reject (err : string) (w : World) : World :=
  mkWorld (isEnabled w) (isProcessing w) (inputDelay w) (keyListeners w)
    (now w) (timers w) (awaiting w) (history w) (invoked w) (prevented w)
    (logged w) (rejected w ++ [err]).

(** The delay [setTimeout] applies: a negative argument counts as 0. *)
Definition delay (w : World) : Z := Z.max 0 (inputDelay w).

(** The [finally] block of [processKey]. *)
Definition debounce (w : World) : World :=
  mark Finished (set_timers (timers w ++ [now w + delay w]) w).

(** [String(normalizedKey.keyCode)] *)
Definition String_of_code (c : option Z) : string :=
  match c with
  | Some z => pretty z
  | None => "undefined"
  end.

(** [this.keyListeners.get(normalizedKey.key) ||
     this.keyListeners.get(String(normalizedKey.keyCode))] *)
Definition customHandler (w : World) (k : NormalizedKey) : option KeyHandler :=
  match (match nkey k with Some s => keyListeners w !! s | None => None end) with
  | Some f => Some f
  | None => keyListeners w !! String_of_code (nkeyCode k)
  end.

(** The [switch] of [processKey].  The arrow, volume and digit handlers
    are called synchronously, and [sync] is what that call does; the
    Enter and Back handlers are awaited, so [processKey] is suspended
    until the [Settle] event.  What a default handler does to the map,
    the focus or the layers, timers of its own included, is on the
    collaborators' side. *)
Definition dispatch_default (sync : Outcome) (k : NormalizedKey) (w : World) : World :=
  match default_action (nkeyCode k) with
  | None => debounce w
  | Some ActEnter => set_awaiting (Some ActEnter) (invoke (ByDefault ActEnter) w)
  | Some ActBack => set_awaiting (Some ActBack) (invoke (ByDefault ActBack) w)
  | Some a =>
      match sync with
      | Returned _ => debounce (invoke (ByDefault a) w)
      | Threw err => debounce (reject err (invoke (ByDefault a) w))
      end
  end.

(** [processKey], up to its first suspension point. *)
Definition processKey (sync : Outcome) (k : NormalizedKey) (w : World) : World :=
  let w := mark (Accepted k) (set_isProcessing true w) in
  match customHandler w k with
  | Some f =>
      match f k with
      | Threw err => debounce (reject err (invoke (ByListener k) w))
      | Returned true => debounce (invoke (ByListener k) w)
      | Returned false => dispatch_default sync k (invoke (ByListener k) w)
      end
  | None => dispatch_default sync k w
  end.

Definition includes (l : list Z) (c : option Z) : bool :=
  match c with
  | Some z => existsb (Z.eqb z) l
  | None => false
  end.

Definition handleKeyDown (sync : Outcome) (event : KeyboardEvent) (w : World) : World :=
  (* Back is prevented before any other check *)
  let w := if code_is (keyCode event) BACK
           then preventDefault (keyCode event) w else w in
  if negb (isEnabled w) || isProcessing w then w
  else
    let w := if includes PREVENT_DEFAULT_KEYS (keyCode event) &&
                negb (code_is (keyCode event) BACK)
             then preventDefault (keyCode event) w else w in
    processKey sync (normalizeKeyCode event) w.

Definition handleTizenKey (sync : Outcome) (keyName : string) (w : World) : World :=
  if negb (isEnabled w) || isProcessing w then w
  else
    let w := preventDefault None w in
    processKey sync
      {| nkey := Some keyName; nkeyCode := Some (getTizenKeyCode keyName) |} w.

(** The awaited handler settles and [processKey] resumes.
    [handleBackKey] catches what [layerNavigationManager.back()] throws
    and logs it; [handleEnterKey] has no [catch], so its rejection
    leaves [processKey] through the [finally] block. *)
Definition resume (r : Outcome) (a : Action) (w : World) : World :=
  let w := set_awaiting None w in
  match r, a with
  | Returned _, _ => debounce w
  | Threw err, ActBack => debounce (log ("Error in handleBackKey: " ++ err) w)
  | Threw err, _ => debounce (reject err w)
  end.

(** [handleIframeBack]: the embedded page asks to go back.  The back
    handler runs outside [processKey], so neither the busy flag nor the
    debounce timer is involved. *)
Definition handleIframeBack (r : Outcome) (w : World) : World :=
  match r with
  | Returned _ => invoke (ByDefault ActBack) w
  | Threw err =>
      log ("Error in handleBackKey: " ++ err) (invoke (ByDefault ActBack) w)
  end.

(** What can happen to the handler. *)
Inductive Event : Type :=
  | KeyDown (event : KeyboardEvent) (sync : Outcome)
  | TizenKey (keyName : string) (sync : Outcome)
  | Settle (r : Outcome)
  | IframeBack (r : Outcome)
  | TimerFires
  | Elapse (dt : Z)
  | SetEnabled (enabled : bool)
  | AddKeyListener (k : string) (f : KeyHandler)
  | RemoveKeyListener (k : string).

(** One turn of the event loop; [None] when the event cannot occur in
    this state (no suspended handler to settle, no timer due, time
    running backwards). *)
Definition step (w : World) (e : Event) : option World :=
  match e with
  | KeyDown event sync => Some (handleKeyDown sync event w)
  | TizenKey keyName sync => Some (handleTizenKey sync keyName w)
  | Settle r =>
      match awaiting w with
      | Some a => Some (resume r a w)
      | None => None
      end
  | IframeBack r => Some (handleIframeBack r w)
  | TimerFires =>
      match timers w with
      | due :: rest =>
          if Z.leb due (now w)
          then Some (set_isProcessing false (set_timers rest w))
          else None
      | [] => None
      end
  | Elapse dt =>
      if Z.leb 0 dt then Some (set_now (now w + dt) w) else None
  | SetEnabled enabled => Some (set_isEnabled enabled w)
  | AddKeyListener k f => Some (set_keyListeners (<[k := f]> (keyListeners w)) w)
  | RemoveKeyListener k => Some (set_keyListeners (delete k (keyListeners w)) w)
  end.

Fixpoint run (w : World) (tr : list Event) : option World :=
  match tr with
  | [] => Some w
  | e :: tr' =>
      match step w e with
      | Some w' => run w' tr'
      | None => None
      end
  end.

(** No key is being processed and no debounce timer is pending. *)
Definition idle (w : World) : Prop :=
  isProcessing w = false /\ timers w = [] /\ awaiting w = None.

(** A time line on which every accepted key is followed by the end of
    its own [processKey] call before the next key is accepted, and the
    next key is accepted no earlier than [d] after that end. *)
Fixpoint debounced (d : Z) (h : list (Z * Mark)) : Prop :=
  match h with
  | [] => True
  | (t, Accepted _) :: h' =>
      match h' with
      | [] => True
      | (c, Finished) :: _ => c + d <= t
      | (_, Accepted _) :: _ => False
      end /\ debounced d h'
  | (c, Finished) :: h' =>
      match h' with
      | (t, Accepted _) :: _ => t <= c
      | _ => False
      end /\ debounced d h'
  end.

Definition is_accepted_in (lo hi : Z) (m : Z * Mark) : bool :=
  match m with
  | (t, Accepted _) => Z.leb lo t && Z.ltb t hi
  | (_, Finished) => false
  end.

(** The number of keys accepted at a time in [[lo, hi)]. *)
Definition accepted_in (lo hi : Z) (h : list (Z * Mark)) : nat :=
  length (List.filter (is_accepted_in lo hi) h).

(** The number of default actions among handler calls. *)
Definition default_actions (l : list Invocation) : nat :=
  length (List.filter
            (fun i => match i with ByDefault _ => true | ByListener _ => false end) l).

(** The exception, if any, that the synchronous part of [processKey]
    meets for this key: the listener's, or else that of the synchronous
    default handler. *)
Definition thrown (w : World) (k : NormalizedKey) (sync : Outcome) : option string :=
  let from_default :=
    match default_action (nkeyCode k), sync with
    | Some ActEnter, _ | Some ActBack, _ | None, _ => None
    | Some _, Threw err => Some err
    | Some _, Returned _ => None
    end in
  match customHandler w k with
  | Some f =>
      match f k with
      | Threw err => Some err
      | Returned true => None
      | Returned false => from_default
      end
  | None => from_default
  end.

(** The link between the handler's flags and its time line that every
    turn of the event loop preserves. *)
Definition coherent (w : World) : Prop :=
  debounced (delay w) (history w) /\
  match awaiting w, timers w with
  | Some _, [] =>
      isProcessing w = true /\
      exists t k h, history w = (t, Accepted k) :: h /\ t <= now w
  | None, [due] =>
      isProcessing w = true /\
      exists c h, history w = (c, Finished) :: h /\ c + delay w <= due
  | None, [] =>
      isProcessing w = false /\
      match history w with
      | [] => True
      | (c, Finished) :: _ => c + delay w <= now w
      | (_, Accepted _) :: _ => False
      end
  | _, _ => False
  end.

(** ** Scenarios *)

(** A listener that throws, and its registration. *)
Definition throwing_listener : KeyHandler := fun _ => Threw "boom".

Definition with_listener (k : string) (f : KeyHandler) (w : World) : World :=
  set_keyListeners (<[k := f]> (keyListeners w)) w.

(** Three repeats of the up arrow inside one window of 100 ms, then a
    fourth after the window: two keys are accepted in all. *)
Definition up_event : KeyboardEvent := mkEvent (Some 38) (Some "ArrowUp").

Definition repeats : list Event :=
  [ KeyDown up_event (Returned false); Elapse 30;
    KeyDown up_event (Returned false); Elapse 30;
    KeyDown up_event (Returned false); Elapse 40; TimerFires;
    KeyDown up_event (Returned false) ].

End Input.

(** * LayerNavigationManager *)

Module Layers.

(** LAYER *)
Definition MAP : Z := 1.
Definition CONTROL_PANEL : Z := 2.
Definition DETAIL_SCREEN : Z := 3.

(** LAYER_TO_TYPE; [undefined] for any other number. *)
Definition LAYER_TO_TYPE (layer : Z) : option string :=
  if Z.eqb layer MAP then Some "map"
  else if Z.eqb layer CONTROL_PANEL then Some "dashboard"
  else if Z.eqb layer DETAIL_SCREEN then Some "detail"
  else None.

Inductive TransitionState : Type :=
  | IDLE | SAVING_FOCUS | HIDING | SHOWING | RESTORING_FOCUS | COMPLETE.

(** The transition parameters the manager reads. *)
Record Params : Type := mkParams {
  isBack : bool;
  screenSTT : option Z
}.

Definition no_params : Params := {| isBack := false; screenSTT := None |}.

(** Calls the manager makes on its collaborators. *)
Inductive Call : Type :=
  | SaveFocusState (layerType : option string)
  | HideLayer (layer : Z)
  | CloseScreen
  | OpenScreen (stt : Z)
  | ShowLayer (layer : Z)
  | SetCurrentLayer (layerType : option string)
  | RestoreFocusState (layerType : option string)
  | FocusFirstElement (layerType : option string)
  | NotifyLayerChange (fromLayer toLayer : Z) (params : Params)
  | ExitApplication.

(** The surroundings: which collaborator calls throw (or reject), and
    whether [Config.isTizen()] holds. *)
Record Env : Type := mkEnv {
  throws : Call -> bool;
  isTizen : bool
}.

Record Manager : Type := mkManager {
  currentLayer : Z;
  layerHistory : list Z;
  transitionState : TransitionState;
  isTransitioning : bool;
  iframeManager : bool;          (* whether a manager was set *)
  calls : list Call              (* collaborator calls so far, oldest first *)
}.

(** The manager after [init()]. *)
Definition initial : Manager :=
  {| currentLayer := MAP; layerHistory := [MAP]; transitionState := IDLE;
     isTransitioning := false; iframeManager := false; calls := [] |}.

(** [setIframeManager], as [TVRemoteInputHandler.init] calls it. *)
Definition setIframeManager (m : Manager) : Manager :=
  {| currentLayer := currentLayer m; layerHistory := layerHistory m;
     transitionState := transitionState m;
     isTransitioning := isTransitioning m; iframeManager := true;
     calls := calls m |}.

(** Statements that may throw, over the manager's state; a throw keeps
    the assignments made before it. *)
Inductive Result (A : Type) : Type :=
  | Ok (a : A)
  | Thrown.
Arguments Ok {A} a.
Arguments Thrown {A}.

Definition M (A : Type) : Type := Manager -> Result A * Manager.

Definition ret {A : Type} (a : A) : M A := fun m => (Ok a, m).

Definition bind {A B : Type} (c : M A) (k : A -> M B) : M B :=
  fun m =>
    match c m with
    | (Ok a, m') => k a m'
    | (Thrown, m') => (Thrown, m')
    end.

Notation "'let!' x ':=' c 'in' k" := (bind c (fun x => k))
  (at level 10, x name, c at level 100, k at level 200).
Notation "c '>>' k" := (bind c (fun _ => k))
  (at level 100, k at level 200, right associativity).

Definition get {A : Type} (f : Manager -> A) : M A := fun m => (Ok (f m), m).

Definition modify (f : Manager -> Manager) : M unit := fun m => (Ok tt, f m).

Definition when (b : bool) (c : M unit) : M unit := if b then c else ret tt.

Definition set_currentLayer (l : Z) (m : Manager) : Manager :=
  mkManager l (layerHistory m) (transitionState m) (isTransitioning m)
    (iframeManager m) (calls m).

Definition set_layerHistory (h : list Z) (m : Manager) : Manager :=
  mkManager (currentLayer m) h (transitionState m) (isTransitioning m)
    (iframeManager m) (calls m).

Definition set_transitionState (s : TransitionState) (m : Manager) : Manager :=
  mkManager (currentLayer m) (layerHistory m) s (isTransitioning m)
    (iframeManager m) (calls m).

Definition set_isTransitioning (b : bool) (m : Manager) : Manager :=
  mkManager (currentLayer m) (layerHistory m) (transitionState m) b
    (iframeManager m) (calls m).

Definition record_call (c : Call) (m : Manager) : Manager :=
  mkManager (currentLayer m) (layerHistory m) (transitionState m)
    (isTransitioning m) (iframeManager m) (calls m ++ [c]).

Section WithEnv.
Variable env : Env.

(** A call on a collaborator. *)
Definition call (c : Call) : M unit :=
  fun m => (if throws env c then Thrown else Ok tt, record_call c m).

(** [validTransitions[fromLayer]?.includes(toLayer) || false] *)
Definition canTransition (fromLayer toLayer : Z) : bool :=
  if Z.eqb fromLayer MAP then Z.eqb toLayer CONTROL_PANEL
  else if Z.eqb fromLayer CONTROL_PANEL
       then Z.eqb toLayer MAP || Z.eqb toLayer DETAIL_SCREEN
  else if Z.eqb fromLayer DETAIL_SCREEN then Z.eqb toLayer CONTROL_PANEL
  else false.

(** [params.screenSTT] as a condition, and its value. *)
Definition truthy (n : option Z) : bool :=
  match n with
  | Some z => negb (Z.eqb z 0)
  | None => false
  end.

(** [this.layerHistory.pop()] *)
Definition pop (h : list Z) : list Z := removelast h.

(** [performTransition], from its first statement to the first
    suspension point, [await this.hideLayer(fromLayer)]. *)
Definition begin_transition (fromLayer : Z) : M unit :=
  modify (set_isTransitioning true) >>
  modify (set_transitionState SAVING_FOCUS) >>
  call (SaveFocusState (LAYER_TO_TYPE fromLayer)) >>
  modify (set_transitionState HIDING) >>
  call (HideLayer fromLayer).

(** The rest of the [try] block. *)
Definition complete_transition (fromLayer toLayer : Z) (params : Params) : M bool :=
  let! has_iframe := get iframeManager in
  when (Z.eqb fromLayer DETAIL_SCREEN && has_iframe) (call CloseScreen) >>
  when (Z.eqb toLayer DETAIL_SCREEN && truthy (screenSTT params) && has_iframe)
       (call (OpenScreen (default 0 (screenSTT params)))) >>
  modify (set_transitionState SHOWING) >>
  call (ShowLayer toLayer) >>
  (if isBack params
   then modify (fun m => set_layerHistory (pop (layerHistory m)) m)
   else modify (fun m => set_layerHistory (layerHistory m ++ [toLayer]) m)) >>
  let! previousLayer := get currentLayer in
  modify (set_currentLayer toLayer) >>
  call (SetCurrentLayer (LAYER_TO_TYPE toLayer)) >>
  modify (set_transitionState RESTORING_FOCUS) >>
  (if isBack params
   then call (RestoreFocusState (LAYER_TO_TYPE toLayer))
   else call (FocusFirstElement (LAYER_TO_TYPE toLayer))) >>
  modify (set_transitionState COMPLETE) >>
  call (NotifyLayerChange previousLayer toLayer params) >>
  ret true.

(** [try { ... return true } catch { return false }
     finally { isTransitioning = false; transitionState = IDLE }] *)
Definition performTransition (fromLayer toLayer : Z) (params : Params)
    (m : Manager) : bool * Manager :=
  let '(r, m') :=
    (begin_transition fromLayer >> complete_transition fromLayer toLayer params) m in
  (match r with Ok b => b | Thrown => false end,
   set_transitionState IDLE (set_isTransitioning false m')).

(** The manager as a second caller finds it while the transition waits
    for [hideLayer]. *)
Definition during_hide (fromLayer : Z) (m : Manager) : Manager :=
  snd (begin_transition fromLayer m).

Definition pushLayer (layer : Z) (params : Params) (m : Manager) : bool * Manager :=
  if isTransitioning m then (false, m)
  else if Z.eqb layer (currentLayer m) then (false, m)
  else if negb (canTransition (currentLayer m) layer) then (false, m)
  else performTransition (currentLayer m) layer params m.

(** [handleExitApp]: on Tizen, ask the application to exit; what that
    call throws is caught and logged. *)
Definition handleExitApp (m : Manager) : Manager :=
  if isTizen env then record_call ExitApplication m else m.

(** [popLayer]; [layerHistory] is a list here, so the [Array.isArray]
    repair at its head never applies. *)
Definition popLayer (m : Manager) : bool * Manager :=
  if isTransitioning m then (false, m)
  else if Nat.leb (length (layerHistory m)) 1 then (false, handleExitApp m)
  else
    match nth_error (layerHistory m) (length (layerHistory m) - 2) with
    | None => (false, m)
    | Some previousLayer =>
        performTransition (currentLayer m) previousLayer
          {| isBack := true; screenSTT := None |} m
    end.

Definition back := popLayer.

(** [openDetailScreen] and [showDashboard] *)
Definition openDetailScreen (stt : Z) (m : Manager) : bool * Manager :=
  if Z.eqb stt 0 then pushLayer MAP no_params m
  else pushLayer DETAIL_SCREEN {| isBack := false; screenSTT := Some stt |} m.

Definition showDashboard (m : Manager) : bool * Manager :=
  if Z.eqb (currentLayer m) MAP then pushLayer CONTROL_PANEL no_params m
  else (false, m).

End WithEnv.

(** What [TVRemoteInputHandler.openDetailScreen] writes into the manager
    after the iframe has loaded: the layer pointer, and the history
    unless the detail layer is already its last entry. *)
Definition enterDetail (m : Manager) : Manager :=
  let m := set_currentLayer DETAIL_SCREEN m in
  match last (layerHistory m) with
  | Some l =>
      if Z.eqb l DETAIL_SCREEN then m
      else set_layerHistory (layerHistory m ++ [DETAIL_SCREEN]) m
  | None => set_layerHistory (layerHistory m ++ [DETAIL_SCREEN]) m
  end.

(** The number of exit requests among the collaborator calls. *)
Definition exit_requests (l : list Call) : nat :=
  length (List.filter (fun c => match c with ExitApplication => true | _ => false end) l).

(** Surroundings in which no collaborator call fails. *)
Definition calm (tizen : bool) : Env := {| throws := fun _ => false; isTizen := tizen |}.

(** The data-model invariant: the current layer is the last entry of the
    history. *)
Definition consistent (m : Manager) : Prop :=
  last (layerHistory m) = Some (currentLayer m).

(** The dashboard reached from the map after [init()]. *)
Definition on_dashboard : Manager :=
  snd (pushLayer (calm true) CONTROL_PANEL no_params (setIframeManager initial)).

End Layers.

(** * DashboardGrid: layout and neighbour annotations *)

Module Grid.

(** The two fields of the layout that navigation reads. *)
Record Layout : Type := mkLayout {
  columns : Z;
  rows : Z
}.

(** [Math.ceil(a / b)] for a non-negative [a] and a positive [b]. *)
Definition ceil_div (a b : Z) : Z := (a + b - 1) / b.

(** [calculateLayout]: [null] for no screens, a fixed table up to twelve
    screens, four columns beyond. *)
Definition calculateLayout (screenCount : Z) : option Layout :=
  if Z.eqb screenCount 0 then None
  else if Z.eqb screenCount 1 then Some (mkLayout 1 1)
  else if Z.eqb screenCount 2 then Some (mkLayout 2 1)
  else if Z.eqb screenCount 3 then Some (mkLayout 3 1)
  else if Z.eqb screenCount 4 then Some (mkLayout 2 2)
  else if Z.eqb screenCount 5 || Z.eqb screenCount 6 then Some (mkLayout 3 2)
  else if Z.eqb screenCount 7 then Some (mkLayout 4 2)
  else if Z.eqb screenCount 8 then Some (mkLayout 4 2)
  else if Z.eqb screenCount 9 then Some (mkLayout 3 3)
  else if Z.eqb screenCount 10 then Some (mkLayout 4 3)
  else if Z.eqb screenCount 11 then Some (mkLayout 4 3)
  else if Z.eqb screenCount 12 then Some (mkLayout 4 3)
  else Some (mkLayout 4 (ceil_div screenCount 4)).

(** The neighbour indices [setNavigationAttributes] writes on a tile;
    [-1] stands for no neighbour. *)
Record Neighbours : Type := mkNeighbours {
  up : Z;
  down : Z;
  left : Z;
  right : Z;
  row : Z;
  col : Z
}.

(** [setNavigationAttributes] for the tile at [index] among [count]
    screens ([this.screens.length]). *)
Definition neighbours (layout : Layout) (count index : Z) : Neighbours :=
  let row := index / columns layout in
  let col := index mod columns layout in
  let up := if Z.ltb 0 row then index - columns layout else -1 in
  let down :=
    if Z.ltb row (rows layout - 1) then
      (* direct neighbour below, or the last item of an irregular grid *)
      if Z.ltb (index + columns layout) count then index + columns layout
      else count - 1
    else -1 in
  let left := if Z.ltb 0 col then index - 1 else -1 in
  let right :=
    if Z.ltb col (columns layout - 1) && Z.ltb (index + 1) count
    then index + 1 else -1 in
  mkNeighbours up down left right row col.

(** [getNeighborStt]: the STT of the screen at a neighbour index. *)
Definition getNeighborStt (screens : list Z) (neighborIndex : Z) : Z :=
  if Z.ltb neighborIndex 0 || Z.leb (Z.of_nat (length screens)) neighborIndex
  then -1
  else nth (Z.to_nat neighborIndex) screens (-1).

(** The attributes [setNavigationAttributes] sets, in source order;
    nothing is set while there is no layout. *)
Definition setNavigationAttributes (currentLayout : option Layout)
    (screens : list Z) (index : Z) : list (string * string) :=
  match currentLayout with
  | None => []
  | Some layout =>
      let n := neighbours layout (Z.of_nat (length screens)) index in
      [ ("data-nav-up", pretty (up n));
        ("data-nav-up-stt", pretty (getNeighborStt screens (up n)));
        ("data-nav-down", pretty (down n));
        ("data-nav-down-stt", pretty (getNeighborStt screens (down n)));
        ("data-nav-left", pretty (left n));
        ("data-nav-left-stt", pretty (getNeighborStt screens (left n)));
        ("data-nav-right", pretty (right n));
        ("data-nav-right-stt", pretty (getNeighborStt screens (right n)));
        ("data-row", pretty (row n));
        ("data-col", pretty (col n)) ]
  end.

End Grid.

(** * FocusManager *)

Module Focus.
Import Keys.

(** LayerType *)
Definition MAP : string := "map".
Definition DASHBOARD : string := "dashboard".
Definition DETAIL : string := "detail".

(** ** The page

    A DOM node with what the manager reads from it.  The tree is kept
    flat: a node carries the ids and classes of its ancestors and its
    place under its parent, and ids are unique in the document.  The
    class [focused], which [setFocus] and the focus listeners add and
    remove for styling, is not part of [classList]. *)
Record Element : Type := mkElement {
  uid : nat;                              (* identity of the node *)
  tagName : string;                       (* lower case *)
  id : string;                            (* empty when the node has none *)
  classList : list string;
  attributes : list (string * string);
  ancestorIds : list string;
  ancestorClasses : list string;
  parent : option (string * nat);         (* parent's tag, index among its children *)
  offsetParent : bool                     (* offsetParent !== null *)
}.

(** [a === b] on nodes. *)
Definition same_node (a b : Element) : bool := Nat.eqb (uid a) (uid b).

Definition getAttribute (e : Element) (name : string) : option string :=
  table_get name (attributes e).

Definition hasAttribute (e : Element) (name : string) : bool :=
  match getAttribute e name with Some _ => true | None => false end.

Definition contains_class (e : Element) (c : string) : bool :=
  existsb (String.eqb c) (classList e).

(** The selector strings the manager hands to [document.querySelector],
    by the template that builds them; the text in a template is put in
    as it is, without escaping. *)
Inductive Selector : Type :=
  | SelStt (stt : string)                 (* .screen-tile[data-stt="stt"] *)
  | SelId (i : string)                    (* #i *)
  | SelDataIndex (cls idx : string)       (* .cls[data-index="idx"] *)
  | SelNthChild (tag : string) (n : nat)  (* tag > :nth-child(n) *)
  | SelTag (tag : string).                (* tag *)

Definition attr_is (e : Element) (name value : string) : bool :=
  match getAttribute e name with
  | Some v => String.eqb v value
  | None => false
  end.

Definition matches (sel : Selector) (e : Element) : bool :=
  match sel with
  | SelStt stt => contains_class e "screen-tile" && attr_is e "data-stt" stt
  | SelId i => negb (String.eqb (id e) "") && String.eqb (id e) i
  | SelDataIndex cls idx => contains_class e cls && attr_is e "data-index" idx
  | SelNthChild tag n =>
      match parent e with
      | Some (ptag, k) => String.eqb ptag tag && Nat.eqb (S k) n
      | None => false
      end
  | SelTag tag => String.eqb (tagName e) tag
  end.

(** How the selector engine reads the text put after [#], after [.] or
    in the place of a tag.  A plain name (a letter or an underscore,
    then letters, digits, hyphens and underscores) is read as that name.
    An empty text, or one that starts with a digit, is no selector: the
    engine raises a SyntaxError.  Any other text (with a dot, a colon, a
    space, a bracket, a backslash, ...) is read by rules this model does
    not spell out; its outcome is left to [engine] below. *)
Inductive Reading : Type := Exact | Invalid | Unread.

Definition is_digit (c : ascii) : bool :=
  let n := nat_of_ascii c in Nat.leb 48 n && Nat.leb n 57.

Definition is_letter (c : ascii) : bool :=
  let n := nat_of_ascii c in
  (Nat.leb 65 n && Nat.leb n 90) || (Nat.leb 97 n && Nat.leb n 122).

Definition name_start (c : ascii) : bool := is_letter c || Ascii.eqb c "_".

Definition name_char (c : ascii) : bool :=
  is_letter c || is_digit c || Ascii.eqb c "-" || Ascii.eqb c "_".

Fixpoint all_name_chars (str : string) : bool :=
  match str with
  | EmptyString => true
  | String c rest => name_char c && all_name_chars rest
  end.

Definition read_name (str : string) : Reading :=
  match str with
  | EmptyString => Invalid
  | String c rest =>
      if is_digit c then Invalid
      else if name_start c && all_name_chars rest then Exact
      else Unread
  end.

Definition is_upper (c : ascii) : bool :=
  let n := nat_of_ascii c in Nat.leb 65 n && Nat.leb n 90.

Fixpoint has_upper (str : string) : bool :=
  match str with
  | EmptyString => false
  | String c rest => is_upper c || has_upper rest
  end.

(** A tag name is matched without regard to case, and [tagName] is kept
    in lower case here: only a lower-case name is compared as it is. *)
Definition read_tag (str : string) : Reading :=
  match read_name str with
  | Exact => if has_upper str then Unread else Exact
  | r => r
  end.

(** The reading of a whole selector.  Attribute values stand between
    double quotes in the templates; they are taken to hold no quote,
    backslash or line break (the program writes numbers there).  Ids
    and classes are compared as written, as in a document with a
    doctype. *)
Definition reading (sel : Selector) : Reading :=
  match sel with
  | SelStt _ => Exact
  | SelId i => read_name i
  | SelDataIndex cls _ => read_name cls
  | SelNthChild tag _ => read_tag tag
  | SelTag tag => read_tag tag
  end.

(** What the engine answers for a selector the model does not read
    itself: an error, no node, or the node at a place of the document. *)
Inductive Answer : Type :=
  | AnsError
  | AnsNone
  | AnsNode (k : nat).

(** The outcome of [document.querySelector]. *)
Inductive Query : Type :=
  | Found (e : Element)
  | Missing
  | SyntaxError.

(** The outcome as a condition, where the error is caught or cannot
    arise. *)
Definition found (q : Query) : option Element :=
  match q with
  | Found e => Some e
  | Missing | SyntaxError => None
  end.

(** A call that returns, or lets an exception escape. *)
Inductive Completion (A : Type) : Type :=
  | Returns (a : A)
  | Throws.
Arguments Returns {A} a.
Arguments Throws {A}.

(** LAYER_CONTAINERS, by the id in each selector. *)
Definition LAYER_CONTAINERS : list (string * string) :=
  [ ("map", "map-fullscreen-container");
    ("dashboard", "dashboard-container");
    ("detail", "detail-container") ].

(** FOCUSABLE_SELECTORS, as predicates on a node:
    map: [.map-control-button, .zoom-control, .ol-zoom button];
    dashboard: [.screen-tile[tabindex="0"]];
    detail: [.focusable, .btn-view-all, .detail-widget[tabindex="0"],
             #iframe-container iframe]. *)
Definition FOCUSABLE_SELECTORS : list (string * (Element -> bool)) :=
  [ ("map", fun e =>
       contains_class e "map-control-button" || contains_class e "zoom-control" ||
       (String.eqb (tagName e) "button" &&
        existsb (String.eqb "ol-zoom") (ancestorClasses e)));
    ("dashboard", fun e =>
       contains_class e "screen-tile" && attr_is e "tabindex" "0");
    ("detail", fun e =>
       contains_class e "focusable" || contains_class e "btn-view-all" ||
       (contains_class e "detail-widget" && attr_is e "tabindex" "0") ||
       (String.eqb (tagName e) "iframe" &&
        existsb (String.eqb "iframe-container") (ancestorIds e))) ].

(** What the manager keeps for a layer it has left. *)
Record FocusState : Type := mkFocusState {
  layer : string;
  elementSelector : option Selector;
  elementIndex : Z;
  scrollPosition : Z * Z;
  timestamp : Z;
  screenSTT : option (option string)   (* metadata.screenSTT: absent, null, or a string *)
}.

(** What [captureFocusInfo] collects. *)
Record FocusInfo : Type := mkFocusInfo {
  info_stt : option string;
  info_id : option string;
  info_selector : option Selector;
  info_index : Z;
  info_dataIndex : option string;
  info_className : option (list string)
}.

(** The object [refreshFocusableElements] returns and dispatches. *)
Record RefreshResult : Type := mkRefreshResult {
  res_layer : string;
  focusableCount : nat;
  previousFocusValid : bool;
  focusRestored : bool;
  focusedElement : option Element;
  focusInfo : FocusInfo
}.

(** The manager and the page it works on.  [activeElement] is [None]
    when [document.activeElement] is the body.  The focus trap is left
    out: nothing in the repository enables it.  [isInitialized] tells
    whether [init()] has installed the focus listeners.  [engine] is the
    browser's selector engine on the selectors the model does not read
    itself, given the nodes of the document. *)
Record State : Type := mkState {
  focusStates : gmap string FocusState;   (* a layer mapped to null is absent *)
  currentLayer : string;
  focusStateStack : list (string * FocusState);
  currentFocusedElement : option Element;
  document : list Element;                (* nodes under the body, in document order *)
  activeElement : option Element;
  scroll : gmap string (Z * Z);           (* scrollLeft, scrollTop by container id *)
  scrolledIntoView : list nat;            (* scrollIntoView calls, by node *)
  refreshed : list RefreshResult;         (* focusableElementsRefreshed events *)
  isInitialized : bool;
  engine : Selector -> list Element -> Answer
}.

Definition set_focusStates (m : gmap string FocusState) (s : State) : State :=
  mkState m (currentLayer s) (focusStateStack s) (currentFocusedElement s)
    (document s) (activeElement s) (scroll s) (scrolledIntoView s) (refreshed s)
    (isInitialized s) (engine s).

Definition set_focusStateStack (l : list (string * FocusState)) (s : State) : State :=
  mkState (focusStates s) (currentLayer s) l (currentFocusedElement s)
    (document s) (activeElement s) (scroll s) (scrolledIntoView s) (refreshed s)
    (isInitialized s) (engine s).

Definition set_currentFocusedElement (e : option Element) (s : State) : State :=
  mkState (focusStates s) (currentLayer s) (focusStateStack s) e
    (document s) (activeElement s) (scroll s) (scrolledIntoView s) (refreshed s)
    (isInitialized s) (engine s).

Definition set_activeElement (e : option Element) (s : State) : State :=
  mkState (focusStates s) (currentLayer s) (focusStateStack s)
    (currentFocusedElement s) (document s) e (scroll s) (scrolledIntoView s)
    (refreshed s) (isInitialized s) (engine s).

(** The rendering collaborator replaces the content of the page. *)
Definition set_document (d : list Element) (s : State) : State :=
  mkState (focusStates s) (currentLayer s) (focusStateStack s)
    (currentFocusedElement s) d (activeElement s) (scroll s)
    (scrolledIntoView s) (refreshed s)
    (isInitialized s) (engine s).

Definition set_scroll (m : gmap string (Z * Z)) (s : State) : State :=
  mkState (focusStates s) (currentLayer s) (focusStateStack s)
    (currentFocusedElement s) (document s) (activeElement s) m
    (scrolledIntoView s) (refreshed s)
    (isInitialized s) (engine s).

Definition scrollIntoView (e : Element) (s : State) : State :=
  mkState (focusStates s) (currentLayer s) (focusStateStack s)
    (currentFocusedElement s) (document s) (activeElement s) (scroll s)
    (scrolledIntoView s ++ [uid e]) (refreshed s) (isInitialized s) (engine s).

Definition dispatchRefreshed (r : RefreshResult) (s : State) : State :=
  mkState (focusStates s) (currentLayer s) (focusStateStack s)
    (currentFocusedElement s) (document s) (activeElement s) (scroll s)
    (scrolledIntoView s) (refreshed s ++ [r]) (isInitialized s) (engine s).

(** Whether [init()] has run. *)
Definition set_isInitialized (b : bool) (s : State) : State :=
  mkState (focusStates s) (currentLayer s) (focusStateStack s)
    (currentFocusedElement s) (document s) (activeElement s) (scroll s)
    (scrolledIntoView s) (refreshed s) b (engine s).

(** [setCurrentLayer] *)
Definition setCurrentLayer (l : string) (s : State) : State :=
  mkState (focusStates s) l (focusStateStack s) (currentFocusedElement s)
    (document s) (activeElement s) (scroll s) (scrolledIntoView s) (refreshed s)
    (isInitialized s) (engine s).

(** ** Queries on the document *)

(** [document.body.contains(e)] *)
Definition body_contains (s : State) (e : Element) : bool :=
  existsb (same_node e) (document s).

(** [document.querySelector(sel)]: the first node in document order
    that the selector matches. *)
Definition querySelector (s : State) (sel : Selector) : Query :=
  match reading sel with
  | Exact =>
      match find (matches sel) (document s) with
      | Some e => Found e
      | None => Missing
      end
  | Invalid => SyntaxError
  | Unread =>
      match engine s sel (document s) with
      | AnsError => SyntaxError
      | AnsNone => Missing
      | AnsNode k =>
          match nth_error (document s) k with
          | Some e => Found e
          | None => Missing
          end
      end
  end.

(** [document.querySelector(sel)] for a selector field that may hold
    [null], which is read as the text [null], a tag name. *)
Definition querySaved (s : State) (sel : option Selector) : Query :=
  match sel with
  | Some q => querySelector s q
  | None => querySelector s (SelTag "null")
  end.

(** A query inside [try { ... } catch { }], made only when the selector
    is set: an error gives no node. *)
Definition queryCaught (s : State) (sel : option Selector) : option Element :=
  match sel with
  | Some q => found (querySelector s q)
  | None => None
  end.

(** The query for the tile with a screen number, made only when the
    number is set; a data-stt selector is always read (see [reading]),
    so no error arises here. *)
Definition queryTile (s : State) (stt : option string) : option Element :=
  match stt with
  | Some v => found (querySelector s (SelStt v))
  | None => None
  end.

Definition getElementById (s : State) (i : string) : option Element :=
  find (matches (SelId i)) (document s).

(** [focusables[i]] for a number [i]; [None] as an index is [NaN]. *)
Definition at_index (l : list Element) (i : option Z) : option Element :=
  match i with
  | Some z => if Z.ltb z 0 then None else nth_error l (Z.to_nat z)
  | None => None
  end.

(** [l.indexOf(e)], with [e] possibly null or the body. *)
Fixpoint indexOf_from (k : Z) (l : list Element) (e : Element) : Z :=
  match l with
  | [] => -1
  | x :: l' => if same_node x e then k else indexOf_from (k + 1) l' e
  end.

Definition indexOf (l : list Element) (e : option Element) : Z :=
  match e with
  | Some x => indexOf_from 0 l x
  | None => -1
  end.

Definition getLayerContainer (s : State) (l : string) : option Element :=
  match table_get l LAYER_CONTAINERS with
  | Some cid => getElementById s cid
  | None => None
  end.

(** [container.querySelectorAll(selector)] restricted to visible nodes. *)
Definition getFocusableElements (s : State) (l : string) : list Element :=
  match getLayerContainer s l, table_get l FOCUSABLE_SELECTORS with
  | Some container, Some selector =>
      List.filter
        (fun e => existsb (String.eqb (id container)) (ancestorIds e) &&
                  selector e && offsetParent e)
        (document s)
  | _, _ => []
  end.

Definition getFirstFocusable (s : State) (l : string) : option Element :=
  head (getFocusableElements s l).

(** A reference held by the manager or the browser denotes the node
    with that identity as the document has it now; a node that left the
    document keeps the properties it had. *)
Definition deref (s : State) (e : Element) : Element :=
  default e (find (same_node e) (document s)).

(** [document.activeElement], with [None] for the body. *)
Definition active (s : State) : option Element :=
  deref s <$> activeElement s.

(** [this.currentFocusedElement || document.activeElement] *)
Definition tracked (s : State) : option Element :=
  match currentFocusedElement s with
  | Some e => Some (deref s e)
  | None => active s
  end.

(** ** Focus *)

(** Whether [element.focus()] moves [document.activeElement]: the node
    is in the document, rendered, and focusable by tag or by tabindex. *)
Definition takes_focus (s : State) (e : Element) : bool :=
  body_contains s e && offsetParent e &&
  (hasAttribute e "tabindex" ||
   existsb (String.eqb (tagName e))
     ["button"; "iframe"; "input"; "select"; "textarea"; "a"]).

(** [setFocus] *)
Definition setFocus (element : option Element) (s : State) : State :=
  match element with
  | None => s
  | Some e =>
      let s := if takes_focus s e then set_activeElement (Some e) s else s in
      scrollIntoView e (set_currentFocusedElement (Some e) s)
  end.

Definition focusFirstElement (l : string) (s : State) : bool * State :=
  match getFirstFocusable s l with
  | Some e => (true, setFocus (Some e) s)
  | None => (false, s)
  end.

(** [buildElementSelector], by priority: data-stt, id, data-index with
    the first class name, place under the parent. *)
Definition buildElementSelector (e : Element) : option Selector :=
  match getAttribute e "data-stt" with
  | Some stt => Some (SelStt stt)
  | None =>
      if negb (String.eqb (id e) "") then Some (SelId (id e))
      else
        match getAttribute e "data-index" with
        | Some idx => Some (SelDataIndex (hd "" (classList e)) idx)
        | None =>
            match parent e with
            | Some (ptag, k) => Some (SelNthChild ptag (S k))
            | None => None
            end
        end
  end.

Definition getElementIndex (s : State) (e : Element) (l : string) : Z :=
  indexOf (getFocusableElements s l) (Some e).

Definition container_id (l : string) : option string := table_get l LAYER_CONTAINERS.

Definition getScrollPosition (s : State) (l : string) : Z * Z :=
  match getLayerContainer s l with
  | Some c => default (0, 0) (scroll s !! id c)
  | None => (0, 0)
  end.

Definition restoreScrollPosition (l : string) (position : Z * Z) (s : State) : State :=
  match getLayerContainer s l with
  | Some c => set_scroll (<[id c := position]> (scroll s)) s
  | None => s
  end.

(** [buildLayerMetadata], the [screenSTT] entry: set on the dashboard
    only. *)
Definition metadata_screenSTT (e : Element) (l : string) : option (option string) :=
  if String.eqb l DASHBOARD then Some (getAttribute e "data-stt") else None.

Definition saveFocusState (time : Z) (l : string) (s : State) : State :=
  match tracked s with
  | None => s
  | Some e =>
      let focusState :=
        {| layer := l;
           elementSelector := buildElementSelector e;
           elementIndex := getElementIndex s e l;
           scrollPosition := getScrollPosition s l;
           timestamp := time;
           screenSTT := metadata_screenSTT e l |} in
      set_focusStateStack (focusStateStack s ++ [(l, focusState)])
        (set_focusStates (<[l := focusState]> (focusStates s)) s)
  end.

Definition clearFocusState (l : string) (s : State) : State :=
  set_focusStates (delete l (focusStates s)) s.

(** The three strategies of [restoreFocusState], in order: the saved
    selector, the saved index in the focusable list, the first focusable
    node.  The query of the first strategy is not guarded: its
    SyntaxError escapes. *)
Definition restore_target (s : State) (l : string) (state : FocusState)
    : Completion (option Element) :=
  match querySaved s (elementSelector state) with
  | SyntaxError => Throws
  | Found e => Returns (Some e)
  | Missing =>
      match at_index (getFocusableElements s l) (Some (elementIndex state)) with
      | Some e => Returns (Some e)
      | None => Returns (getFirstFocusable s l)
      end
  end.

(** [restoreFocusState]; when it throws, nothing has been changed. *)
Definition restoreFocusState (l : string) (s : State) : Completion bool * State :=
  match focusStates s !! l with
  | None => (Returns (fst (focusFirstElement l s)), snd (focusFirstElement l s))
  | Some state =>
      match restore_target s l state with
      | Throws => (Throws, s)
      | Returns (Some e) =>
          (Returns true,
           restoreScrollPosition l (scrollPosition state) (setFocus (Some e) s))
      | Returns None => (Returns false, s)
      end
  end.

(** ** Moving focus *)

Definition direction_name (d : Direction) : string :=
  match d with
  | DirUp => "up"
  | DirDown => "down"
  | DirLeft => "left"
  | DirRight => "right"
  end.

Definition digit_value (c : ascii) : option Z :=
  let n := Z.of_nat (nat_of_ascii c) in
  if Z.leb 48 n && Z.leb n 57 then Some (n - 48) else None.

(** The longest prefix of decimal digits; [None] when there is none. *)
Fixpoint parse_digits (acc : option Z) (str : string) : option Z :=
  match str with
  | EmptyString => acc
  | String c rest =>
      match digit_value c with
      | Some d => parse_digits (Some (10 * default 0 acc + d)) rest
      | None => acc
      end
  end.

Definition is_space (c : ascii) : bool :=
  let n := nat_of_ascii c in
  (Nat.eqb n 32 || Nat.eqb n 9 || Nat.eqb n 10 || Nat.eqb n 11 ||
   Nat.eqb n 12 || Nat.eqb n 13)%bool.

Fixpoint skip_spaces (str : string) : string :=
  match str with
  | String c rest => if is_space c then skip_spaces rest else str
  | EmptyString => str
  end.

(** [parseInt(str, 10)]; [None] is [NaN]. *)
Definition parseInt (str : string) : option Z :=
  match skip_spaces str with
  | String "-" rest => Z.opp <$> parse_digits None rest
  | String "+" rest => parse_digits None rest
  | rest => parse_digits None rest
  end.

(** A string attribute as a condition, and different from ['-1']. *)
Definition usable (v : option string) : option string :=
  match v with
  | Some str =>
      if String.eqb str "" || String.eqb str "-1" then None else Some str
  | None => None
  end.

(** The default linear navigation at the end of
    [calculateTargetIndex]. *)
Definition linear_target (currentIndex totalElements : Z) (d : Direction) : Z :=
  match d with
  | DirUp | DirLeft => Z.max 0 (currentIndex - 1)
  | DirDown | DirRight => Z.min (totalElements - 1) (currentIndex + 1)
  end.

(** What the annotations of the active tile give on the dashboard, if
    anything: the index annotation verbatim, or else the place of the
    tile the STT annotation names. *)
Definition annotated_target (s : State) (d : Direction) (l : string) : option (option Z) :=
  if String.eqb l DASHBOARD then
    match active s with
    | Some currentElement =>
        if contains_class currentElement "screen-tile" then
          let navAttr := "data-nav-" ++ direction_name d in
          match usable (getAttribute currentElement navAttr) with
          | Some targetIndexStr => Some (parseInt targetIndexStr)
          | None =>
              match usable (getAttribute currentElement (navAttr ++ "-stt")) with
              | Some targetStt =>
                  match queryTile s (Some targetStt) with
                  | Some targetElement =>
                      Some (Some (indexOf (getFocusableElements s l)
                                          (Some targetElement)))
                  | None => None
                  end
              | None => None
              end
          end
        else None
    | None => None
    end
  else None.

(** [calculateTargetIndex]; the result [None] is [NaN]. *)
Definition calculateTargetIndex (s : State) (currentIndex totalElements : Z)
    (d : Direction) (l : string) : option Z :=
  match annotated_target s d l with
  | Some target => target
  | None => Some (linear_target currentIndex totalElements d)
  end.

(** [targetIndex !== -1 && targetIndex !== currentIndex] *)
Definition differs (targetIndex : option Z) (currentIndex : Z) : bool :=
  match targetIndex with
  | Some z => negb (Z.eqb z (-1)) && negb (Z.eqb z currentIndex)
  | None => true
  end.

Definition moveFocus (d : Direction) (s : State) : bool * State :=
  let focusables := getFocusableElements s (currentLayer s) in
  let currentIndex := indexOf focusables (tracked s) in
  if Z.eqb currentIndex (-1) then focusFirstElement (currentLayer s) s
  else
    let targetIndex :=
      calculateTargetIndex s currentIndex (Z.of_nat (length focusables)) d
        (currentLayer s) in
    if differs targetIndex currentIndex
    then (true, setFocus (at_index focusables targetIndex) s)
    else (false, s).

(** ** Refresh after the document changed *)

Definition captureFocusInfo (s : State) (element : option Element) : FocusInfo :=
  match element with
  | None => mkFocusInfo None None None (-1) None None
  | Some e =>
      {| info_stt := getAttribute e "data-stt";
         info_id := if String.eqb (id e) "" then None else Some (id e);
         info_dataIndex := getAttribute e "data-index";
         info_className :=
           match classList e with [] => None | cs => Some cs end;
         info_selector := buildElementSelector e;
         info_index :=
           indexOf (getFocusableElements s (currentLayer s)) (Some e) |}
  end.

(** One restoration attempt: skipped once focus has been restored or
    when its condition fails; otherwise the candidate, if there is one,
    gets focus. *)
Definition attempt (cond : bool) (candidate : option Element)
    (st : option Element * State) : option Element * State :=
  match st with
  | (Some _, _) => st
  | (None, s) =>
      if cond then
        match candidate with
        | Some e => (Some e, setFocus (Some e) s)
        | None => st
        end
      else st
  end.

(** The screen number strategy 5 puts in its selector for
    [metadata.screenSTT]; [null] is interpolated as the text "null". *)
Definition metadata_stt (m : option (option string)) : option string :=
  match m with
  | Some (Some stt) => Some stt
  | Some None => Some "null"
  | None => None
  end.

Definition is_some {A : Type} (o : option A) : bool :=
  match o with Some _ => true | None => false end.

Definition refreshFocusableElements (l : option string) (s : State)
    : RefreshResult * State :=
  let targetLayer :=
    match l with
    | Some name => if String.eqb name "" then currentLayer s else name
    | None => currentLayer s
    end in
  let focusedElement := tracked s in
  let focusInfo := captureFocusInfo s focusedElement in
  let isFocusedElementValid :=
    match focusedElement with
    | Some e => body_contains s e && offsetParent e
    | None => false
    end in
  let focusables := getFocusableElements s targetLayer in
  let result restored element :=
    {| res_layer := targetLayer;
       focusableCount := length focusables;
       previousFocusValid := isFocusedElementValid;
       focusRestored := restored;
       focusedElement := element;
       focusInfo := focusInfo |} in
  if isFocusedElementValid then
    (* the focused node is still there: keep it *)
    (result true focusedElement,
     dispatchRefreshed (result true focusedElement) s)
  else
    let savedState := focusStates s !! targetLayer in
    let st0 : option Element * State := (None, s) in
    (* 1: data-stt *)
    let st1 := attempt (is_some (info_stt focusInfo))
                 (queryTile s (info_stt focusInfo)) st0 in
    (* 2: id *)
    let st2 := attempt (is_some (info_id focusInfo))
                 (getElementById s (default "" (info_id focusInfo))) st1 in
    (* 3: selector *)
    let st3 := attempt (is_some (info_selector focusInfo))
                 (queryCaught s (info_selector focusInfo)) st2 in
    (* 4: index, clamped to the list *)
    let st4 := attempt (Z.leb 0 (info_index focusInfo) &&
                        Nat.ltb 0 (length focusables))
                 (at_index focusables
                    (Some (Z.min (info_index focusInfo)
                                 (Z.of_nat (length focusables) - 1)))) st3 in
    (* 5: the saved state of the layer, selector then metadata *)
    let st5 := attempt (is_some savedState)
                 (queryCaught s (savedState ≫= elementSelector)) st4 in
    let st6 := attempt (is_some (savedState ≫= screenSTT))
                 (queryTile s (metadata_stt (savedState ≫= screenSTT)))
                 st5 in
    (* fallback: first focusable *)
    let st7 := attempt (Nat.ltb 0 (length focusables)) (head focusables) st6 in
    let '(restored, s') := st7 in
    let s'' :=
      if is_some restored then s' else set_currentFocusedElement None s' in
    (result (is_some restored) restored,
     dispatchRefreshed (result (is_some restored) restored) s'').

End Focus.

(** * DashboardGrid: the tiles it renders *)

Module Dashboard.
Import Grid Focus.

(** [createScreenElement] for the screen with number [stt] at [index];
    the tile is the [index]-th child of the grid, inside the dashboard
    container. *)
Definition createScreenElement (currentLayout : option Layout)
    (screens : list Z) (stt : Z) (index : nat) : Element :=
  {| uid := 100 + index;
     tagName := "div";
     id := "screen-tile-" ++ pretty stt;
     classList := if Z.eqb stt 0 then ["screen-tile"; "map-screen"]
                  else ["screen-tile"];
     attributes :=
       [ ("data-stt", pretty stt); ("data-index", pretty (Z.of_nat index));
         ("tabindex", "0") ] ++
       setNavigationAttributes currentLayout screens (Z.of_nat index);
     ancestorIds := ["dashboard-grid"; "dashboard-container"];
     ancestorClasses := ["dashboard-grid"; "dashboard-wrapper"];
     parent := Some ("div", index);
     offsetParent := true |}.

(** The container set up by [setupContainer]. *)
Definition container : Element :=
  {| uid := 1; tagName := "div"; id := "dashboard-container";
     classList := []; attributes := []; ancestorIds := [];
     ancestorClasses := []; parent := Some ("body", 0%nat);
     offsetParent := true |}.

(** [renderGrid]: one tile per screen, in order. *)
Definition renderGrid (screens : list Z) : list Element :=
  container ::
  imap (fun index stt =>
          createScreenElement (calculateLayout (Z.of_nat (length screens)))
            screens stt index) screens.

(** A page showing the dashboard with these screens, focus on the tile
    at [focus]. *)
Definition page (screens : list Z) (focus : nat) : State :=
  {| focusStates := ∅; currentLayer := DASHBOARD; focusStateStack := [];
     currentFocusedElement := nth_error (renderGrid screens) (S focus);
     document := renderGrid screens;
     activeElement := nth_error (renderGrid screens) (S focus);
     scroll := ∅; scrolledIntoView := []; refreshed := [];
     isInitialized := true; engine := fun _ _ => AnsError |}.

(** ** Scenarios *)

(** A tile with a number and an id chosen apart. *)
Definition tile (u : nat) (stt name : string) (index : nat) : Element :=
  {| uid := u; tagName := "div"; id := name; classList := ["screen-tile"];
     attributes := [("data-stt", stt); ("data-index", pretty (Z.of_nat index));
                    ("tabindex", "0")];
     ancestorIds := ["dashboard-grid"; "dashboard-container"];
     ancestorClasses := ["dashboard-grid"; "dashboard-wrapper"];
     parent := Some ("div", index); offsetParent := true |}.

(** Two tiles, focus on the second (number 5, id tile-b). *)
Definition before_render : State :=
  {| focusStates := ∅; currentLayer := DASHBOARD; focusStateStack := [];
     currentFocusedElement := Some (tile 11 "5" "tile-b" 1);
     document := [container; tile 10 "1" "tile-a" 0; tile 11 "5" "tile-b" 1];
     activeElement := Some (tile 11 "5" "tile-b" 1);
     scroll := ∅; scrolledIntoView := []; refreshed := [];
     isInitialized := true; engine := fun _ _ => AnsError |}.

(** The focus is saved, then the page is rendered again: no tile has
    number 5 any more, the tile with id tile-b is now third. *)
Definition after_render : State :=
  set_document
    [container; tile 20 "1" "tile-a" 0; tile 21 "2" "tile-c" 1;
     tile 22 "7" "tile-b" 2]
    (saveFocusState 0 DASHBOARD before_render).

(** A dashboard with one tile and the focus on the body. *)
Definition unfocused (screens : list Z) : State :=
  set_activeElement None (set_currentFocusedElement None (page screens 0)).

End Dashboard.

(** * TVRemoteInputHandler: traces of key events *)

Module Handler.
Import Keys Input.

(** A normalised key offered to [normalizeKeyCode] again, as an event
    with those two fields. *)
Definition as_event (k : NormalizedKey) : KeyboardEvent :=
  {| keyCode := nkeyCode k; key := nkey k |}.

(** Events that deliver a key or let time pass. *)
Definition delivers_key (e : Event) : bool :=
  match e with
  | KeyDown _ _ | TizenKey _ _ => true
  | Elapse dt => Z.leb 0 dt
  | _ => false
  end.

(** The hardware keys registered with [tvinputdevice.registerKey]. *)
Definition TIZEN_KEYS_TO_REGISTER : list string :=
  [ "VolumeUp"; "VolumeDown"; "VolumeMute"; "MediaPlay"; "MediaPause";
    "MediaStop"; "ColorF0Red"; "ColorF1Green"; "ColorF2Yellow";
    "ColorF3Blue"; "Info" ].

(** The events that bring a busy handler back to rest: the suspended
    handler settles, the debounce delay passes, the timer fires. *)
Definition settle_down (w : World) : list Event :=
  match awaiting w, timers w with
  | Some _, _ => [Settle (Returned true); Elapse (delay w); TimerFires]
  | None, due :: _ => [Elapse (Z.max 0 (due - now w)); TimerFires]
  | None, [] => []
  end.

End Handler.

(** * LayerNavigationManager: sequences of requests *)

Module Navigation.
Import Layers.

(** What callers ask of the manager. *)
Inductive Request : Type :=
  | Push (target : Z) (stt : option Z)   (* pushLayer(target, { screenSTT }) *)
  | Pop                                  (* popLayer(), back() *)
  | ShowDashboard                        (* showDashboard() *)
  | OpenDetail (stt : Z)                 (* openDetailScreen(stt) *)
  | LinkIframe.                          (* setIframeManager(manager) *)

(** One request, served to its end in the surroundings it meets; the
    manager it leaves. *)
Definition serve (env : Env) (r : Request) (m : Manager) : Manager :=
  match r with
  | Push target stt =>
      snd (pushLayer env target {| isBack := false; screenSTT := stt |} m)
  | Pop => snd (back env m)
  | ShowDashboard => snd (showDashboard env m)
  | OpenDetail stt => snd (openDetailScreen env stt m)
  | LinkIframe => setIframeManager m
  end.

(** Requests served one after the other, each awaited. *)
Fixpoint serve_all (rs : list (Env * Request)) (m : Manager) : Manager :=
  match rs with
  | [] => m
  | (env, r) :: rs' => serve_all rs' (serve env r m)
  end.

(** Every step of the history is a move the adjacency table allows. *)
Fixpoint walk (h : list Z) : bool :=
  match h with
  | a :: t =>
      match t with
      | b :: _ => canTransition a b && walk t
      | [] => true
      end
  | [] => true
  end.

(** What every served request leaves behind. *)
Definition settled (m : Manager) : Prop :=
  isTransitioning m = false /\ transitionState m = IDLE /\
  hd_error (layerHistory m) = Some MAP /\
  last (layerHistory m) = Some (currentLayer m) /\
  walk (layerHistory m) = true.

(** Surroundings in which exactly the calls selected by [bad] fail. *)
Definition failing (bad : Call -> bool) : Env :=
  {| throws := bad; isTizen := true |}.

Definition is_OpenScreen (c : Call) : bool :=
  match c with OpenScreen _ => true | _ => false end.

Definition is_FocusFirstElement (c : Call) : bool :=
  match c with FocusFirstElement _ => true | _ => false end.

(** The dashboard reached from the map, with the iframe manager linked. *)
Definition dashboard : Manager :=
  serve_all [(calm true, LinkIframe); (calm true, ShowDashboard)] initial.

(** The run [init()], link the iframe manager, show the dashboard, open
    screen 4, go back. *)
Definition there_and_back : list (Env * Request) :=
  [ (calm true, LinkIframe); (calm true, ShowDashboard);
    (calm true, OpenDetail 4); (calm true, Pop) ].

End Navigation.

(** * FocusManager: housekeeping *)

Module FocusCare.
Import Keys Focus Dashboard.

(** What the selector of a saved state gives in [validateFocusStates];
    a state without a selector is not queried. *)
Definition saved_query (s : State) (state : FocusState) : option Query :=
  querySelector s <$> elementSelector state.

(** Whether [validateFocusStates] keeps a saved state: one without a
    selector always, one with a selector when it finds a node of the
    document. *)
Definition resolves (s : State) (state : FocusState) : bool :=
  match saved_query s state with
  | Some (Found e) => body_contains s e
  | Some Missing | Some SyntaxError => false
  | None => true
  end.

(** Whether the selector of a saved state makes the query throw. *)
Definition raises (s : State) (state : FocusState) : bool :=
  match saved_query s state with
  | Some SyntaxError => true
  | _ => false
  end.

(** The [forEach] of [validateFocusStates] over the layers in [order],
    the order in which the Map received them: a saved state whose
    selector finds nothing is set to null; a SyntaxError ends the walk,
    leaving the states before it cleaned and the others as they were. *)
Fixpoint validate_states (s : State) (order : list string)
    (states : gmap string FocusState) : Completion unit * gmap string FocusState :=
  match order with
  | [] => (Returns tt, states)
  | l :: rest =>
      match states !! l with
      | Some state =>
          if raises s state then (Throws, states)
          else if resolves s state then validate_states s rest states
          else validate_states s rest (delete l states)
      | None => validate_states s rest states
      end
  end.

(** [validateFocusStates], with the iteration order of [focusStates]
    given: after the saved states, a tracked node that left the document
    is forgotten; an error from a selector escapes before that. *)
Definition validateFocusStates (order : list string) (s : State)
    : Completion unit * State :=
  match validate_states s order (focusStates s) with
  | (Throws, states) => (Throws, set_focusStates states s)
  | (Returns _, states) =>
      let s := set_focusStates states s in
      (Returns tt,
       match currentFocusedElement s with
       | Some e =>
           if body_contains s e then s else set_currentFocusedElement None s
       | None => s
       end)
  end.

(** What the chain of attempts keeps true: nothing restored and the
    state untouched, or a node of the document restored and tracked. *)
Definition Restoring (s : State) (st : option Element * State) : Prop :=
  match fst st with
  | None => snd st = s
  | Some x => body_contains s x = true /\
              currentFocusedElement (snd st) = Some x
  end.

(** ** Scenarios *)

(** The page of [before_render] rendered again with new nodes; the
    tracked node has left the document, and a new tile carries its
    screen number. *)
Definition rerendered : State :=
  set_document
    [container; tile 30 "1" "tile-a" 0; tile 31 "9" "tile-z" 1;
     tile 32 "5" "tile-b" 2]
    (set_activeElement None before_render).

(** The detail layer with three widgets, focus on the second. *)
Definition widget (u : nat) (index : nat) : Element :=
  {| uid := u; tagName := "div"; id := ""; classList := ["focusable"];
     attributes := []; ancestorIds := ["detail-container"];
     ancestorClasses := []; parent := Some ("div", index);
     offsetParent := true |}.

(** A widget of the detail layer known by its id alone. *)
Definition named (u : nat) (name : string) (index : nat) : Element :=
  {| uid := u; tagName := "div"; id := name; classList := ["focusable"];
     attributes := []; ancestorIds := ["detail-container"];
     ancestorClasses := []; parent := Some ("div", index);
     offsetParent := true |}.

Definition detail_container : Element :=
  {| uid := 2; tagName := "div"; id := "detail-container"; classList := [];
     attributes := []; ancestorIds := []; ancestorClasses := [];
     parent := Some ("body", 1%nat); offsetParent := true |}.

Definition detail_page : State :=
  {| focusStates := ∅; currentLayer := DETAIL; focusStateStack := [];
     currentFocusedElement := Some (widget 41 1);
     document := [detail_container; widget 40 0; widget 41 1; widget 42 2];
     activeElement := Some (widget 41 1);
     scroll := ∅; scrolledIntoView := []; refreshed := [];
     isInitialized := true; engine := fun _ _ => AnsError |}.

(** The detail layer with two widgets whose ids are [4] and [save],
    focus on the one given; and the same with that focus saved. *)
Definition detail_ids (focus : Element) : State :=
  {| focusStates := ∅; currentLayer := DETAIL; focusStateStack := [];
     currentFocusedElement := Some focus;
     document := [detail_container; named 50 "4" 0; named 51 "save" 1];
     activeElement := Some focus;
     scroll := ∅; scrolledIntoView := []; refreshed := [];
     isInitialized := true; engine := fun _ _ => AnsError |}.

Definition detail_named (focus : Element) : State :=
  saveFocusState 0 DETAIL (detail_ids focus).

End FocusCare.

(** * DashboardGrid: moving between tiles *)

Module DashboardNav.
Import Keys Grid Focus Dashboard.

(** The annotation of a tile for one direction. *)
Definition towards (d : Direction) (n : Neighbours) : Z :=
  match d with
  | DirUp => up n
  | DirDown => down n
  | DirLeft => left n
  | DirRight => right n
  end.

(** The tiles [renderGrid] puts in the grid. *)
Definition rendered_tiles (screens : list Z) : list Element :=
  imap (fun index stt =>
          createScreenElement (calculateLayout (Z.of_nat (length screens)))
            screens stt index) screens.

Definition inside_container (e : Element) : bool :=
  existsb (String.eqb "dashboard-container") (ancestorIds e).

(** [this.container.querySelectorAll('.screen-tile')] *)
Definition screen_tiles (s : State) : list Element :=
  List.filter (fun e => inside_container e && contains_class e "screen-tile")
    (document s).

(** [handleFocusIn], the listener [FocusManager.init()] installs for
    [focusin]: the manager tracks the node that received the focus. *)
Definition handleFocusIn (target : Element) (s : State) : State :=
  set_currentFocusedElement (Some target) s.

(** [element.focus()] called from outside the focus manager: when the
    focus moves, [focusin] is dispatched, and heard once the manager is
    initialised. *)
Definition focus (e : Element) (s : State) : State :=
  if takes_focus s e then
    let s := set_activeElement (Some e) s in
    if isInitialized s then handleFocusIn e s else s
  else s.

(** [element.focus()] followed by [element.scrollIntoView(...)]. *)
Definition focus_and_scroll (e : Element) (s : State) : State :=
  scrollIntoView e (focus e s).

(** [focusScreen] *)
Definition focusScreen (index : option Z) (s : State) : State :=
  match at_index (screen_tiles s) index with
  | Some e => focus_and_scroll e s
  | None => s
  end.

(** [navigate]: the index annotation when it names a tile, or else the
    tile the STT annotation names; nothing otherwise. *)
Definition navigate (d : Direction) (currentIndex : Z) (s : State) : State :=
  match at_index (screen_tiles s) (Some currentIndex) with
  | None => s
  | Some currentElement =>
      let navAttr := "data-nav-" ++ direction_name d in
      let by_index :=
        match usable (getAttribute currentElement navAttr) with
        | Some navIndex =>
            let targetIndex := parseInt navIndex in
            if is_some (at_index (screen_tiles s) targetIndex)
            then Some targetIndex else None
        | None => None
        end in
      match by_index with
      | Some targetIndex => focusScreen targetIndex s
      | None =>
          match usable (getAttribute currentElement (navAttr ++ "-stt")) with
          | Some fallbackStt =>
              match find (fun e => inside_container e &&
                                   matches (SelStt fallbackStt) e)
                         (document s) with
              | Some fallbackElement => focus_and_scroll fallbackElement s
              | None => s
              end
          | None => s
          end
      end
  end.

End DashboardNav.

(** * ScreenManager *)

Module Screens.
Import Keys.

Inductive View : Type := MapView | DashboardView.

(** The events the manager dispatches on the window. *)
Inductive Dispatched : Type :=
  | ViewChange (view : View)
  | ScreenFocus (screenIndex : Z) (STT : Z)
  | OpenDetail (screenIndex : Z) (STT : Z).

(** The manager; a screen is kept by its STT. *)
Record ScreenManager : Type := mkScreenManager {
  activeScreens : list Z;
  currentView : View;
  focusedScreenIndex : Z;
  dispatched : list Dispatched
}.

(** The constructor's state. *)
Definition initial : ScreenManager :=
  {| activeScreens := []; currentView := MapView; focusedScreenIndex := -1;
     dispatched := [] |}.

Definition count (m : ScreenManager) : Z := Z.of_nat (length (activeScreens m)).

(** What [calculateLayout] returns, without the flex basis. *)
Record Layout : Type := mkLayout {
  grid : bool;            (* type: 'grid', not 'fullscreen' *)
  columns : Z;
  rows : Z
}.

Definition calculateLayout (m : ScreenManager) : Layout :=
  let screenCount := count m in
  if Z.eqb screenCount 0 then mkLayout false 1 1
  else if Z.leb screenCount 1 then mkLayout true 1 1
  else if Z.leb screenCount 2 then mkLayout true 2 1
  else if Z.leb screenCount 4 then mkLayout true 2 2
  else if Z.leb screenCount 6 then mkLayout true 3 2
  else if Z.leb screenCount 9 then mkLayout true 3 3
  else mkLayout true 4 (Grid.ceil_div screenCount 4).

Definition dispatch (e : Dispatched) (m : ScreenManager) : ScreenManager :=
  mkScreenManager (activeScreens m) (currentView m) (focusedScreenIndex m)
    (dispatched m ++ [e]).

Definition set_currentView (v : View) (m : ScreenManager) : ScreenManager :=
  mkScreenManager (activeScreens m) v (focusedScreenIndex m) (dispatched m).

Definition set_focusedScreenIndex (i : Z) (m : ScreenManager) : ScreenManager :=
  mkScreenManager (activeScreens m) (currentView m) i (dispatched m).

Definition switchToMapView (m : ScreenManager) : ScreenManager :=
  dispatch (ViewChange MapView) (set_currentView MapView m).

Definition switchToDashboardView (m : ScreenManager) : ScreenManager :=
  dispatch (ViewChange DashboardView) (set_currentView DashboardView m).

Definition is_dashboard (v : View) : bool :=
  match v with DashboardView => true | MapView => false end.

(** [autoSwitchView] *)
Definition autoSwitchView (m : ScreenManager) : ScreenManager :=
  if Z.ltb 0 (count m) then
    if negb (is_dashboard (currentView m)) then switchToDashboardView m else m
  else
    if is_dashboard (currentView m) then switchToMapView m else m.

(** [this.activeScreens[i]] *)
Definition screen_at (m : ScreenManager) (i : Z) : option Z :=
  if Z.ltb i 0 then None else nth_error (activeScreens m) (Z.to_nat i).

(** [focusScreen] *)
Definition focusScreen (screenIndex : Z) (m : ScreenManager) : bool * ScreenManager :=
  if Z.ltb screenIndex 0 || Z.leb (count m) screenIndex then (false, m)
  else
    match screen_at m screenIndex with
    | Some stt =>
        (true, dispatch (ScreenFocus screenIndex stt)
                 (set_focusedScreenIndex screenIndex m))
    | None => (false, m)
    end.

(** [moveFocus] *)
Definition moveFocus (d : Direction) (m : ScreenManager) : bool * ScreenManager :=
  if negb (is_dashboard (currentView m)) || Z.eqb (count m) 0 then (false, m)
  else
    let layout := calculateLayout m in
    let currentIndex := focusedScreenIndex m in
    if Z.ltb currentIndex 0 then focusScreen 0 m
    else
      let currentRow := currentIndex / columns layout in
      let currentCol := currentIndex mod columns layout in
      let newIndex :=
        match d with
        | DirUp =>
            if Z.ltb 0 currentRow
            then (currentRow - 1) * columns layout + currentCol
            else currentIndex
        | DirDown =>
            if Z.ltb currentRow (rows layout - 1) then
              let nextIndex := (currentRow + 1) * columns layout + currentCol in
              if Z.ltb nextIndex (count m) then nextIndex else currentIndex
            else currentIndex
        | DirLeft =>
            if Z.ltb 0 currentCol then currentIndex - 1 else currentIndex
        | DirRight =>
            if Z.ltb currentCol (columns layout - 1) &&
               Z.ltb (currentIndex + 1) (count m)
            then currentIndex + 1 else currentIndex
        end in
      if negb (Z.eqb newIndex currentIndex) then focusScreen newIndex m
      else (false, m).

(** [openDetailScreen] *)
Definition openDetailScreen (screenIndex : Z) (m : ScreenManager)
    : bool * ScreenManager :=
  if Z.ltb screenIndex 0 || Z.leb (count m) screenIndex then (false, m)
  else
    match screen_at m screenIndex with
    | Some stt => (true, dispatch (OpenDetail screenIndex stt) m)
    | None => (false, m)
    end.

(** [getFocusedScreen] *)
Definition getFocusedScreen (m : ScreenManager) : option Z :=
  if Z.leb 0 (focusedScreenIndex m) && Z.ltb (focusedScreenIndex m) (count m)
  then screen_at m (focusedScreenIndex m) else None.

(** A dashboard of these screens with the focus at [i]. *)
Definition showing (screens : list Z) (i : Z) : ScreenManager :=
  {| activeScreens := screens; currentView := DashboardView;
     focusedScreenIndex := i; dispatched := [] |}.

End Screens.

(** * IframeScreenManager: the screen mapping *)

Module IframeScreens.

(** A property of an object literal with numeric keys. *)
Fixpoint entry {V : Type} (k : Z) (t : list (Z * V)) : option V :=
  match t with
  | [] => None
  | (k', v) :: t' => if Z.eqb k k' then Some v else entry k t'
  end.

Definition DEFAULT_SCREEN_MAPPING : list (Z * string) :=
  [ (4, "screens/M4banDoDuongOng.html");
    (5, "screens/M5thongTinDiemChay.html");
    (6, "screens/M6thongTinLapDatMoiThayTheDongHo.html");
    (7, "screens/M7thongTinTienDoThiCongMangDuongOngCap12.html");
    (8, "screens/M8thongTinKetQuaGhiChiSoDongHo.html");
    (9, "screens/M9thongTinKetQuaCongNo.html");
    (10, "screens/M10thongTinTyLeThaThoatCacDMA.html");
    (11, "screens/M11thongTinChatLuongNuoc.html") ].

Definition SCREEN_NAME_PATTERNS : list (Z * string) :=
  [ (4, "banDoDuongOng");
    (5, "thongTinDiemChay");
    (6, "thongTinLapDatMoiThayTheDongHo");
    (7, "thongTinTienDoThiCongMangDuongOngCap12");
    (8, "thongTinKetQuaGhiChiSoDongHo");
    (9, "thongTinKetQuaCongNo");
    (10, "thongTinTyLeThaThoatCacDMA");
    (11, "thongTinChatLuongNuoc") ].

(** The module variable [SCREEN_MAPPING] is a [gmap (option Z) string]:
    a key is what [parseInt] gave, a number (taken to be in the range
    JavaScript represents exactly) or [None] for [NaN]. *)

(** [{ ...DEFAULT_SCREEN_MAPPING }] *)
Definition default_mapping : gmap (option Z) string :=
  list_to_map (List.map (fun p => (Some (fst p), snd p)) DEFAULT_SCREEN_MAPPING).

(** A looked-up path as a condition: present and not empty. *)
Definition truthy (p : option string) : option string :=
  match p with
  | Some str => if String.eqb str "" then None else Some str
  | None => None
  end.

(** [DEFAULT_SCREEN_MAPPING[stt]] *)
Definition default_path (stt : option Z) : option string :=
  match stt with
  | Some n => entry n DEFAULT_SCREEN_MAPPING
  | None => None
  end.

(** [hasScreen], also the guard at the head of [openScreen]. *)
Definition hasScreen (stt : option Z) (m : gmap (option Z) string) : bool :=
  match truthy (m !! stt) with Some _ => true | None => false end.

(** [setScreenPath] *)
Definition setScreenPath (stt : option Z) (path : string)
    (m : gmap (option Z) string) : gmap (option Z) string :=
  match stt with
  | None => m
  | Some n => <[Some n := path]> m
  end.

(** [removeScreen] *)
Definition removeScreen (stt : option Z) (m : gmap (option Z) string)
    : gmap (option Z) string :=
  match truthy (m !! stt) with
  | Some _ => delete stt m
  | None => m
  end.

(** [getScreenPath]; [None] is [null]. *)
Definition getScreenPath (stt : option Z) (m : gmap (option Z) string)
    : option string :=
  match truthy (m !! stt) with
  | Some path => Some path
  | None => truthy (default_path stt)
  end.

(** [`${stt}`] *)
Definition stt_text (stt : option Z) : string :=
  match stt with
  | Some n => pretty n
  | None => "NaN"
  end.

(** [generateScreenPath].  [fromName] stands for what the screen name
    yields when it is given, matches [M<digits>: <name>] and converts to
    a file name; the code reads it only when no pattern is known. *)
Definition generateScreenPath (stt : option Z) (fromName : option string)
    : option string :=
  match truthy (stt ≫= fun n => entry n SCREEN_NAME_PATTERNS) with
  | Some pattern => Some ("screens/M" ++ stt_text stt ++ pattern ++ ".html")
  | None =>
      match truthy fromName with
      | Some name => Some ("screens/M" ++ stt_text stt ++ name ++ ".html")
      | None => truthy (default_path stt)
      end
  end.

End IframeScreens.

(** * Properties *)

(** ** Key tables *)

Lemma table_get_Some {V : Type} (k : string) (t : list (string * V)) (v : V) :
  table_get k t = Some v -> In (k, v) t.
Proof.
  induction t as [|[k' v'] t IH]; simpl; [discriminate|].
  destruct (String.eqb_spec k k') as [->|Hne].
  - intros [= ->]. now left.
  - intros H. right. auto.
Qed.

Lemma table_get_None {V : Type} (k : string) (t : list (string * V)) :
  table_get k t = None -> forall k' v, In (k', v) t -> k <> k'.
Proof.
  induction t as [|[k0 v0] t IH]; simpl; [tauto|].
  destruct (String.eqb_spec k k0) as [->|Hne]; [discriminate|].
  intros H k' v [[= <- <-]|Hin]; [assumption|eauto].
Qed.

Section KeyFacts.
Import Keys.

(** Every code the dispatcher's switch recognises selects one action, and
    only the back action has two codes. *)
Lemma default_action_code (z : Z) (a : Action) :
  default_action (Some z) = Some a ->
  a <> ActBack ->
  forall z', default_action (Some z') = Some a -> z' = z.
Proof.
  unfold default_action, ARROW_UP, ARROW_DOWN, ARROW_LEFT, ARROW_RIGHT,
    ENTER, ESCAPE, BACK, VOLUME_UP, VOLUME_DOWN.
  intros Hz Hnb z' Hz'.
  repeat match type of Hz with
  | context [Z.eqb ?x ?y] => destruct (Z.eqb_spec x y); simpl in Hz
  | context [Z.leb ?x ?y] => destruct (Z.leb_spec x y); simpl in Hz
  end; try discriminate; injection Hz as <-; try congruence;
  repeat match type of Hz' with
  | context [Z.eqb ?x ?y] => destruct (Z.eqb_spec x y); simpl in Hz'
  | context [Z.leb ?x ?y] => destruct (Z.leb_spec x y); simpl in Hz'
  end; try discriminate; try lia; injection Hz' as Hz'; lia.
Qed.

(** A key name outside the table matches none of the names the normaliser
    compares against. *)
Lemma unknown_name (k : option string) :
  name_code k = None ->
  forall c, In c compared_names -> key_is k c = false.
Proof.
  intros Hn c Hc. destruct k as [s|]; [|reflexivity].
  unfold name_code in Hn. unfold key_is.
  apply String.eqb_neq.
  assert (exists v, In (c, v) KEY_NAME_MAP) as [v Hv].
  { unfold compared_names in Hc. simpl in Hc. unfold KEY_NAME_MAP.
    repeat (destruct Hc as [<-|Hc]; [eexists; apply table_get_Some; reflexivity|]).
    contradiction. }
  destruct (String.eqb s "") eqn:E.
  - apply String.eqb_eq in E. subst s. intros Heq. subst c.
    revert Hv. unfold KEY_NAME_MAP. simpl. intuition discriminate.
  - eapply table_get_None; eauto.
Qed.

Lemma known_name (k : option string) (c : Z) :
  name_code k = Some c -> exists s, k = Some s /\ In (s, c) KEY_NAME_MAP.
Proof.
  destruct k as [s|]; [|discriminate]. unfold name_code.
  destruct (String.eqb s ""); [discriminate|].
  intros H. exists s. split; [reflexivity|]. now apply table_get_Some.
Qed.

Lemma normalize_action (ev : KeyboardEvent) (a : Action) :
  spells ev a -> default_action (nkeyCode (normalizeKeyCode ev)) = Some a.
Proof.
  destruct ev as [kc k]. unfold spells, name_action, normalizeKeyCode.
  cbn [keyCode key].
  destruct (name_code k) as [c|] eqn:Hnc.
  - apply known_name in Hnc as (s & -> & Hin).
    unfold KEY_NAME_MAP in Hin; simpl in Hin.
    repeat (destruct Hin as [Hin|Hin]; [injection Hin as <- <-|]); [..|contradiction];
    (destruct (unreliable kc) eqn:Hu;
     [ intros H; exact H
     | intros [H Hag]; destruct kc as [z|]; [|discriminate]; simpl;
       destruct (Z.eqb_spec z BACK) as [->|Hnb]; simpl;
       [ exact H | destruct Hag as [Hag|Hag]; [discriminate|]; first [exact Hag | exact H] ] ]).
  - pose proof (unknown_name k Hnc) as Hk. unfold compared_names in Hk.
    destruct (unreliable kc); [discriminate|].
    intros [H _]. destruct kc as [z|]; [|discriminate].
    rewrite !Hk by (simpl; tauto). simpl.
    destruct (Z.eqb_spec z BACK) as [->|]; simpl; [exact H|].
    rewrite !Hk by (simpl; tauto). simpl. exact H.
Qed.

Lemma normalize_tizen_back (ev : KeyboardEvent) :
  tizen_back ev = true ->
  normalizeKeyCode ev = {| nkey := Some "Back"; nkeyCode := Some BACK |}.
Proof.
  destruct ev as [kc k]. unfold tizen_back, normalizeKeyCode. cbn [keyCode key].
  intros H.
  assert (Ht : key_is k "XF86Back" || key_is k "Back" ||
               code_is (if unreliable kc
                        then match name_code k with Some c => Some c | None => kc end
                        else kc) BACK = true).
  { apply Bool.orb_true_iff in H as [H|H]; [rewrite H; reflexivity|].
    destruct kc as [z|]; [|discriminate]. simpl in H.
    apply Z.eqb_eq in H. subst z. simpl. apply Bool.orb_true_r. }
  rewrite Ht. reflexivity.
Qed.

Lemma normalize_other_back (ev : KeyboardEvent) :
  spells ev ActBack -> tizen_back ev = false ->
  normalizeKeyCode ev = {| nkey := key ev; nkeyCode := Some ESCAPE |}.
Proof.
  intros Hs Hb. pose proof (normalize_action ev ActBack Hs) as Ha.
  destruct ev as [kc k]. unfold tizen_back in Hb. cbn [keyCode key] in *.
  apply Bool.orb_false_iff in Hb as [Hb Hc].
  revert Ha. unfold normalizeKeyCode. cbn [keyCode key].
  unfold spells in Hs. cbn [keyCode key] in Hs. unfold name_action in Hs.
  cbn [key] in Hs.
  destruct (name_code k) as [c|] eqn:Hnc.
  - apply known_name in Hnc as (s & -> & Hin).
    unfold KEY_NAME_MAP in Hin; simpl in Hin.
    repeat (destruct Hin as [Hin|Hin]; [injection Hin as <- <-|]); [..|contradiction];
    try (vm_compute in Hb; discriminate Hb);
    (destruct (unreliable kc) eqn:Hu;
     [ try discriminate Hs; simpl; reflexivity
     | destruct Hs as [Hs Hag]; destruct kc as [z|]; [|discriminate];
       (destruct Hag as [Hag|Hag]; [discriminate Hag|]); try discriminate Hag;
       simpl in Hc |- *; rewrite Hc ]).
    simpl. intros Ha. f_equal.
    revert Ha Hc. unfold default_action, ARROW_UP, ARROW_DOWN, ARROW_LEFT,
      ARROW_RIGHT, ENTER, ESCAPE, BACK, VOLUME_UP, VOLUME_DOWN.
    repeat match goal with
    | |- context [Z.eqb ?x ?y] => destruct (Z.eqb_spec x y); simpl
    | |- context [Z.leb ?x ?y] => destruct (Z.leb_spec x y); simpl
    end; intros; subst; congruence.
  - pose proof (unknown_name k Hnc) as Hk. unfold compared_names in Hk.
    destruct (unreliable kc); [discriminate|].
    destruct Hs as [Hs _]. destruct kc as [z|]; [|discriminate].
    rewrite !Hk by (simpl; tauto). cbn [orb]. rewrite Hc. cbn iota.
    rewrite !Hk by (simpl; tauto). cbn [orb]. cbn [nkeyCode].
    intros Ha. f_equal.
    revert Ha Hc. unfold code_is, default_action, ARROW_UP, ARROW_DOWN, ARROW_LEFT,
      ARROW_RIGHT, ENTER, ESCAPE, BACK, VOLUME_UP, VOLUME_DOWN.
    repeat match goal with
    | |- context [Z.eqb ?x ?y] => destruct (Z.eqb_spec x y); simpl
    | |- context [Z.leb ?x ?y] => destruct (Z.leb_spec x y); simpl
    end; intros; subst; congruence.
Qed.

(** The key name comes back as delivered unless the Tizen back branch
    replaced the pair. *)
Lemma normalize_key_cases (ev : KeyboardEvent) :
  nkey (normalizeKeyCode ev) = key ev \/
  normalizeKeyCode ev = {| nkey := Some "Back"; nkeyCode := Some BACK |}.
Proof.
  destruct ev as [kc k]. unfold normalizeKeyCode. cbn [keyCode key].
  destruct (key_is k "XF86Back" || key_is k "Back" || code_is _ BACK);
    [right|left]; reflexivity.
Qed.

Lemma key_as_delivered (ev : KeyboardEvent) (a : Action) :
  spells ev a -> a <> ActBack -> nkey (normalizeKeyCode ev) = key ev.
Proof.
  intros Hs Hnb. pose proof (normalize_action ev a Hs) as Ha.
  destruct (normalize_key_cases ev) as [H|H]; [exact H|].
  rewrite H in Ha. vm_compute in Ha. congruence.
Qed.

(** C4, as the specification states it, fails: two accepted spellings of
    the up arrow keep their own key names, and Escape and the Tizen back
    key normalise to different pairs. *)
Lemma normalize_spellings_differ :
  spells (mkEvent (Some 38) (Some "ArrowUp")) (ActArrow DirUp) /\
  spells (mkEvent None (Some "Up")) (ActArrow DirUp) /\
  normalizeKeyCode (mkEvent (Some 38) (Some "ArrowUp")) <>
  normalizeKeyCode (mkEvent None (Some "Up")) /\
  spells (mkEvent (Some 27) (Some "Escape")) ActBack /\
  spells (mkEvent (Some 10009) (Some "XF86Back")) ActBack /\
  normalizeKeyCode (mkEvent (Some 27) (Some "Escape")) <>
  normalizeKeyCode (mkEvent (Some 10009) (Some "XF86Back")).
Proof.
  repeat split; try (vm_compute; auto; fail); vm_compute; discriminate.
Qed.

(** C4 (amended): two accepted spellings of one logical key normalise to
    key codes that select the same dispatcher action; for every action
    but Back the numeric code is the same and the key name comes back as
    delivered; the Tizen back spellings (XF86Back, Back, code 10009)
    normalise to the one pair (Back, 10009); any other spelling of Back
    keeps its key name and gets code 27. *)
Theorem normalize_spellings_agree (ev1 ev2 : KeyboardEvent) (a : Action) :
  spells ev1 a -> spells ev2 a ->
  default_action (nkeyCode (normalizeKeyCode ev1)) = Some a /\
  default_action (nkeyCode (normalizeKeyCode ev2)) = Some a /\
  (a <> ActBack ->
   nkeyCode (normalizeKeyCode ev1) = nkeyCode (normalizeKeyCode ev2)) /\
  (tizen_back ev1 = true -> tizen_back ev2 = true ->
   normalizeKeyCode ev1 = normalizeKeyCode ev2 /\
   normalizeKeyCode ev1 = {| nkey := Some "Back"; nkeyCode := Some BACK |}) /\
  (a = ActBack -> tizen_back ev1 = false ->
   normalizeKeyCode ev1 = {| nkey := key ev1; nkeyCode := Some ESCAPE |}) /\
  (a <> ActBack ->
   nkey (normalizeKeyCode ev1) = key ev1 /\
   nkey (normalizeKeyCode ev2) = key ev2).
Proof.
  intros H1 H2.
  pose proof (normalize_action ev1 a H1) as A1.
  pose proof (normalize_action ev2 a H2) as A2.
  repeat split; try assumption; try (now apply (key_as_delivered _ a)).
  - intros Hnb.
    destruct (nkeyCode (normalizeKeyCode ev1)) as [z1|]; [|discriminate].
    destruct (nkeyCode (normalizeKeyCode ev2)) as [z2|]; [|discriminate].
    f_equal. symmetry. eapply default_action_code; eauto.
  - rewrite !normalize_tizen_back by assumption. reflexivity.
  - now apply normalize_tizen_back.
  - intros -> Hb. now apply normalize_other_back.
Qed.

(** The up arrow, delivered by code with its standard name and by its
    Tizen name alone. *)
Lemma normalize_spellings_agree_witness :
  default_action (nkeyCode (normalizeKeyCode (mkEvent (Some 38) (Some "ArrowUp"))))
    = Some (ActArrow DirUp) /\
  nkeyCode (normalizeKeyCode (mkEvent (Some 38) (Some "ArrowUp"))) =
  nkeyCode (normalizeKeyCode (mkEvent None (Some "Up"))).
Proof.
  destruct (normalize_spellings_agree
              (mkEvent (Some 38) (Some "ArrowUp")) (mkEvent None (Some "Up"))
              (ActArrow DirUp)) as (A & _ & B & _).
  - vm_compute. auto.
  - vm_compute. auto.
  - split; [exact A | apply B; discriminate].
Defined.

End KeyFacts.

(** ** Input dispatcher *)

Section InputFacts.
Import Keys Input.

Lemma delay_nonneg (w : World) : 0 <= delay w.
Proof. unfold delay. lia. Qed.

Lemma idle_coherent (w : World) : idle w -> history w = [] -> coherent w.
Proof.
  intros (Hp & Ht & Ha) Hh. unfold coherent. rewrite Hh, Ht, Ha. simpl. auto.
Qed.

(** Entering [processKey] from a coherent state with the guard open, and
    leaving it through its [finally] block or suspended at an [await]. *)
Lemma processKey_coherent (sync : Outcome) (k : NormalizedKey) (w : World) :
  coherent w -> isProcessing w = false -> coherent (processKey sync k w).
Proof.
  intros [Hd Hst] Hp.
  pose proof (delay_nonneg w) as Hnn.
  destruct w as [en pr dl ls nw tm aw hs iv pv lg rj].
  unfold delay in *. cbn [inputDelay history awaiting timers isProcessing now] in *.
  subst pr.
  assert (Hidle : aw = None /\ tm = [] /\
                  match hs with
                  | [] => True
                  | (c, Finished) :: _ => c + Z.max 0 dl <= nw
                  | (_, Accepted _) :: _ => False
                  end).
  { destruct aw; destruct tm as [|? [|? ?]]; try contradiction;
      try (destruct Hst; discriminate). tauto. }
  destruct Hidle as (-> & -> & Hhead).
  assert (Hacc : debounced (Z.max 0 dl) ((nw, Accepted k) :: hs)).
  { simpl. split; [|exact Hd]. destruct hs as [|[c [k'|]] hs']; auto. }
  assert (Hfin : debounced (Z.max 0 dl) ((nw, Finished) :: (nw, Accepted k) :: hs)).
  { split; [simpl; lia | exact Hacc]. }
  unfold processKey, customHandler, dispatch_default.
  cbn [mark set_isProcessing keyListeners isEnabled isProcessing inputDelay
       now timers awaiting history invoked prevented logged rejected].
  repeat match goal with
  | |- context [match ?x with _ => _ end] =>
      match x with
      | context [match _ with _ => _ end] => fail 1
      | _ => destruct x eqn:?
      end
  end;
  unfold coherent, debounce, delay;
  cbn [mark set_timers set_awaiting invoke reject keyListeners isEnabled
       isProcessing inputDelay now timers awaiting history invoked prevented
       logged rejected app];
  (split; [assumption|]); split; try reflexivity; eauto 6 using Z.le_refl.
Qed.

Lemma step_coherent (w w' : World) (e : Event) :
  coherent w -> step w e = Some w' -> coherent w'.
Proof.
  intros Hc. destruct e as [ev sync|name sync|r|r| |dt|b|k f|k]; simpl.
  - intros [= <-]. unfold handleKeyDown.
    set (w1 := if code_is _ _ then _ else w).
    assert (H1 : coherent w1) by (subst w1; destruct (code_is _ _); [destruct w|]; exact Hc).
    destruct (negb (isEnabled w1)); simpl; [exact H1|].
    destruct (isProcessing w1) eqn:Hp; [exact H1|].
    apply processKey_coherent.
    + destruct (_ && _); [destruct w1|]; exact H1.
    + destruct (_ && _); [destruct w1|]; exact Hp.
  - intros [= <-]. unfold handleTizenKey.
    destruct (negb (isEnabled w)); simpl; [exact Hc|].
    destruct (isProcessing w) eqn:Hp; [exact Hc|].
    apply processKey_coherent; destruct w; assumption.
  - destruct (awaiting w) as [a|] eqn:Ha; [|discriminate]. intros [= <-].
    destruct Hc as [Hd Hst]. rewrite Ha in Hst.
    destruct (timers w) as [|? ?] eqn:Ht; [|contradiction].
    destruct Hst as (Hp & t & k & h & Hh & Hle).
    destruct w as [en pr dl ls nw tm aw hs iv pv lg rj].
    unfold delay in *. cbn in Ha, Ht, Hp, Hh, Hle, Hd. subst.
    unfold resume, coherent, debounce, delay.
    destruct r as [v|err]; [|destruct a]; cbn;
      (split; [split; [lia | exact Hd]|]); split; eauto using Z.le_refl.
  - intros [= <-]. destruct r; destruct w; exact Hc.
  - destruct (timers w) as [|due rest] eqn:Ht; [discriminate|].
    destruct (Z.leb_spec due (now w)) as [Hdue|]; [|discriminate].
    intros [= <-]. destruct Hc as [Hd Hst]. rewrite Ht in Hst.
    destruct (awaiting w) eqn:Ha; [destruct Hst|].
    destruct rest; [|contradiction].
    destruct Hst as (Hp & c & h & Hh & Hle).
    destruct w as [en pr dl ls nw tm aw hs iv pv lg rj].
    unfold delay in *. cbn in Ha, Ht, Hp, Hh, Hle, Hd, Hdue. subst.
    unfold coherent, delay. cbn. split; [exact Hd|]. split; [reflexivity|lia].
  - destruct (Z.leb_spec 0 dt) as [Hdt|]; [|discriminate]. intros [= <-].
    destruct Hc as [Hd Hst].
    destruct w as [en pr dl ls nw tm aw hs iv pv lg rj].
    unfold coherent, delay in *. cbn in *. split; [exact Hd|].
    destruct aw; destruct tm as [|? [|? ?]]; try contradiction; try exact Hst.
    + destruct Hst as (Hp & t & k & h & Hh & Hle). split; [exact Hp|].
      exists t, k, h. split; [exact Hh | lia].
    + destruct Hst as [Hp Hh]. split; [exact Hp|].
      destruct hs as [|[c [k|]] hs']; auto. lia.
  - intros [= <-]. destruct w; exact Hc.
  - intros [= <-]. destruct w; exact Hc.
  - intros [= <-]. destruct w; exact Hc.
Qed.

Lemma step_delay (w w' : World) (e : Event) :
  step w e = Some w' -> inputDelay w' = inputDelay w.
Proof.
  destruct e as [ev sync|name sync|r|r| |dt|b|k f|k]; simpl.
  - intros [= <-]. unfold handleKeyDown, processKey, dispatch_default, debounce.
    repeat match goal with
    | |- context [match ?x with _ => _ end] =>
        match x with
        | context [match _ with _ => _ end] => fail 1
        | _ => destruct x eqn:?
        end
    | |- context [if ?x then _ else _] =>
        match x with
        | context [if _ then _ else _] => fail 1
        | _ => destruct x eqn:?
        end
    end; reflexivity.
  - intros [= <-]. unfold handleTizenKey, processKey, dispatch_default, debounce.
    repeat match goal with
    | |- context [match ?x with _ => _ end] =>
        match x with
        | context [match _ with _ => _ end] => fail 1
        | _ => destruct x eqn:?
        end
    | |- context [if ?x then _ else _] =>
        match x with
        | context [if _ then _ else _] => fail 1
        | _ => destruct x eqn:?
        end
    end; reflexivity.
  - destruct (awaiting w); [|discriminate]. intros [= <-].
    unfold resume. destruct r; [|destruct a]; reflexivity.
  - intros [= <-]. destruct r; reflexivity.
  - destruct (timers w); [discriminate|]. destruct (Z.leb _ _); [|discriminate].
    intros [= <-]. reflexivity.
  - destruct (Z.leb _ _); [|discriminate]. intros [= <-]. reflexivity.
  - intros [= <-]. reflexivity.
  - intros [= <-]. reflexivity.
  - intros [= <-]. reflexivity.
Qed.

Lemma run_coherent (tr : list Event) (w w' : World) :
  coherent w -> run w tr = Some w' ->
  coherent w' /\ inputDelay w' = inputDelay w.
Proof.
  revert w. induction tr as [|e tr IH]; simpl; intros w Hc.
  - intros [= <-]. auto.
  - destruct (step w e) as [w1|] eqn:Hs; [|discriminate]. intros Hr.
    destruct (IH w1 (step_coherent _ _ _ Hc Hs) Hr) as [Hc' Hd].
    split; [exact Hc'|]. rewrite Hd. eapply step_delay; eauto.
Qed.

(** On a debounced time line the marks are in time order. *)
Lemma debounced_sorted (d : Z) (h : list (Z * Mark)) (t : Z) (m : Mark) :
  0 <= d -> debounced d ((t, m) :: h) ->
  forall t' m', In (t', m') h -> t' <= t.
Proof.
  intros Hd. revert t m. induction h as [|[t1 m1] h IH]; intros t m H t' m' Hin.
  - destruct Hin.
  - assert (Hle : t1 <= t).
    { destruct m as [k|], m1 as [k1|]; simpl in H; destruct H as [H _];
        try contradiction; lia. }
    assert (Hrest : debounced d ((t1, m1) :: h)).
    { destruct m; apply H. }
    destruct Hin as [[= <- <-]|Hin]; [exact Hle|].
    specialize (IH t1 m1 Hrest t' m' Hin). lia.
Qed.

(** Before an accepted key, every older mark is at least [d] in the past. *)
Lemma debounced_gap (d : Z) (h : list (Z * Mark)) (t : Z) (k : NormalizedKey) :
  0 <= d -> debounced d ((t, Accepted k) :: h) ->
  forall t' m', In (t', m') h -> t' + d <= t.
Proof.
  intros Hd H t' m' Hin. destruct h as [|[c m1] h]; [destruct Hin|].
  destruct H as [Hhd Hrest]. destruct m1 as [k1|]; [contradiction|].
  destruct Hin as [[= <- <-]|Hin]; [exact Hhd|].
  pose proof (debounced_sorted d h c Finished Hd Hrest t' m' Hin). lia.
Qed.

Lemma accepted_in_none (lo hi : Z) (h : list (Z * Mark)) :
  (forall t m, In (t, m) h -> t < lo) -> accepted_in lo hi h = 0%nat.
Proof.
  unfold accepted_in. induction h as [|[t m] h IH]; intros H; [reflexivity|].
  simpl. assert (Ht : t < lo) by (eapply H; left; reflexivity).
  destruct m as [k|]; simpl.
  - destruct (Z.leb_spec lo t); [lia|]. simpl. apply IH.
    intros; eapply H; right; eauto.
  - apply IH. intros; eapply H; right; eauto.
Qed.

(** At most one key is accepted in a window of the debounce length. *)
Lemma debounced_window (d : Z) (h : list (Z * Mark)) (lo : Z) :
  0 <= d -> debounced d h -> (accepted_in lo (lo + d) h <= 1)%nat.
Proof.
  intros Hd. induction h as [|[t m] h IH]; intros H; [unfold accepted_in; simpl; lia|].
  assert (Hrest : debounced d h) by (destruct m; apply H).
  specialize (IH Hrest). unfold accepted_in in *. simpl.
  destruct m as [k|]; simpl; [|exact IH].
  destruct (Z.leb_spec lo t); simpl; [|exact IH].
  destruct (Z.ltb_spec t (lo + d)); simpl; [|exact IH].
  fold (accepted_in lo (lo + d) h). rewrite accepted_in_none; [lia|].
  intros t' m' Hin. pose proof (debounced_gap d h t k Hd H t' m' Hin). lia.
Qed.

(** While a key is in flight or its debounce timer is pending, the guard
    of both entry points is closed. *)
Lemma busy_drops (w : World) (event : KeyboardEvent) (name : string) (sync : Outcome) :
  isProcessing w = true ->
  history (handleKeyDown sync event w) = history w /\
  invoked (handleKeyDown sync event w) = invoked w /\
  handleTizenKey sync name w = w.
Proof.
  intros Hp. unfold handleKeyDown, handleTizenKey.
  destruct (code_is (keyCode event) BACK); destruct w; cbn in *; subst;
    rewrite Bool.orb_true_r; auto.
Qed.

(** One delivered key starts at most one default action, and none while
    the busy flag is set. *)
Lemma one_action_per_key (w : World) (event : KeyboardEvent) (sync : Outcome) :
  exists l,
    invoked (handleKeyDown sync event w) = (invoked w ++ l)%list /\
    (default_actions l <= 1)%nat /\
    (isProcessing w = true -> l = []).
Proof.
  unfold handleKeyDown, processKey, dispatch_default, debounce.
  destruct w as [en pr dl ls nw tm aw hs iv pv lg rj].
  repeat match goal with
  | |- context [match ?x with _ => _ end] =>
      match x with
      | context [match _ with _ => _ end] => fail 1
      | _ => destruct x eqn:?
      end
  | |- context [if ?x then _ else _] =>
      match x with
      | context [if _ then _ else _] => fail 1
      | _ => destruct x eqn:?
      end
  end;
  cbn [invoked invoke mark set_timers set_awaiting set_isProcessing reject
       preventDefault isEnabled isProcessing] in *;
  rewrite <- ?app_assoc;
  first
    [ exists []; rewrite app_nil_r; repeat split; auto; fail
    | eexists; split; [reflexivity|]; split; [cbn; lia|];
      intros ->; rewrite ?Bool.orb_true_r in *; discriminate ].
Qed.

(** C1: from a handler at rest, whatever events follow, every accepted
    key is separated from the next accepted key by the end of its own
    handler plus the debounce delay, so a window of the debounce length
    holds at most one accepted key; while the busy flag is set a
    delivered key starts no handler, an accepted key starts at most one
    default action, and the flag stays set for as long as a handler is
    suspended or a debounce timer is pending. *)
Theorem debounce_one_per_window (w w' : World) (tr : list Event) :
  idle w -> history w = [] -> run w tr = Some w' ->
  debounced (delay w) (history w') /\
  (forall lo, (accepted_in lo (lo + delay w) (history w') <= 1)%nat) /\
  (isProcessing w' = true ->
   forall event sync,
     history (handleKeyDown sync event w') = history w' /\
     invoked (handleKeyDown sync event w') = invoked w') /\
  (forall event sync, exists l,
     invoked (handleKeyDown sync event w') = (invoked w' ++ l)%list /\
     (default_actions l <= 1)%nat) /\
  (isProcessing w' = false -> timers w' = [] /\ awaiting w' = None).
Proof.
  intros Hi Hh Hr.
  destruct (run_coherent tr w w' (idle_coherent w Hi Hh) Hr) as [[Hd Hst] Hdl].
  assert (Heq : delay w' = delay w) by (unfold delay; now rewrite Hdl).
  rewrite Heq in Hd. repeat split.
  - exact Hd.
  - intros lo. apply debounced_window; [apply delay_nonneg | exact Hd].
  - eapply (busy_drops w' event ""); eauto.
  - eapply (busy_drops w' event ""); eauto.
  - intros event sync.
    destruct (one_action_per_key w' event sync) as (l & Hl & Hn & _). eauto.
  - destruct (awaiting w'), (timers w') as [|? [|? ?]]; try contradiction;
      try reflexivity; destruct Hst; congruence.
  - destruct (awaiting w'), (timers w') as [|? [|? ?]]; try contradiction;
      try reflexivity; destruct Hst; congruence.
Qed.

(** Three repeats of the up arrow within 100 ms and a fourth after the
    timer fired: one key in the first window, two in all. *)
Lemma debounce_one_per_window_witness :
  exists w', run initial repeats = Some w' /\
             (accepted_in 0 (0 + delay initial) (history w') <= 1)%nat /\
             accepted_in 0 101 (history w') = 2%nat.
Proof.
  destruct (run initial repeats) as [w'|] eqn:Hr; [|vm_compute in Hr; discriminate].
  exists w'. split; [reflexivity|]. split.
  - apply (debounce_one_per_window initial w' repeats).
    + repeat split.
    + reflexivity.
    + exact Hr.
  - vm_compute in Hr. injection Hr as <-. reflexivity.
Defined.

(** What [handleBackKey] catches goes to the log, and [processKey] still
    leaves through its [finally] block. *)
Lemma back_handler_logs (w : World) (err : string) :
  awaiting w = Some ActBack ->
  exists w1, step w (Settle (Threw err)) = Some w1 /\
             logged w1 = (logged w ++ [("Error in handleBackKey: " ++ err)%string])%list /\
             rejected w1 = rejected w /\
             timers w1 = (timers w ++ [now w + delay w])%list.
Proof.
  intros Ha. simpl. rewrite Ha. eexists. split; [reflexivity|].
  destruct w; cbn. auto.
Qed.

(** C5, as the specification states it, fails: what a listener or a
    synchronous default handler throws is not caught by [processKey];
    it rejects the promise [processKey] returned, which no caller
    awaits, and nothing is logged. *)
Lemma handler_exception_escapes :
  thrown (with_listener "ArrowUp" throwing_listener initial)
         (normalizeKeyCode up_event) (Returned false) = Some "boom" /\
  rejected (handleKeyDown (Returned false) up_event
              (with_listener "ArrowUp" throwing_listener initial)) = ["boom"] /\
  logged (handleKeyDown (Returned false) up_event
            (with_listener "ArrowUp" throwing_listener initial)) = [] /\
  thrown initial (normalizeKeyCode up_event) (Threw "boom") = Some "boom" /\
  rejected (handleKeyDown (Threw "boom") up_event initial) = ["boom"] /\
  logged (handleKeyDown (Threw "boom") up_event initial) = [].
Proof. vm_compute. repeat split. Qed.

(** What the synchronous part of [processKey] does with an exception. *)
Lemma sync_exception_debounce
    (w : World) (event : KeyboardEvent) (sync : Outcome) (err : string) :
  idle w -> isEnabled w = true ->
  thrown w (normalizeKeyCode event) sync = Some err ->
  rejected (handleKeyDown sync event w) = (rejected w ++ [err])%list /\
  logged (handleKeyDown sync event w) = logged w /\
  (forall f e, customHandler w (normalizeKeyCode event) = Some f ->
     f (normalizeKeyCode event) = Threw e ->
     invoked (handleKeyDown sync event w) =
     (invoked w ++ [ByListener (normalizeKeyCode event)])%list) /\
  isProcessing (handleKeyDown sync event w) = true /\
  awaiting (handleKeyDown sync event w) = None /\
  timers (handleKeyDown sync event w) = [now w + delay w] /\
  exists w2,
    run (handleKeyDown sync event w) [Elapse (delay w); TimerFires] = Some w2 /\
    isProcessing w2 = false /\ timers w2 = [] /\ awaiting w2 = None.
Proof.
  intros (Hp & Ht & Ha) He. unfold thrown, handleKeyDown.
  set (k := normalizeKeyCode event).
  pose proof (delay_nonneg w) as Hnn.
  destruct w as [en pr dl ls nw tm aw hs iv pv lg rj].
  unfold delay in *. cbn in Hp, Ht, Ha, He, Hnn. subst.
  assert (Hl : forall d, Z.leb (nw + d) (nw + d) = true) by (intros; apply Z.leb_refl).
  assert (Hz : Z.leb 0 (Z.max 0 dl) = true) by (apply Z.leb_le; lia).
  unfold processKey, customHandler, dispatch_default, debounce, delay.
  destruct (code_is (keyCode event) BACK);
  destruct (includes PREVENT_DEFAULT_KEYS (keyCode event));
  cbn -[Z.max Z.add Z.leb];
  (destruct (match nkey k with Some s => ls !! s | None => None end) as [f|];
   [|destruct (ls !! String_of_code (nkeyCode k)) as [f|]]);
  try (destruct (f k) as [[|]|e] eqn:Hf);
  try discriminate;
  try (destruct (default_action (nkeyCode k)) as [[d| | |dz|n]|]; try discriminate;
       destruct sync as [v|e']; try discriminate);
  intros [= ->]; cbn -[Z.max Z.add Z.leb]; rewrite ?Hz; cbn -[Z.max Z.add Z.leb];
  rewrite ?Hl; cbn -[Z.max Z.add Z.leb];
  repeat split; try (intros ? ? [= <-] ?; congruence); try discriminate;
  eauto 6.
Qed.

(** C5 (amended): when the listener or the synchronous default handler
    of an accepted key throws, the exception rejects the promise of
    [processKey] and is not logged; a throwing listener is the last
    function called for the key; the [finally] block still arms the
    debounce timer, and once the delay has passed the timer clears the
    busy flag.  When an awaited default handler fails, the [finally]
    block arms the timer as well: what [handleEnterKey] lets escape
    rejects the promise of [processKey] and is not logged, and what the
    back navigation throws is caught and logged by [handleBackKey] and
    rejects nothing. *)
Theorem handler_exception_debounce
    (w : World) (event : KeyboardEvent) (sync : Outcome) (err : string) :
  idle w -> isEnabled w = true ->
  thrown w (normalizeKeyCode event) sync = Some err ->
  rejected (handleKeyDown sync event w) = (rejected w ++ [err])%list /\
  logged (handleKeyDown sync event w) = logged w /\
  (forall f e, customHandler w (normalizeKeyCode event) = Some f ->
     f (normalizeKeyCode event) = Threw e ->
     invoked (handleKeyDown sync event w) =
     (invoked w ++ [ByListener (normalizeKeyCode event)])%list) /\
  isProcessing (handleKeyDown sync event w) = true /\
  awaiting (handleKeyDown sync event w) = None /\
  timers (handleKeyDown sync event w) = [now w + delay w] /\
  (exists w2,
     run (handleKeyDown sync event w) [Elapse (delay w); TimerFires] = Some w2 /\
     isProcessing w2 = false /\ timers w2 = [] /\ awaiting w2 = None) /\
  (forall (w' : World) (a : Action) (e : string),
     awaiting w' = Some a ->
     exists w1,
       step w' (Settle (Threw e)) = Some w1 /\
       awaiting w1 = None /\
       timers w1 = (timers w' ++ [now w' + delay w'])%list /\
       match a with
       | ActBack =>
           logged w1
           = (logged w' ++ [("Error in handleBackKey: " ++ e)%string])%list /\
           rejected w1 = rejected w'
       | _ =>
           rejected w1 = (rejected w' ++ [e])%list /\ logged w1 = logged w'
       end).
Proof.
  intros Hidle He Hthrown.
  destruct (sync_exception_debounce w event sync err Hidle He Hthrown)
    as (A & B & C & D & E & F & G).
  repeat (split; [assumption|]).
  intros w' a e Ha. cbn [step]. rewrite Ha. eexists. split; [reflexivity|].
  destruct a; destruct w'; cbn; auto.
Qed.

(** A listener for the up arrow that throws. *)
Lemma handler_exception_debounce_witness :
  rejected (handleKeyDown (Returned false) up_event
              (with_listener "ArrowUp" throwing_listener initial)) = ([] ++ ["boom"])%list /\
  timers (handleKeyDown (Returned false) up_event
            (with_listener "ArrowUp" throwing_listener initial)) = [0 + 100].
Proof.
  destruct (handler_exception_debounce
              (with_listener "ArrowUp" throwing_listener initial)
              up_event (Returned false) "boom") as (A & _ & _ & _ & _ & B & _).
  - repeat split.
  - reflexivity.
  - vm_compute. reflexivity.
  - split; [exact A | exact B].
Defined.

End InputFacts.

(** ** Layer coordinator *)

Section LayerFacts.
Import Layers.
Variable env : Env.

Ltac run_transition :=
  unfold performTransition, begin_transition, complete_transition,
    bind, call, modify, get, when, ret;
  cbn [currentLayer layerHistory transitionState isTransitioning
       iframeManager calls set_isTransitioning set_transitionState
       set_currentLayer set_layerHistory record_call fst snd];
  repeat (match goal with
          | |- context [throws env ?c] => destruct (throws env c) eqn:?
          | |- context [if ?b then _ else _] =>
              match b with
              | context [if _ then _ else _] => fail 1
              | _ => destruct b eqn:?
              end
          end;
          cbn [currentLayer layerHistory transitionState isTransitioning
               iframeManager calls set_isTransitioning set_transitionState
               set_currentLayer set_layerHistory record_call fst snd]).

(** What any transition leaves behind: the guard is released; either
    the layer pointer and the history are untouched and the caller gets
    [false], or both were updated together. *)
Lemma performTransition_outcome (fromLayer toLayer : Z) (params : Params)
    (m : Manager) :
  let r := performTransition env fromLayer toLayer params m in
  isTransitioning (snd r) = false /\
  transitionState (snd r) = IDLE /\
  ((fst r = false /\ layerHistory (snd r) = layerHistory m /\
    currentLayer (snd r) = currentLayer m) \/
   (currentLayer (snd r) = toLayer /\
    layerHistory (snd r) =
      if isBack params then pop (layerHistory m)
      else (layerHistory m ++ [toLayer])%list)).
Proof.
  destruct m as [cur hist ts tr ifr cs]. destruct params as [bk stt].
  run_transition; auto 6.
Qed.

Lemma performTransition_true (fromLayer toLayer : Z) (params : Params)
    (m m' : Manager) :
  performTransition env fromLayer toLayer params m = (true, m') ->
  currentLayer m' = toLayer /\
  layerHistory m' =
    (if isBack params then pop (layerHistory m)
     else (layerHistory m ++ [toLayer])%list) /\
  isTransitioning m' = false /\ transitionState m' = IDLE.
Proof.
  destruct m as [cur hist ts tr ifr cs]. destruct params as [bk stt].
  run_transition; intros [= <-]; cbn; auto.
Qed.

Lemma canTransition_table :
  canTransition MAP CONTROL_PANEL = true /\
  canTransition CONTROL_PANEL MAP = true /\
  canTransition CONTROL_PANEL DETAIL_SCREEN = true /\
  canTransition DETAIL_SCREEN CONTROL_PANEL = true /\
  canTransition MAP DETAIL_SCREEN = false /\
  canTransition DETAIL_SCREEN MAP = false.
Proof. repeat split. Qed.

(** C2: a push that the adjacency table forbids, that targets the
    current layer, or that arrives while a transition is in progress
    returns [false] and leaves the manager as it was. *)
Theorem pushLayer_rejected (m : Manager) (target : Z) (params : Params) :
  isTransitioning m = true \/ target = currentLayer m \/
  canTransition (currentLayer m) target = false ->
  pushLayer env target params m = (false, m) /\
  currentLayer (snd (pushLayer env target params m)) = currentLayer m /\
  layerHistory (snd (pushLayer env target params m)) = layerHistory m /\
  transitionState (snd (pushLayer env target params m)) = transitionState m.
Proof.
  intros H.
  assert (E : pushLayer env target params m = (false, m)).
  { unfold pushLayer. destruct (isTransitioning m); [reflexivity|].
    destruct (Z.eqb_spec target (currentLayer m)); [reflexivity|].
    destruct H as [H|[H|H]]; [discriminate | contradiction |].
    rewrite H. reflexivity. }
  rewrite E. auto.
Qed.

(** A second push while the first one waits for [hideLayer]: the guard
    is set, so the theorem applies whatever the target is. *)
Lemma during_hide_guard (fromLayer : Z) (m : Manager) :
  isTransitioning (during_hide env fromLayer m) = true.
Proof.
  unfold during_hide, begin_transition, bind, call, modify.
  destruct m. cbn.
  repeat match goal with
  | |- context [throws env ?c] => destruct (throws env c); cbn
  end; reflexivity.
Qed.

(** C8 (amended): with exactly one entry in the history, [popLayer]
    returns [false] and changes neither the history nor the current
    layer; when no transition is in progress it calls [handleExitApp],
    which on Tizen makes exactly one exit request and elsewhere none;
    when a transition is in progress it returns before that. *)
Theorem popLayer_at_root (m : Manager) :
  length (layerHistory m) = 1%nat ->
  fst (popLayer env m) = false /\
  layerHistory (snd (popLayer env m)) = layerHistory m /\
  currentLayer (snd (popLayer env m)) = currentLayer m /\
  (isTransitioning m = false ->
   snd (popLayer env m) = handleExitApp env m /\
   calls (snd (popLayer env m)) =
     (calls m ++ if isTizen env then [ExitApplication] else [])%list) /\
  (isTransitioning m = true -> popLayer env m = (false, m)).
Proof.
  intros Hlen. unfold popLayer, handleExitApp. rewrite Hlen. cbn [Nat.leb].
  destruct (isTransitioning m) eqn:Ht; destruct (isTizen env); destruct m; cbn;
    repeat split; try discriminate; auto using app_nil_r.
  all: intros _; split; [reflexivity|]; symmetry; apply app_nil_r.
Qed.

Lemma last_penultimate (h : list Z) (x : Z) :
  h <> [] ->
  nth_error (h ++ [x]) (length (h ++ [x]) - 2) = last h /\
  (1 <? length (h ++ [x]))%nat = true.
Proof.
  intros Hne. rewrite length_app. simpl. split.
  - destruct h as [|y h] using rev_ind; [contradiction|].
    rewrite last_snoc, length_app. simpl.
    replace (length h + 1 + 1 - 2)%nat with (length h) by lia.
    rewrite nth_error_app1 by (rewrite length_app; simpl; lia).
    rewrite nth_error_app2 by lia. rewrite Nat.sub_diag. reflexivity.
  - destruct h; [contradiction|]. simpl. apply Nat.ltb_lt. lia.
Qed.

(** C10: from the dashboard, a push to the detail layer that succeeds,
    followed at once by a pop that succeeds, ends on the dashboard with
    the history it started from; and the pop does succeed when no
    collaborator call fails. *)
Theorem push_detail_then_pop (m m1 : Manager) (params : Params) :
  consistent m -> currentLayer m = CONTROL_PANEL -> isBack params = false ->
  pushLayer env DETAIL_SCREEN params m = (true, m1) ->
  (forall m2, popLayer env m1 = (true, m2) ->
     currentLayer m2 = CONTROL_PANEL /\
     layerHistory m2 = layerHistory m /\
     length (layerHistory m2) = length (layerHistory m)) /\
  ((forall c, throws env c = false) ->
   exists m2, popLayer env m1 = (true, m2)).
Proof.
  intros Hc Hcur Hnb Hpush.
  unfold pushLayer in Hpush.
  destruct (isTransitioning m) eqn:Htr; [discriminate|].
  rewrite Hcur in Hpush. cbn in Hpush.
  apply performTransition_true in Hpush as (Hc1 & Hh1 & Ht1 & _).
  rewrite Hnb in Hh1.
  assert (Hne : layerHistory m <> []).
  { intros E. unfold consistent in Hc. rewrite E in Hc. discriminate. }
  destruct (last_penultimate (layerHistory m) DETAIL_SCREEN Hne) as [Hnth Hlen].
  unfold consistent in Hc. rewrite Hc, Hcur in Hnth.
  assert (Hleb : Nat.leb (length (layerHistory m1)) 1 = false).
  { rewrite Hh1. apply Nat.leb_gt. apply Nat.ltb_lt in Hlen. exact Hlen. }
  split.
  - intros m2. unfold popLayer. rewrite Ht1, Hleb, Hh1, Hnth.
    intros Hpop. apply performTransition_true in Hpop as (Hc2 & Hh2 & _).
    cbn [isBack] in Hh2. rewrite Hh1 in Hh2. unfold pop in Hh2.
    rewrite removelast_last in Hh2. rewrite Hh2. auto.
  - intros Hcalm. unfold popLayer. rewrite Ht1, Hleb, Hh1, Hnth.
    destruct m1 as [cur hist ts tr ifr cs].
    unfold performTransition, begin_transition, complete_transition,
      bind, call, modify, get, when, ret.
    cbn. rewrite !Hcalm. cbn.
    destruct (_ && ifr); cbn; rewrite ?Hcalm; cbn; eauto.
Qed.

(** The invariant holds after [init()] and survives every push and pop,
    failed ones included. *)
Lemma initial_consistent : consistent initial.
Proof. reflexivity. Qed.

Lemma pushLayer_consistent (m : Manager) (target : Z) (params : Params) :
  isBack params = false -> consistent m ->
  consistent (snd (pushLayer env target params m)).
Proof.
  intros Hnb Hc. unfold pushLayer.
  destruct (isTransitioning m); [exact Hc|].
  destruct (Z.eqb target (currentLayer m)); [exact Hc|].
  destruct (negb _); [exact Hc|].
  destruct (performTransition_outcome (currentLayer m) target params m)
    as (_ & _ & [(_ & Hh & Hcur)|(Hcur & Hh)]);
    unfold consistent; rewrite Hh, Hcur; [exact Hc|].
  rewrite Hnb. apply last_snoc.
Qed.

Lemma popLayer_consistent (m : Manager) :
  consistent m -> consistent (snd (popLayer env m)).
Proof.
  intros Hc. unfold popLayer.
  destruct (isTransitioning m); [exact Hc|].
  destruct (Nat.leb_spec (length (layerHistory m)) 1) as [Hle|Hgt].
  - unfold handleExitApp. destruct (isTizen env); [destruct m|]; exact Hc.
  - destruct (nth_error _ _) as [p|] eqn:Hn; [|exact Hc].
    destruct (performTransition_outcome (currentLayer m) p
                {| isBack := true; screenSTT := None |} m)
      as (_ & _ & [(_ & Hh & Hcur)|(Hcur & Hh)]);
      unfold consistent; rewrite Hh, Hcur; [exact Hc|].
    cbn [isBack]. unfold pop.
    destruct (layerHistory m) as [|x h] using rev_ind; [simpl in Hgt; lia|].
    rewrite removelast_last.
    assert (Hne : h <> []).
    { intros ->. simpl in Hgt. lia. }
    destruct (last_penultimate h x Hne) as [Hp _]. congruence.
Qed.

Lemma enterDetail_consistent (m : Manager) : consistent (enterDetail m).
Proof.
  unfold enterDetail, consistent.
  cbn [set_currentLayer layerHistory currentLayer].
  destruct (last (layerHistory m)) as [l|] eqn:Hl.
  - destruct (Z.eqb_spec l DETAIL_SCREEN) as [->|_]; cbn; [exact Hl|].
    apply last_snoc.
  - cbn. apply last_snoc.
Qed.

(** While a transition waits for [hideLayer], a push and a pop are both
    turned away and leave the manager as it is. *)
Lemma one_transition_in_flight (fromLayer target : Z) (params : Params)
    (m : Manager) :
  pushLayer env target params (during_hide env fromLayer m)
    = (false, during_hide env fromLayer m) /\
  popLayer env (during_hide env fromLayer m)
    = (false, during_hide env fromLayer m).
Proof.
  unfold pushLayer, popLayer. rewrite during_hide_guard. auto.
Qed.

End LayerFacts.

Section LayerExamples.
Import Layers.

(** From the map to the detail layer, and a second push while the first
    waits for [hideLayer]. *)
Lemma pushLayer_rejected_witness :
  pushLayer (calm true) DETAIL_SCREEN no_params initial = (false, initial) /\
  pushLayer (calm true) CONTROL_PANEL no_params
    (during_hide (calm true) MAP initial)
  = (false, during_hide (calm true) MAP initial).
Proof.
  split.
  - apply (pushLayer_rejected (calm true) initial DETAIL_SCREEN no_params).
    right. right. reflexivity.
  - apply (pushLayer_rejected (calm true)). left. reflexivity.
Defined.

(** C8, as the specification states it, fails: a back press while the
    first transition away from the map waits for [hideLayer] finds one
    entry in the history and makes no exit request. *)
Lemma popLayer_at_root_busy :
  length (layerHistory (during_hide (calm true) MAP initial)) = 1%nat /\
  popLayer (calm true) (during_hide (calm true) MAP initial)
  = (false, during_hide (calm true) MAP initial) /\
  exit_requests
    (calls (snd (popLayer (calm true) (during_hide (calm true) MAP initial))))
  = 0%nat.
Proof. repeat split. Qed.

(** A back press on the map right after [init()], on Tizen. *)
Lemma popLayer_at_root_witness :
  fst (popLayer (calm true) initial) = false /\
  layerHistory (snd (popLayer (calm true) initial)) = [MAP] /\
  exit_requests (calls (snd (popLayer (calm true) initial))) = 1%nat.
Proof.
  destruct (popLayer_at_root (calm true) initial) as (A & B & _ & C & _).
  - reflexivity.
  - destruct (C eq_refl) as [_ C']. rewrite C'. repeat split; assumption.
Defined.

(** Map, dashboard, detail screen 4, and back. *)
Lemma push_detail_then_pop_witness :
  exists m1 m2,
    pushLayer (calm true) DETAIL_SCREEN (mkParams false (Some 4)) on_dashboard
      = (true, m1) /\
    layerHistory m1 = [MAP; CONTROL_PANEL; DETAIL_SCREEN] /\
    popLayer (calm true) m1 = (true, m2) /\
    currentLayer m2 = CONTROL_PANEL /\
    layerHistory m2 = [MAP; CONTROL_PANEL].
Proof.
  destruct (pushLayer (calm true) DETAIL_SCREEN (mkParams false (Some 4)) on_dashboard)
    as [b m1] eqn:Hpush.
  assert (Hb : b = true) by (vm_compute in Hpush; congruence). subst b.
  destruct (push_detail_then_pop (calm true) on_dashboard m1 (mkParams false (Some 4)))
    as [Hpart Htot]; try reflexivity; try exact Hpush.
  destruct (Htot (fun _ => eq_refl)) as [m2 Hpop].
  destruct (Hpart m2 Hpop) as (Hc & Hh & _).
  exists m1, m2. repeat split; try assumption.
  vm_compute in Hpush. injection Hpush as <-. reflexivity.
Defined.

End LayerExamples.

(** ** Dashboard grid *)

Section GridFacts.
Import Grid.

(** An annotation is the sentinel or the index of a tile. *)
Lemma neighbours_in_range (layout : Layout) (count index : Z) :
  0 < columns layout -> 0 <= index < count ->
  let n := neighbours layout count index in
  (up n = -1 \/ 0 <= up n < count) /\
  (down n = -1 \/ 0 <= down n < count) /\
  (left n = -1 \/ 0 <= left n < count) /\
  (right n = -1 \/ 0 <= right n < count).
Proof.
  intros Hc Hi. unfold neighbours. cbn [up down left right].
  pose proof (Z.div_pos index (columns layout) ltac:(lia) Hc) as Hrow.
  pose proof (Z.mod_pos_bound index (columns layout) Hc) as Hcol.
  pose proof (Z.div_mod index (columns layout) ltac:(lia)) as Hdm.
  repeat split.
  - destruct (Z.ltb_spec 0 (index / columns layout)); [right|left; reflexivity].
    nia.
  - destruct (Z.ltb_spec (index / columns layout) (rows layout - 1));
      [|left; reflexivity].
    destruct (Z.ltb_spec (index + columns layout) count); right; lia.
  - destruct (Z.ltb_spec 0 (index mod columns layout)); [right|left; reflexivity].
    lia.
  - destruct (Z.ltb_spec (index mod columns layout) (columns layout - 1)); simpl;
      [|left; reflexivity].
    destruct (Z.ltb_spec (index + 1) count); [right; lia|left; reflexivity].
Qed.

(** A tile in the last row of the layout has no neighbour below. *)
Lemma last_row_no_down (layout : Layout) (count index : Z) :
  rows layout - 1 <= index / columns layout ->
  down (neighbours layout count index) = -1.
Proof.
  intros H. unfold neighbours. cbn [down].
  destruct (Z.ltb_spec (index / columns layout) (rows layout - 1)); [lia|reflexivity].
Qed.

(** C7, as the specification states it, fails: with seven screens the
    layout has four columns and two rows, index 5 lies in the last row,
    and its Down annotation is the sentinel. *)
Lemma down_from_last_row_is_sentinel :
  calculateLayout 7 = Some (mkLayout 4 2) /\
  row (neighbours (mkLayout 4 2) 7 5) = 1 /\
  col (neighbours (mkLayout 4 2) 7 5) = 1 /\
  down (neighbours (mkLayout 4 2) 7 5) = -1 /\
  down (neighbours (mkLayout 4 2) 7 5) <> 6.
Proof. repeat split; vm_compute; discriminate. Qed.

(** C7 (amended): with seven screens in the four-column, two-row layout,
    Down from index 3 (row 0, column 3), whose direct neighbour 7 is out
    of range, is clamped to the last item, index 6; the tiles of the
    first row with a tile below them move straight down; the tiles of
    the last row, index 5 among them, have the sentinel. *)
Theorem down_clamps_above_partial_row :
  calculateLayout 7 = Some (mkLayout 4 2) /\
  map (fun i => down (neighbours (mkLayout 4 2) 7 i)) [0; 1; 2; 3; 4; 5; 6]
  = [4; 5; 6; 6; -1; -1; -1] /\
  row (neighbours (mkLayout 4 2) 7 3) = 0 /\
  col (neighbours (mkLayout 4 2) 7 3) = 3 /\
  table_get "data-nav-down"
    (setNavigationAttributes (calculateLayout 7) [0; 1; 2; 3; 4; 5; 6] 3)
  = Some "6" /\
  table_get "data-nav-down"
    (setNavigationAttributes (calculateLayout 7) [0; 1; 2; 3; 4; 5; 6] 5)
  = Some "-1".
Proof. repeat split. Qed.

End GridFacts.

(** ** Focus store *)

Section FocusFacts.
Import Keys Focus.

Lemma setFocus_tracks (e : Element) (s : State) :
  currentFocusedElement (setFocus (Some e) s) = Some e.
Proof. unfold setFocus. destruct (takes_focus s e); reflexivity. Qed.

Lemma restoreScrollPosition_tracks (l : string) (p : Z * Z) (s : State) :
  currentFocusedElement (restoreScrollPosition l p s) = currentFocusedElement s.
Proof. unfold restoreScrollPosition. destruct (getLayerContainer s l); reflexivity. Qed.

(** A node with a data-stt attribute is saved under that attribute; its
    id does not enter the saved state. *)
Lemma saved_selector_prefers_stt (time : Z) (l : string) (s : State)
    (e : Element) (stt : string) :
  tracked s = Some e -> getAttribute e "data-stt" = Some stt ->
  elementSelector <$> (focusStates (saveFocusState time l s) !! l)
  = Some (Some (SelStt stt)).
Proof.
  intros Ht Ha. unfold saveFocusState. rewrite Ht.
  cbn [set_focusStateStack set_focusStates focusStates].
  rewrite lookup_insert_eq. cbn. unfold buildElementSelector. now rewrite Ha.
Qed.

(** Which selector a node is saved under: its data-stt, or else its id,
    or else its data-index with its first class, or else its place under
    its parent. *)
Lemma saved_selector (time : Z) (l : string) (s : State) (e : Element) :
  tracked s = Some e ->
  exists saved,
    focusStates (saveFocusState time l s) !! l = Some saved /\
    elementSelector saved = buildElementSelector e /\
    (forall stt, getAttribute e "data-stt" = Some stt ->
       elementSelector saved = Some (SelStt stt)) /\
    (getAttribute e "data-stt" = None -> id e <> "" ->
     elementSelector saved = Some (SelId (id e))) /\
    (getAttribute e "data-stt" = None -> id e = "" ->
     forall idx, getAttribute e "data-index" = Some idx ->
       elementSelector saved = Some (SelDataIndex (hd "" (classList e)) idx)) /\
    (getAttribute e "data-stt" = None -> id e = "" ->
     getAttribute e "data-index" = None ->
     elementSelector saved
     = (fun p => SelNthChild (fst p) (S (snd p))) <$> parent e).
Proof.
  intros Ht. unfold saveFocusState. rewrite Ht.
  cbn [set_focusStateStack set_focusStates focusStates].
  rewrite lookup_insert_eq. eexists. split; [reflexivity|].
  cbn [elementSelector]. split; [reflexivity|].
  unfold buildElementSelector. repeat split.
  - intros stt ->. reflexivity.
  - intros -> Hid. destruct (String.eqb_spec (id e) ""); [contradiction|].
    reflexivity.
  - intros -> -> idx ->. reflexivity.
  - intros -> -> ->. cbn. destruct (parent e) as [[ptag k]|]; reflexivity.
Qed.


(** C6: when the tracked node is still in the document and rendered,
    the refresh reports the focus as preserved and changes nothing but
    the list of dispatched events: the tracked node, the active node and
    the scroll offsets stay as they were. *)
Theorem refresh_preserves_valid_focus (l : option string) (s : State) (e : Element) :
  tracked s = Some e -> body_contains s e = true -> offsetParent e = true ->
  focusRestored (fst (refreshFocusableElements l s)) = true /\
  previousFocusValid (fst (refreshFocusableElements l s)) = true /\
  focusedElement (fst (refreshFocusableElements l s)) = Some e /\
  snd (refreshFocusableElements l s)
    = dispatchRefreshed (fst (refreshFocusableElements l s)) s /\
  currentFocusedElement (snd (refreshFocusableElements l s))
    = currentFocusedElement s /\
  activeElement (snd (refreshFocusableElements l s)) = activeElement s /\
  tracked (snd (refreshFocusableElements l s)) = Some e /\
  scroll (snd (refreshFocusableElements l s)) = scroll s /\
  scrolledIntoView (snd (refreshFocusableElements l s)) = scrolledIntoView s /\
  focusStates (snd (refreshFocusableElements l s)) = focusStates s.
Proof.
  intros Ht Hb Ho. unfold refreshFocusableElements.
  rewrite Ht, Hb, Ho. cbn [andb fst snd].
  repeat split; try reflexivity.
  unfold tracked, active, deref in *. cbn. exact Ht.
Qed.

Lemma at_index_bound (l : list Element) (i : option Z) (e : Element) :
  at_index l i = Some e ->
  exists k, (k < length l)%nat /\ nth_error l k = Some e.
Proof.
  destruct i as [z|]; [|discriminate]. simpl.
  destruct (Z.ltb z 0); [discriminate|]. intros H.
  exists (Z.to_nat z). split; [|exact H].
  apply nth_error_Some. congruence.
Qed.

(** C9 (amended): [moveFocus] either leaves the focus where it was or
    gives it to a node of the focusable collection; when the collection
    has one node and that node is the tracked one, no direction changes
    the focus, and [moveFocus] returns [false] unless the tile carries a
    usable annotation; when the tracked node is not in the collection,
    [moveFocus] focuses the first node. *)
Theorem moveFocus_bounded (d : Direction) (s : State) :
  (snd (moveFocus d s) = s \/
   exists k e, (k < length (getFocusableElements s (currentLayer s)))%nat /\
               nth_error (getFocusableElements s (currentLayer s)) k = Some e /\
               snd (moveFocus d s) = setFocus (Some e) s) /\
  (length (getFocusableElements s (currentLayer s)) = 1%nat ->
   indexOf (getFocusableElements s (currentLayer s)) (tracked s) = 0 ->
   snd (moveFocus d s) = s /\
   (annotated_target s d (currentLayer s) = None -> fst (moveFocus d s) = false)) /\
  (indexOf (getFocusableElements s (currentLayer s)) (tracked s) = -1 ->
   moveFocus d s = focusFirstElement (currentLayer s) s).
Proof.
  unfold moveFocus.
  set (fs := getFocusableElements s (currentLayer s)).
  set (cur := indexOf fs (tracked s)).
  split; [|split].
  - destruct (Z.eqb cur (-1)).
    + unfold focusFirstElement, getFirstFocusable. fold fs.
      destruct fs as [|e fs'] eqn:Hfs; cbn; [left; reflexivity|].
      right. exists 0%nat, e. repeat split. simpl. lia.
    + destruct (differs _ cur); [|left; reflexivity]. cbn [snd].
      destruct (at_index fs _) as [e|] eqn:Ha; [|left; reflexivity].
      right. apply at_index_bound in Ha as (k & Hk & Hn). eauto.
  - intros Hlen Hcur. rewrite Hcur. cbn [Z.eqb].
    unfold calculateTargetIndex. rewrite Hlen.
    split.
    + destruct (differs _ 0) eqn:Hd; [|reflexivity]. cbn [snd].
      destruct (annotated_target s d (currentLayer s)) as [[z|]|]; cbn.
      * unfold differs in Hd. cbn.
        destruct (Z.ltb_spec z 0); [reflexivity|].
        destruct (Z.to_nat z) as [|n] eqn:Hz.
        { assert (z = 0) by lia. subst z. cbn in Hd. discriminate. }
        destruct fs as [|x [|y fs']]; try discriminate.
        cbn. destruct n; reflexivity.
      * reflexivity.
      * exfalso. revert Hd. destruct d; cbn; discriminate.
    + intros ->. destruct d; reflexivity.
  - intros ->. reflexivity.
Qed.

End FocusFacts.

(** ** Focus store on concrete pages *)

Section FocusExamples.
Import Keys Grid Focus Dashboard FocusCare.



(** Three tiles, focus on the second. *)
Lemma refresh_preserves_valid_focus_witness :
  focusRestored (fst (refreshFocusableElements None (page [0; 1; 2] 1))) = true /\
  currentFocusedElement (snd (refreshFocusableElements None (page [0; 1; 2] 1)))
    = currentFocusedElement (page [0; 1; 2] 1) /\
  scroll (snd (refreshFocusableElements None (page [0; 1; 2] 1)))
    = scroll (page [0; 1; 2] 1).
Proof.
  destruct (tracked (page [0; 1; 2] 1)) as [e|] eqn:He;
    [|vm_compute in He; discriminate].
  destruct (refresh_preserves_valid_focus None (page [0; 1; 2] 1) e He)
    as (A & _ & _ & _ & B & _ & _ & C & _).
  - vm_compute in He. injection He as <-. reflexivity.
  - vm_compute in He. injection He as <-. reflexivity.
  - auto.
Defined.

(** C9, as the specification states it, fails: with a single tile and no
    tracked node among the focusables, every direction focuses that tile
    and reports a move. *)
Lemma single_item_move_from_body :
  length (getFocusableElements (unfocused [4]) DASHBOARD) = 1%nat /\
  tracked (unfocused [4]) = None /\
  forall d,
    fst (moveFocus d (unfocused [4])) = true /\
    uid <$> currentFocusedElement (snd (moveFocus d (unfocused [4])))
      = Some 100%nat.
Proof. repeat split; destruct d; reflexivity. Qed.

(** One tile: focused, and with the focus on the body. *)
Lemma moveFocus_bounded_witness :
  snd (moveFocus DirDown (page [4] 0)) = page [4] 0 /\
  fst (moveFocus DirDown (page [4] 0)) = false /\
  moveFocus DirDown (unfocused [4]) = focusFirstElement DASHBOARD (unfocused [4]).
Proof.
  destruct (moveFocus_bounded DirDown (page [4] 0)) as (_ & A & _).
  destruct (moveFocus_bounded DirDown (unfocused [4])) as (_ & _ & B).
  destruct A as [A1 A2]; [reflexivity | reflexivity |].
  split; [exact A1|]. split; [apply A2; reflexivity | apply B; reflexivity].
Defined.

(** With the seven tiles the grid renders, the Down annotation of tile 5
    is the sentinel, which [calculateTargetIndex] does not use; its
    linear step then takes the focus to tile 6. *)
Lemma down_from_tile_5_by_linear_step :
  annotated_target (page [0; 1; 2; 3; 4; 5; 6] 5) DirDown DASHBOARD = None /\
  fst (moveFocus DirDown (page [0; 1; 2; 3; 4; 5; 6] 5)) = true /\
  (fun e => getAttribute e "data-index") <$>
    currentFocusedElement (snd (moveFocus DirDown (page [0; 1; 2; 3; 4; 5; 6] 5)))
  = Some (Some "6").
Proof. vm_compute. repeat split. Qed.

End FocusExamples.

(** ** Input handler: further properties *)

Section HandlerFacts.
Import Keys Input Handler.

(** X1: normalising is idempotent: a normalised key that is normalised
    again comes back unchanged. *)
Theorem normalize_idempotent (ev : KeyboardEvent) :
  normalizeKeyCode (as_event (normalizeKeyCode ev)) = normalizeKeyCode ev.
Proof.
  destruct ev as [kc k]. unfold as_event, normalizeKeyCode.
  cbn [keyCode key].
  destruct (name_code k) as [c|] eqn:Hnc.
  - apply known_name in Hnc as (s & -> & Hin).
    unfold KEY_NAME_MAP in Hin; simpl in Hin.
    repeat (destruct Hin as [Hin|Hin]; [injection Hin as <- <-|]); [..|contradiction];
    (destruct kc as [z|]; cbn;
     [ destruct (Z.eqb_spec z 0) as [->|]; [reflexivity|];
       destruct (Z.eqb_spec z 229) as [->|]; [reflexivity|];
       destruct (Z.eqb_spec z BACK) as [->|]; [reflexivity|]; cbn;
       repeat match goal with
       | |- context [Z.eqb z ?c] => destruct (Z.eqb_spec z c); try lia; cbn
       end; reflexivity
     | reflexivity ]).
  - pose proof (unknown_name k Hnc) as Hk. unfold compared_names in Hk.
    rewrite !Hk by (simpl; tauto). cbn [orb].
    assert (E : (if unreliable kc then kc else kc) = kc) by (destruct (unreliable kc); reflexivity).
    rewrite E.
    destruct (code_is kc BACK) eqn:Hb.
    + reflexivity.
    + cbn [nkey nkeyCode]. rewrite !Hk by (simpl; tauto). cbn [orb nkey nkeyCode].
      rewrite Hnc, E, Hb. cbn. rewrite !Hk by (simpl; tauto). reflexivity.
Qed.

Lemma processKey_prevented (sync : Outcome) (k : NormalizedKey) (w : World) :
  prevented (processKey sync k w) = prevented w.
Proof.
  unfold processKey, dispatch_default, debounce.
  repeat match goal with
  | |- context [match ?x with _ => _ end] =>
      match x with
      | context [match _ with _ => _ end] => fail 1
      | _ => destruct x eqn:?
      end
  end; reflexivity.
Qed.

(** X2: a keydown with the Tizen back code is prevented exactly once in
    every state, enabled or not, busy or not; any other key is prevented
    at most once, only when it is accepted and is one of the navigation
    or volume codes; a digit is never prevented. *)
Theorem back_always_prevented (w : World) (event : KeyboardEvent) (sync : Outcome) :
  (code_is (keyCode event) BACK = true ->
   prevented (handleKeyDown sync event w) = (prevented w ++ [Some BACK])%list) /\
  (code_is (keyCode event) BACK = false ->
   negb (isEnabled w) || isProcessing w = true ->
   prevented (handleKeyDown sync event w) = prevented w) /\
  (code_is (keyCode event) BACK = false ->
   negb (isEnabled w) || isProcessing w = false ->
   prevented (handleKeyDown sync event w) =
     (prevented w ++
      if includes PREVENT_DEFAULT_KEYS (keyCode event) then [keyCode event] else [])%list) /\
  (forall z, keyCode event = Some z -> 48 <= z <= 57 ->
   prevented (handleKeyDown sync event w) = prevented w).
Proof.
  unfold handleKeyDown.
  split; [|split; [|split]].
  - intros Hb. rewrite Hb.
    assert (Hc : keyCode event = Some BACK).
    { destruct (keyCode event) as [z|]; [|discriminate]. simpl in Hb.
      apply Z.eqb_eq in Hb. now subst. }
    rewrite Hc. destruct w; cbn [isEnabled isProcessing preventDefault].
    destruct (negb _ || _); [reflexivity|].
    rewrite Bool.andb_false_r. rewrite processKey_prevented. reflexivity.
  - intros Hb Hg. rewrite Hb, Hg. reflexivity.
  - intros Hb Hg. rewrite Hb, Hg. cbn [negb]. rewrite Bool.andb_true_r.
    destruct (includes _ _); rewrite processKey_prevented;
      [destruct w; reflexivity | symmetry; apply app_nil_r].
  - intros z Hz Hr. rewrite Hz.
    assert (Hb : code_is (Some z) BACK = false).
    { simpl. apply Z.eqb_neq. unfold BACK. lia. }
    assert (Hi : includes PREVENT_DEFAULT_KEYS (Some z) = false).
    { unfold includes, PREVENT_DEFAULT_KEYS, ARROW_UP, ARROW_DOWN, ARROW_LEFT,
        ARROW_RIGHT, ENTER, ESCAPE, BACK, VOLUME_UP, VOLUME_DOWN. simpl.
      repeat match goal with
      | |- context [Z.eqb z ?c] => destruct (Z.eqb_spec z c); [lia|]
      end. reflexivity. }
    rewrite Hb, Hi. cbn [andb]. destruct (negb _ || _); [reflexivity|].
    apply processKey_prevented.
Qed.

Lemma back_always_prevented_witness :
  prevented (handleKeyDown (Returned true) (mkEvent (Some 10009) None)
               (set_isEnabled false initial)) = ([] ++ [Some BACK])%list /\
  prevented (handleKeyDown (Returned true) (mkEvent (Some 53) (Some "5")) initial) = [].
Proof.
  destruct (back_always_prevented (set_isEnabled false initial)
              (mkEvent (Some 10009) None) (Returned true)) as (A & _).
  destruct (back_always_prevented initial
              (mkEvent (Some 53) (Some "5")) (Returned true)) as (_ & _ & _ & B).
  split; [apply A; reflexivity | apply (B 53); [reflexivity | lia]].
Defined.

(** X3: while the handler is disabled, whatever keys are delivered and
    however much time passes, no key is accepted, no handler is called
    and no timer is armed. *)
Theorem disabled_ignores_keys (tr : list Event) (w : World) :
  isEnabled w = false -> forallb delivers_key tr = true ->
  exists w', run w tr = Some w' /\
             isEnabled w' = false /\
             history w' = history w /\ invoked w' = invoked w /\
             timers w' = timers w /\ isProcessing w' = isProcessing w /\
             awaiting w' = awaiting w.
Proof.
  revert w. induction tr as [|e tr IH]; intros w He Htr.
  - exists w. repeat split. exact He.
  - simpl in Htr. apply Bool.andb_true_iff in Htr as [Hd Htr].
    assert (Hs : exists w1, step w e = Some w1 /\ isEnabled w1 = false /\
                 history w1 = history w /\ invoked w1 = invoked w /\
                 timers w1 = timers w /\ isProcessing w1 = isProcessing w /\
                 awaiting w1 = awaiting w).
    { destruct e as [ev sync|name sync|r|r| |dt|b|k f|k]; try discriminate; simpl.
      - eexists. split; [reflexivity|]. unfold handleKeyDown.
        destruct (code_is _ _); destruct w; cbn in *; subst; cbn; repeat split.
      - eexists. split; [reflexivity|]. unfold handleTizenKey. rewrite He.
        repeat split. exact He.
      - simpl in Hd. rewrite Hd. eexists. split; [reflexivity|].
        repeat split. exact He. }
    destruct Hs as (w1 & Hs & He1 & H1 & H2 & H3 & H4 & H5).
    destruct (IH w1 He1 Htr) as (w' & Hr & He' & G1 & G2 & G3 & G4 & G5).
    exists w'. simpl. rewrite Hs. repeat split; congruence.
Qed.

Lemma disabled_ignores_keys_witness :
  exists w', run (set_isEnabled false initial)
               [KeyDown up_event (Returned true); Elapse 500;
                TizenKey "VolumeUp" (Returned true)] = Some w' /\
             history w' = [] /\ invoked w' = [].
Proof.
  destruct (disabled_ignores_keys
              [KeyDown up_event (Returned true); Elapse 500;
               TizenKey "VolumeUp" (Returned true)]
              (set_isEnabled false initial))
    as (w' & Hr & _ & Hh & Hi & _); [reflexivity | reflexivity |].
  exists w'. auto.
Defined.

(** X4: a listener that reports the key as handled is the only function
    called for it, yet the debounce timer is armed as for any key; a
    listener that reports it as not handled is followed by the default
    action of the key, if it has one. *)
Theorem handled_listener_suppresses_default
    (w : World) (event : KeyboardEvent) (sync : Outcome) (f : KeyHandler) :
  idle w -> isEnabled w = true ->
  customHandler w (normalizeKeyCode event) = Some f ->
  (f (normalizeKeyCode event) = Returned true ->
   invoked (handleKeyDown sync event w)
     = (invoked w ++ [ByListener (normalizeKeyCode event)])%list /\
   timers (handleKeyDown sync event w) = [now w + delay w] /\
   awaiting (handleKeyDown sync event w) = None /\
   isProcessing (handleKeyDown sync event w) = true) /\
  (f (normalizeKeyCode event) = Returned false ->
   invoked (handleKeyDown sync event w)
     = (invoked w ++
        ByListener (normalizeKeyCode event) ::
        match default_action (nkeyCode (normalizeKeyCode event)) with
        | Some a => [ByDefault a]
        | None => []
        end)%list).
Proof.
  intros (Hp & Ht & Ha) He Hc. unfold handleKeyDown.
  set (k := normalizeKeyCode event) in *.
  destruct w as [en pr dl ls nw tm aw hs iv pv lg rj].
  cbn in Hp, Ht, Ha, He. subst.
  unfold customHandler in Hc. cbn [keyListeners] in Hc.
  unfold processKey, customHandler, dispatch_default, debounce, delay.
  split; intros Hf;
  destruct (code_is (keyCode event) BACK);
  destruct (includes PREVENT_DEFAULT_KEYS (keyCode event));
  cbn -[Z.max Z.add]; rewrite Hc, Hf; cbn -[Z.max Z.add];
  try (repeat split; reflexivity);
  destruct (default_action (nkeyCode k)) as [[d| | |dz|n]|];
  try destruct sync; cbn -[Z.max Z.add]; rewrite <- ?app_assoc; reflexivity.
Qed.

Lemma handled_listener_suppresses_default_witness :
  invoked (handleKeyDown (Returned true) up_event
             (with_listener "ArrowUp" (fun _ => Returned true) initial))
  = ([] ++ [ByListener (normalizeKeyCode up_event)])%list.
Proof.
  destruct (handled_listener_suppresses_default
              (with_listener "ArrowUp" (fun _ => Returned true) initial)
              up_event (Returned true) (fun _ => Returned true)) as [A _].
  - repeat split.
  - reflexivity.
  - reflexivity.
  - destruct (A eq_refl) as [A1 _]. exact A1.
Defined.

(** X5: of the keys that arrive as hardware key events, only the back
    key and the two volume keys have a default action; every other
    name, known to [getTizenKeyCode] or not, selects none. *)
Theorem hardware_key_actions (keyName : string) (a : Action) :
  default_action (Some (getTizenKeyCode keyName)) = Some a ->
  (keyName = "back" /\ a = ActBack) \/
  (keyName = "VolumeUp" /\ a = ActVolume 1) \/
  (keyName = "VolumeDown" /\ a = ActVolume (-1)).
Proof.
  unfold getTizenKeyCode.
  destruct (table_get keyName _) as [c|] eqn:Ht.
  - apply table_get_Some in Ht. simpl in Ht.
    repeat (destruct Ht as [Ht|Ht]; [injection Ht as <- <-|]); [..|contradiction];
      vm_compute; intros H; try discriminate; injection H as <-; auto.
  - vm_compute. discriminate.
Qed.

Lemma hardware_key_actions_witness :
  ("VolumeUp" = "back" /\ ActVolume 1 = ActBack) \/
  ("VolumeUp" = "VolumeUp" /\ ActVolume 1 = ActVolume 1) \/
  ("VolumeUp" = "VolumeDown" /\ ActVolume 1 = ActVolume (-1)).
Proof. apply (hardware_key_actions "VolumeUp" (ActVolume 1)). reflexivity. Defined.

(** X6: the handler is never locked out: from every state it can reach,
    letting the suspended handler settle, the debounce delay pass and
    the timer fire brings it back to rest, with no further key accepted
    on the way. *)
Theorem never_locked_out (w0 w : World) (tr : list Event) :
  idle w0 -> history w0 = [] -> run w0 tr = Some w ->
  exists w', run w (settle_down w) = Some w' /\ idle w' /\
             isEnabled w' = isEnabled w /\
             List.filter (fun m => match snd m with Accepted _ => true | Finished => false end)
               (history w')
             = List.filter (fun m => match snd m with Accepted _ => true | Finished => false end)
               (history w).
Proof.
  intros Hi Hh Hr.
  destruct (run_coherent tr w0 w (idle_coherent w0 Hi Hh) Hr) as [[Hd Hst] _].
  pose proof (delay_nonneg w) as Hnn.
  unfold settle_down.
  destruct w as [en pr dl ls nw tm aw hs iv pv lg rj].
  unfold delay in *. cbn in Hd, Hst, Hnn |- *.
  destruct aw as [a|]; destruct tm as [|due [|? ?]]; try contradiction.
  - assert (E1 : Z.leb 0 (Z.max 0 dl) = true) by (apply Z.leb_le; lia).
    unfold resume, debounce, delay. cbn -[Z.max Z.add Z.leb].
    rewrite E1. cbn -[Z.max Z.add Z.leb]. rewrite Z.leb_refl.
    eexists. split; [reflexivity|]. repeat split.
  - eexists. split; [reflexivity|]. destruct Hst as [-> _]. repeat split.
  - assert (E1 : Z.leb 0 (Z.max 0 (due - nw)) = true) by (apply Z.leb_le; lia).
    assert (E2 : Z.leb due (nw + Z.max 0 (due - nw)) = true) by (apply Z.leb_le; lia).
    cbn -[Z.max Z.add Z.leb]. rewrite E1. cbn -[Z.max Z.add Z.leb]. rewrite E2.
    eexists. split; [reflexivity|]. repeat split.
Qed.

Lemma never_locked_out_witness :
  exists w w', run initial [KeyDown (mkEvent (Some 13) (Some "Enter")) (Returned true)]
                 = Some w /\
               awaiting w = Some ActEnter /\
               run w (settle_down w) = Some w' /\ idle w'.
Proof.
  destruct (run initial [KeyDown (mkEvent (Some 13) (Some "Enter")) (Returned true)])
    as [w|] eqn:Hr; [|vm_compute in Hr; discriminate].
  destruct (never_locked_out initial w
              [KeyDown (mkEvent (Some 13) (Some "Enter")) (Returned true)])
    as (w' & Hs & Hi & _); [repeat split | reflexivity | exact Hr |].
  exists w, w'. repeat split; try assumption; try apply Hi.
  vm_compute in Hr. injection Hr as <-. reflexivity.
Defined.

End HandlerFacts.

(** ** Layer coordinator: further properties *)

Section NavigationFacts.
Import Layers Navigation.

Lemma walk_snoc (h : list Z) (c t : Z) :
  walk h = true -> last h = Some c -> canTransition c t = true ->
  walk (h ++ [t]) = true.
Proof.
  induction h as [|a h IH]; [discriminate 2|].
  intros Hw Hl Hc. destruct h as [|b h'].
  - simpl in *. injection Hl as ->. now rewrite Hc.
  - change ((a :: b :: h') ++ [t])%list with (a :: (b :: h') ++ [t])%list.
    simpl in Hw. apply Bool.andb_true_iff in Hw as [Hab Hw].
    simpl. rewrite Hab. simpl. apply IH; auto.
Qed.

Lemma walk_removelast (h : list Z) : walk h = true -> walk (removelast h) = true.
Proof.
  induction h as [|a h IH]; [reflexivity|].
  intros Hw. destruct h as [|b h']; [reflexivity|].
  simpl in Hw. apply Bool.andb_true_iff in Hw as [Hab Hw].
  change (removelast (a :: b :: h')) with (a :: removelast (b :: h')).
  specialize (IH Hw). destruct h' as [|c h'']; [reflexivity|].
  change (removelast (b :: c :: h'')) with (b :: removelast (c :: h'')) in *.
  simpl. rewrite Hab. exact IH.
Qed.

Lemma pushLayer_settled (env : Env) (target : Z) (params : Params) (m : Manager) :
  isBack params = false -> settled m ->
  settled (snd (pushLayer env target params m)).
Proof.
  intros Hnb (Ht & Hs & Hh & Hl & Hw). unfold pushLayer. rewrite Ht.
  destruct (Z.eqb target (currentLayer m)); [repeat split; assumption|].
  destruct (canTransition (currentLayer m) target) eqn:Hc;
    [|repeat split; assumption].
  cbn [negb].
  destruct (performTransition_outcome env (currentLayer m) target params m)
    as (Gt & Gs & [(_ & Gh & Gc)|(Gc & Gh)]).
  - unfold settled. rewrite Gt, Gs, Gh, Gc. auto.
  - unfold settled. rewrite Gt, Gs, Gh, Gc, Hnb. repeat split.
    + destruct (layerHistory m); [discriminate|exact Hh].
    + apply last_snoc.
    + eapply walk_snoc; eauto.
Qed.

Lemma popLayer_settled (env : Env) (m : Manager) :
  settled m -> settled (snd (popLayer env m)).
Proof.
  intros (Ht & Hs & Hh & Hl & Hw). unfold popLayer. rewrite Ht.
  destruct (Nat.leb_spec (length (layerHistory m)) 1) as [Hle|Hgt].
  - unfold handleExitApp. destruct (isTizen env); [destruct m|];
      repeat split; assumption.
  - destruct (nth_error _ _) as [p|] eqn:Hn; [|repeat split; assumption].
    destruct (performTransition_outcome env (currentLayer m) p
                {| isBack := true; screenSTT := None |} m)
      as (Gt & Gs & [(_ & Gh & Gc)|(Gc & Gh)]).
    + unfold settled. rewrite Gt, Gs, Gh, Gc. auto.
    + unfold settled. rewrite Gt, Gs, Gh, Gc. cbn [isBack]. unfold pop.
      repeat split.
      * destruct (layerHistory m) as [|a [|b h]]; simpl in Hgt; try lia.
        exact Hh.
      * destruct (layerHistory m) as [|x h] using rev_ind; [simpl in Hgt; lia|].
        rewrite removelast_last.
        assert (Hne : h <> []) by (intros ->; simpl in Hgt; lia).
        destruct (last_penultimate h x Hne) as [Hp _]. congruence.
      * now apply walk_removelast.
Qed.

Ltac run_transition_in env :=
  unfold performTransition, begin_transition, complete_transition,
    bind, call, modify, get, when, ret;
  cbn [currentLayer layerHistory transitionState isTransitioning
       iframeManager calls set_isTransitioning set_transitionState
       set_currentLayer set_layerHistory record_call fst snd isBack screenSTT];
  repeat (match goal with
          | |- context [throws env ?c] => destruct (throws env c) eqn:?
          | |- context [if ?b then _ else _] =>
              match b with
              | context [if _ then _ else _] => fail 1
              | _ => destruct b eqn:?
              end
          end;
          cbn [currentLayer layerHistory transitionState isTransitioning
               iframeManager calls set_isTransitioning set_transitionState
               set_currentLayer set_layerHistory record_call fst snd
               isBack screenSTT]).

Lemma serve_settled (env : Env) (r : Request) (m : Manager) :
  settled m -> settled (serve env r m).
Proof.
  intros H. destruct r as [target stt| | |stt|]; simpl.
  - now apply pushLayer_settled.
  - now apply popLayer_settled.
  - unfold showDashboard. destruct (Z.eqb _ _); [|exact H].
    now apply pushLayer_settled.
  - unfold openDetailScreen. destruct (Z.eqb _ _); now apply pushLayer_settled.
  - destruct m. exact H.
Qed.

Lemma serve_all_settled (rs : list (Env * Request)) (m : Manager) :
  settled m -> settled (serve_all rs m).
Proof.
  revert m. induction rs as [|[env r] rs IH]; intros m Hm; [exact Hm|].
  simpl. apply IH. now apply serve_settled.
Qed.

Lemma serve_all_app (rs1 rs2 : list (Env * Request)) (m : Manager) :
  serve_all (rs1 ++ rs2) m = serve_all rs2 (serve_all rs1 m).
Proof.
  revert m. induction rs1 as [|[env r] rs1 IH]; intros m; [reflexivity|].
  simpl. apply IH.
Qed.

(** X7: after [init()], whatever requests are served, whenever (if
    ever) the iframe manager is linked in between, and whichever
    collaborator calls fail on the way, the manager ends with its guard
    released and its state idle, and its history starts at the map, ends
    with the current layer and moves only along the adjacency table.
    The same holds on from any manager left in that condition; and the
    iframe manager, once linked, stays linked. *)
Theorem history_is_a_walk (rs : list (Env * Request)) :
  (isTransitioning (serve_all rs initial) = false /\
   transitionState (serve_all rs initial) = IDLE /\
   hd_error (layerHistory (serve_all rs initial)) = Some MAP /\
   last (layerHistory (serve_all rs initial))
     = Some (currentLayer (serve_all rs initial)) /\
   walk (layerHistory (serve_all rs initial)) = true) /\
  (forall m, settled m -> settled (serve_all rs m)) /\
  (forall m, iframeManager m = true -> iframeManager (serve_all rs m) = true) /\
  (forall env rs', In (env, LinkIframe) rs ->
     iframeManager (serve_all (rs ++ rs') initial) = true).
Proof.
  assert (Hlinked : forall rs0 m, iframeManager m = true ->
                      iframeManager (serve_all rs0 m) = true).
  { induction rs0 as [|[env r] rs0 IH]; intros m Hm; [exact Hm|].
    simpl. apply IH.
    assert (Hp : forall fromLayer toLayer params,
              iframeManager (snd (performTransition env fromLayer toLayer params m))
              = true).
    { intros fromLayer toLayer params. destruct m as [cur hist ts tr ifr cs].
      cbn in Hm. subst ifr.
      run_transition_in env; reflexivity. }
    assert (Hpush : forall target params,
              iframeManager (snd (pushLayer env target params m)) = true).
    { intros target params. unfold pushLayer.
      destruct (isTransitioning m); [exact Hm|].
      destruct (Z.eqb target (currentLayer m)); [exact Hm|].
      destruct (negb _); [exact Hm|]. apply Hp. }
    destruct r as [target stt| | |stt|]; cbn [serve].
    - apply Hpush.
    - unfold back, popLayer. destruct (isTransitioning m); [exact Hm|].
      destruct (Nat.leb _ 1).
      + unfold handleExitApp. destruct (isTizen env); [destruct m|]; exact Hm.
      + destruct (nth_error _ _); [apply Hp | exact Hm].
    - unfold showDashboard. destruct (Z.eqb _ _); [apply Hpush | exact Hm].
    - unfold openDetailScreen. destruct (Z.eqb _ _); apply Hpush.
    - destruct m. reflexivity. }
  split; [|split; [|split]].
  - apply (serve_all_settled rs initial). repeat split.
  - intros m. apply serve_all_settled.
  - apply Hlinked.
  - intros env rs' Hin. apply in_split in Hin as (l1 & l2 & ->).
    rewrite <- !app_assoc, serve_all_app. cbn [app serve_all serve].
    apply Hlinked. destruct (serve_all l1 initial). reflexivity.
Qed.

Lemma history_is_a_walk_witness :
  layerHistory (serve_all there_and_back initial) = [MAP; CONTROL_PANEL] /\
  iframeManager (serve_all there_and_back initial) = true /\
  In CloseScreen (calls (serve_all there_and_back initial)) /\
  walk (layerHistory (serve_all there_and_back initial)) = true.
Proof.
  destruct (history_is_a_walk there_and_back) as ((_ & _ & _ & _ & W) & _ & _ & L).
  split; [reflexivity|]. split; [|split; [|exact W]].
  - rewrite <- (app_nil_r there_and_back). apply (L (calm true)). now left.
  - vm_compute. tauto.
Defined.

(** X8: a transition that succeeds has called its collaborators in this
    order: save the focus of the layer left, hide it, close the iframe
    when leaving the detail layer, open the iframe when entering it with
    a screen number, show the target, tell the focus manager the new
    layer, restore the saved focus on the way back or focus the first
    element on the way forward, notify the observers. *)
Theorem transition_call_order (env : Env) (fromLayer toLayer : Z)
    (params : Params) (m m' : Manager) :
  performTransition env fromLayer toLayer params m = (true, m') ->
  calls m' =
    (calls m ++
     [SaveFocusState (LAYER_TO_TYPE fromLayer); HideLayer fromLayer] ++
     (if Z.eqb fromLayer DETAIL_SCREEN && iframeManager m then [CloseScreen] else []) ++
     (if Z.eqb toLayer DETAIL_SCREEN && truthy (screenSTT params) && iframeManager m
      then [OpenScreen (default 0 (screenSTT params))] else []) ++
     [ShowLayer toLayer; SetCurrentLayer (LAYER_TO_TYPE toLayer);
      if isBack params then RestoreFocusState (LAYER_TO_TYPE toLayer)
      else FocusFirstElement (LAYER_TO_TYPE toLayer);
      NotifyLayerChange (currentLayer m) toLayer params])%list.
Proof.
  destruct m as [cur hist ts tr ifr cs]. destruct params as [bk stt].
  cbn [iframeManager calls currentLayer isBack screenSTT].
  run_transition_in env; intros [= <-];
    cbn [calls set_isTransitioning set_transitionState set_currentLayer
         set_layerHistory record_call];
    rewrite <- ?app_assoc; reflexivity.
Qed.

Lemma transition_call_order_witness :
  calls (snd (pushLayer (calm true) DETAIL_SCREEN (mkParams false (Some 4)) dashboard))
  = (calls dashboard ++
     [SaveFocusState (Some "dashboard"); HideLayer 2; OpenScreen 4;
      ShowLayer 3; SetCurrentLayer (Some "detail");
      FocusFirstElement (Some "detail");
      NotifyLayerChange 2 3 (mkParams false (Some 4))])%list.
Proof.
  apply (transition_call_order (calm true) CONTROL_PANEL DETAIL_SCREEN
           (mkParams false (Some 4)) dashboard).
  reflexivity.
Defined.

(** X9: when loading the iframe fails on the way into the detail layer,
    the push returns [false], the layer pointer and the history stay on
    the dashboard and the guard is released; by then [hideLayer] has run
    on the dashboard and [showLayer] has run for no layer: the manager
    has called the focus save, the hide and the failed open, and
    nothing after it.  What the iframe manager put on the screen before
    its open failed is not undone by the manager. *)
Theorem content_load_failure (env : Env) (m : Manager) (stt : Z) :
  currentLayer m = CONTROL_PANEL -> isTransitioning m = false ->
  iframeManager m = true -> stt <> 0 ->
  throws env (OpenScreen stt) = true ->
  (forall c, throws env c = true -> is_OpenScreen c = true) ->
  fst (pushLayer env DETAIL_SCREEN (mkParams false (Some stt)) m) = false /\
  currentLayer (snd (pushLayer env DETAIL_SCREEN (mkParams false (Some stt)) m))
    = CONTROL_PANEL /\
  layerHistory (snd (pushLayer env DETAIL_SCREEN (mkParams false (Some stt)) m))
    = layerHistory m /\
  isTransitioning (snd (pushLayer env DETAIL_SCREEN (mkParams false (Some stt)) m))
    = false /\
  calls (snd (pushLayer env DETAIL_SCREEN (mkParams false (Some stt)) m))
    = (calls m ++ [SaveFocusState (Some "dashboard"); HideLayer CONTROL_PANEL;
                   OpenScreen stt])%list.
Proof.
  intros Hc Ht Hi Hs Hthrow Honly. unfold pushLayer. rewrite Ht, Hc. cbn.
  assert (Hok : forall c, is_OpenScreen c = false -> throws env c = false).
  { intros c Hn. destruct (throws env c) eqn:E; [|reflexivity].
    apply Honly in E. congruence. }
  destruct m as [cur hist ts tr ifr cs]. cbn in Hc, Ht, Hi. subst.
  unfold performTransition, begin_transition, complete_transition,
    bind, call, modify, get, when, ret, truthy.
  cbn. rewrite !Hok by reflexivity. cbn.
  destruct (Z.eqb_spec stt 0) as [|_]; [contradiction|]. cbn.
  rewrite Hthrow. cbn. rewrite <- !app_assoc. repeat split.
Qed.

Lemma content_load_failure_witness :
  fst (pushLayer (failing is_OpenScreen) DETAIL_SCREEN (mkParams false (Some 4)) dashboard)
    = false /\
  currentLayer
    (snd (pushLayer (failing is_OpenScreen) DETAIL_SCREEN (mkParams false (Some 4)) dashboard))
    = CONTROL_PANEL.
Proof.
  destruct (content_load_failure (failing is_OpenScreen) dashboard 4)
    as (A & B & _); try reflexivity; try discriminate; auto.
Defined.

(** X10: there is no rollback: when focusing the first element of the
    target fails, after everything before it went well, the push
    returns [false] although the layer pointer and the history have
    already moved to the target; the guard is released all the same. *)
Theorem late_failure_keeps_move (env : Env) (m : Manager) (target : Z)
    (stt : option Z) :
  isTransitioning m = false ->
  canTransition (currentLayer m) target = true ->
  throws env (FocusFirstElement (LAYER_TO_TYPE target)) = true ->
  (forall c, throws env c = true -> is_FocusFirstElement c = true) ->
  fst (pushLayer env target (mkParams false stt) m) = false /\
  currentLayer (snd (pushLayer env target (mkParams false stt) m)) = target /\
  layerHistory (snd (pushLayer env target (mkParams false stt) m))
    = (layerHistory m ++ [target])%list /\
  isTransitioning (snd (pushLayer env target (mkParams false stt) m)) = false /\
  transitionState (snd (pushLayer env target (mkParams false stt) m)) = IDLE.
Proof.
  intros Ht Hc Hthrow Honly. unfold pushLayer. rewrite Ht, Hc.
  assert (Hne : Z.eqb target (currentLayer m) = false).
  { apply Z.eqb_neq. intros ->. revert Hc. unfold canTransition, MAP,
      CONTROL_PANEL, DETAIL_SCREEN.
    repeat match goal with
    | |- context [Z.eqb ?x ?y] => destruct (Z.eqb_spec x y); try lia; cbn
    end; discriminate. }
  rewrite Hne. cbn [negb].
  assert (Hok : forall c, is_FocusFirstElement c = false -> throws env c = false).
  { intros c Hn. destruct (throws env c) eqn:E; [|reflexivity].
    apply Honly in E. congruence. }
  destruct m as [cur hist ts tr ifr cs].
  unfold performTransition, begin_transition, complete_transition,
    bind, call, modify, get, when, ret.
  cbn. rewrite !Hok by reflexivity. cbn.
  destruct (_ && ifr); cbn; rewrite ?Hok by reflexivity; cbn;
  destruct (_ && ifr); cbn; rewrite ?Hok by reflexivity; cbn;
  rewrite Hthrow; cbn; repeat split.
Qed.

Lemma late_failure_keeps_move_witness :
  fst (pushLayer (failing is_FocusFirstElement) CONTROL_PANEL (mkParams false None) initial)
    = false /\
  layerHistory
    (snd (pushLayer (failing is_FocusFirstElement) CONTROL_PANEL (mkParams false None) initial))
    = ([MAP] ++ [CONTROL_PANEL])%list.
Proof.
  destruct (late_failure_keeps_move (failing is_FocusFirstElement) initial
              CONTROL_PANEL None) as (A & _ & B & _); try reflexivity; auto.
Defined.

End NavigationFacts.

(** ** Dashboard grid: further properties *)

Section GridFacts2.
Import Grid.

(** X11: for every positive number of screens [calculateLayout] gives a
    layout of one to four columns whose cells hold all the screens and
    whose last row is not empty. *)
Theorem layout_fits (screenCount : Z) :
  1 <= screenCount ->
  exists layout,
    calculateLayout screenCount = Some layout /\
    1 <= columns layout <= 4 /\ 1 <= rows layout /\
    (rows layout - 1) * columns layout < screenCount <= rows layout * columns layout.
Proof.
  intros Hn. unfold calculateLayout.
  destruct (Z.eqb_spec screenCount 0); [lia|].
  repeat match goal with
  | |- context [Z.eqb screenCount ?c] =>
      destruct (Z.eqb_spec screenCount c);
      [subst; cbn; eexists; split; [reflexivity|cbn; lia]|]
  end.
  cbn. eexists. split; [reflexivity|]. cbn [columns rows]. unfold ceil_div.
  pose proof (Z.div_mod (screenCount + 4 - 1) 4 ltac:(lia)) as Hdm.
  pose proof (Z.mod_pos_bound (screenCount + 4 - 1) 4 ltac:(lia)) as Hmb.
  lia.
Qed.

Lemma layout_fits_witness :
  exists layout, calculateLayout 13 = Some layout /\ rows layout = 4.
Proof.
  destruct (layout_fits 13) as (layout & H & _); [lia|].
  exists layout. split; [exact H|].
  vm_compute in H. injection H as <-. reflexivity.
Defined.

Lemma place (c j r k : Z) :
  0 < c -> 0 <= k < c -> j = r * c + k -> j / c = r /\ j mod c = k.
Proof.
  intros Hc Hk ->. split.
  - symmetry. apply (Z.div_unique _ c r k); lia.
  - symmetry. apply (Z.mod_unique _ c r k); lia.
Qed.

(** X12: in a layout that fits, every annotation is the sentinel or a
    step of exactly one cell: Up goes one row up in the same column and
    is missing only in the first row; Down goes one row down, to the
    same column or to the last tile, and is missing only in the last
    row; Left and Right stay in the row and are missing only at its
    ends and after the last tile. *)
Theorem neighbours_step (layout : Layout) (count index : Z) :
  0 < columns layout -> 0 <= index < count ->
  (rows layout - 1) * columns layout < count <= rows layout * columns layout ->
  let n := neighbours layout count index in
  let c := columns layout in
  (if Z.eqb (row n) 0 then up n = -1
   else 0 <= up n < count /\ up n / c = row n - 1 /\ up n mod c = col n) /\
  (if Z.eqb (row n) (rows layout - 1) then down n = -1
   else 0 <= down n < count /\ down n / c = row n + 1 /\
        (down n mod c = col n \/ down n = count - 1)) /\
  (if Z.eqb (col n) 0 then left n = -1
   else 0 <= left n < count /\ left n / c = row n /\ left n mod c = col n - 1) /\
  (if Z.eqb (col n) (c - 1) || Z.eqb index (count - 1) then right n = -1
   else 0 <= right n < count /\ right n / c = row n /\ right n mod c = col n + 1).
Proof.
  intros Hc Hi Hfit. unfold neighbours. cbn [up down left right row col].
  set (c := columns layout) in *. set (R := rows layout) in *.
  pose proof (Z.div_pos index c ltac:(lia) Hc) as Hrow.
  pose proof (Z.mod_pos_bound index c Hc) as Hcol.
  pose proof (Z.div_mod index c ltac:(lia)) as Hdm.
  set (r := index / c) in *. set (k := index mod c) in *.
  assert (HrR : r <= R - 1) by nia.
  split; [|split; [|split]].
  - destruct (Z.eqb_spec r 0) as [E|E].
    + destruct (Z.ltb_spec 0 r); [lia|reflexivity].
    + destruct (Z.ltb_spec 0 r); [|lia].
      destruct (place c (index - c) (r - 1) k Hc Hcol ltac:(lia)) as [-> ->].
      repeat split; nia.
  - destruct (Z.eqb_spec r (R - 1)) as [E|E].
    + destruct (Z.ltb_spec r (R - 1)); [lia|reflexivity].
    + destruct (Z.ltb_spec r (R - 1)); [|lia].
      destruct (Z.ltb_spec (index + c) count).
      * destruct (place c (index + c) (r + 1) k Hc Hcol ltac:(lia)) as [-> ->].
        repeat split; try lia; try (now left).
      * assert (Hr2 : r = R - 2) by nia.
        pose proof (Z.div_mod (count - 1) c ltac:(lia)) as Hdm'.
        pose proof (Z.mod_pos_bound (count - 1) c Hc) as Hmb'.
        assert (Hlast : (count - 1) / c = R - 1) by nia.
        repeat split; try lia; try (now right).
  - destruct (Z.eqb_spec k 0) as [E|E].
    + destruct (Z.ltb_spec 0 k); [lia|reflexivity].
    + destruct (Z.ltb_spec 0 k); [|lia].
      destruct (place c (index - 1) r (k - 1) Hc ltac:(lia) ltac:(lia)) as [-> ->].
      repeat split; lia.
  - destruct (Z.eqb_spec k (c - 1)) as [E|E]; cbn [orb].
    + destruct (Z.ltb_spec k (c - 1)); [lia|reflexivity].
    + destruct (Z.ltb_spec k (c - 1)); [|lia]. cbn [andb].
      destruct (Z.eqb_spec index (count - 1)) as [E'|E'].
      * destruct (Z.ltb_spec (index + 1) count); [lia|reflexivity].
      * destruct (Z.ltb_spec (index + 1) count); [|lia].
        destruct (place c (index + 1) r (k + 1) Hc ltac:(lia) ltac:(lia)) as [-> ->].
        repeat split; lia.
Qed.

Lemma neighbours_step_witness :
  down (neighbours (mkLayout 4 3) 10 5) = 9 /\
  right (neighbours (mkLayout 4 3) 10 9) = -1.
Proof.
  pose proof (neighbours_step (mkLayout 4 3) 10 5) as A.
  pose proof (neighbours_step (mkLayout 4 3) 10 9) as B.
  cbn [columns rows] in A, B.
  destruct A as (_ & A & _); [lia | lia | lia |].
  destruct B as (_ & _ & _ & B); [lia | lia | lia |].
  split; [reflexivity | exact B].
Defined.

(** X13: the annotations undo one another: the Right neighbour of a
    tile has that tile as its Left neighbour and the other way round,
    the Up neighbour of a tile has that tile as its Down neighbour, and
    a Down neighbour in the same column has it as its Up neighbour. *)
Theorem neighbours_inverse (layout : Layout) (count index : Z) :
  0 < columns layout -> 0 <= index < count ->
  (rows layout - 1) * columns layout < count <= rows layout * columns layout ->
  let n := neighbours layout count index in
  (right n <> -1 -> left (neighbours layout count (right n)) = index) /\
  (left n <> -1 -> right (neighbours layout count (left n)) = index) /\
  (up n <> -1 -> down (neighbours layout count (up n)) = index) /\
  (down n <> -1 -> down n = index + columns layout ->
   up (neighbours layout count (down n)) = index).
Proof.
  intros Hc Hi Hfit. unfold neighbours. cbn [up down left right row col].
  set (c := columns layout) in *. set (R := rows layout) in *.
  pose proof (Z.div_pos index c ltac:(lia) Hc) as Hrow.
  pose proof (Z.mod_pos_bound index c Hc) as Hcol.
  pose proof (Z.div_mod index c ltac:(lia)) as Hdm.
  set (r := index / c) in *. set (k := index mod c) in *.
  assert (HrR : r <= R - 1) by nia.
  split; [|split; [|split]].
  - destruct (Z.ltb_spec k (c - 1)); cbn [andb]; [|congruence].
    destruct (Z.ltb_spec (index + 1) count); [|congruence]. intros _.
    destruct (place c (index + 1) r (k + 1) Hc ltac:(lia) ltac:(lia)) as [_ ->].
    destruct (Z.ltb_spec 0 (k + 1)); lia.
  - destruct (Z.ltb_spec 0 k); [|congruence]. intros _.
    destruct (place c (index - 1) r (k - 1) Hc ltac:(lia) ltac:(lia)) as [_ ->].
    destruct (Z.ltb_spec (k - 1) (c - 1)); [|lia]. cbn [andb].
    replace (index - 1 + 1) with index by lia.
    destruct (Z.ltb_spec index count); lia.
  - destruct (Z.ltb_spec 0 r); [|congruence]. intros _.
    destruct (place c (index - c) (r - 1) k Hc Hcol ltac:(lia)) as [-> _].
    destruct (Z.ltb_spec (r - 1) (R - 1)); [|lia].
    replace (index - c + c) with index by lia.
    destruct (Z.ltb_spec index count); lia.
  - destruct (Z.ltb_spec r (R - 1)); [|congruence].
    destruct (Z.ltb_spec (index + c) count); intros _ E; [|lia].
    destruct (place c (index + c) (r + 1) k Hc Hcol ltac:(lia)) as [-> _].
    destruct (Z.ltb_spec 0 (r + 1)); lia.
Qed.

Lemma neighbours_inverse_witness :
  left (neighbours (mkLayout 4 2) 7 (right (neighbours (mkLayout 4 2) 7 4))) = 4 /\
  down (neighbours (mkLayout 4 2) 7 (up (neighbours (mkLayout 4 2) 7 6))) = 6.
Proof.
  destruct (neighbours_inverse (mkLayout 4 2) 7 4) as (A & _); cbn; try lia.
  destruct (neighbours_inverse (mkLayout 4 2) 7 6) as (_ & _ & B & _); cbn; try lia.
  split; [apply A; discriminate | apply B; discriminate].
Defined.

End GridFacts2.

(** ** Focus manager: further properties *)

Section FocusFacts2.
Import Keys Focus Dashboard FocusCare.

(** Where [indexOf] finds a node, the list has a node with that
    identity. *)
Lemma indexOf_from_spec (l : list Element) (e : Element) (k : Z) :
  0 <= k ->
  indexOf_from k l e = -1 \/
  (k <= indexOf_from k l e < k + Z.of_nat (length l) /\
   exists x, nth_error l (Z.to_nat (indexOf_from k l e - k)) = Some x /\
             same_node x e = true).
Proof.
  revert k. induction l as [|a l IH]; intros k Hk; [left; reflexivity|].
  simpl. destruct (same_node a e) eqn:Ha.
  - right. split; [lia|]. rewrite Z.sub_diag. exists a. auto.
  - destruct (IH (k + 1) ltac:(lia)) as [H|(Hr & x & Hx & Hs)]; [left; exact H|].
    right. split; [lia|]. exists x. split; [|exact Hs].
    replace (Z.to_nat (indexOf_from (k + 1) l e - k))
      with (S (Z.to_nat (indexOf_from (k + 1) l e - (k + 1)))) by lia.
    exact Hx.
Qed.

Lemma indexOf_found (l : list Element) (e : Element) :
  indexOf l (Some e) <> -1 ->
  0 <= indexOf l (Some e) < Z.of_nat (length l) /\
  exists x, at_index l (Some (indexOf l (Some e))) = Some x /\
            same_node x e = true.
Proof.
  unfold indexOf, at_index. intros Hne.
  destruct (indexOf_from_spec l e 0 ltac:(lia)) as [H|(Hr & x & Hx & Hs)];
    [contradiction|].
  split; [lia|]. exists x. rewrite Z.sub_0_r in Hx.
  destruct (Z.ltb_spec (indexOf_from 0 l e) 0); [lia|]. auto.
Qed.

Lemma saveFocusState_page (time : Z) (l : string) (s : State) :
  document (saveFocusState time l s) = document s /\
  currentFocusedElement (saveFocusState time l s) = currentFocusedElement s /\
  activeElement (saveFocusState time l s) = activeElement s /\
  scroll (saveFocusState time l s) = scroll s /\
  engine (saveFocusState time l s) = engine s.
Proof. unfold saveFocusState. destruct (tracked s); repeat split. Qed.

Lemma queries_by_document (s1 s2 : State) :
  document s1 = document s2 ->
  (forall l, getLayerContainer s1 l = getLayerContainer s2 l) /\
  (forall l, getFocusableElements s1 l = getFocusableElements s2 l) /\
  (forall e, body_contains s1 e = body_contains s2 e) /\
  (engine s1 = engine s2 ->
   (forall sel, querySelector s1 sel = querySelector s2 sel) /\
   (forall sel, querySaved s1 sel = querySaved s2 sel)).
Proof.
  intros H. unfold querySaved, querySelector, getFocusableElements,
    getLayerContainer, getElementById, body_contains. rewrite H.
  repeat split; intros; try reflexivity.
  - now rewrite H0.
  - destruct sel; now rewrite H0.
Qed.

Lemma scroll_restored (l : string) (p : Z * Z) (s : State) :
  getScrollPosition (restoreScrollPosition l p s) l
  = match getLayerContainer s l with Some _ => p | None => (0, 0) end.
Proof.
  unfold getScrollPosition, restoreScrollPosition.
  destruct (getLayerContainer s l) as [c|] eqn:Hc; [|now rewrite Hc].
  assert (E : getLayerContainer (set_scroll (<[id c:=p]> (scroll s)) s) l = Some c)
    by exact Hc.
  rewrite E. cbn [scroll set_scroll]. now rewrite lookup_insert_eq.
Qed.



(** X15: saving the focus of one layer leaves the saved state of every
    other layer alone and makes the new state the one restore will use,
    with one more entry on the stack; with the focus on the body it
    changes nothing, so an earlier saved state survives. *)
Theorem save_is_per_layer (time : Z) (l l' : string) (s : State) :
  (l <> l' ->
   focusStates (saveFocusState time l s) !! l' = focusStates s !! l') /\
  (forall e, tracked s = Some e ->
     (elementIndex <$> focusStates (saveFocusState time l s) !! l)
       = Some (getElementIndex s e l) /\
     length (focusStateStack (saveFocusState time l s))
       = S (length (focusStateStack s))) /\
  (tracked s = None -> saveFocusState time l s = s).
Proof.
  unfold saveFocusState. split; [|split].
  - intros Hne. destruct (tracked s); [|reflexivity].
    cbn [set_focusStateStack set_focusStates focusStates].
    now apply lookup_insert_ne.
  - intros e ->. cbn [set_focusStateStack set_focusStates focusStates focusStateStack].
    rewrite lookup_insert_eq, length_app. cbn. split; [reflexivity|lia].
  - intros ->. reflexivity.
Qed.

Lemma save_is_per_layer_witness :
  focusStates (saveFocusState 7 DETAIL (saveFocusState 0 DASHBOARD before_render))
    !! DASHBOARD
  = focusStates (saveFocusState 0 DASHBOARD before_render) !! DASHBOARD.
Proof.
  destruct (save_is_per_layer 7 DETAIL DASHBOARD
              (saveFocusState 0 DASHBOARD before_render)) as [A _].
  apply A. discriminate.
Defined.

Lemma no_annotation_off_dashboard (s : State) (d : Direction) (l : string) :
  String.eqb l DASHBOARD = false -> annotated_target s d l = None.
Proof. intros H. unfold annotated_target. now rewrite H. Qed.

(** X16: where no annotation applies (on the map and detail layers, and
    on the dashboard for a tile whose annotation is missing or the
    sentinel) [moveFocus] steps through the focusable list in document
    order: Up and Left go to the node before, Down and Right to the node
    after, and at either end of the list the focus stays and the result
    is [false]; the list is not treated as a ring. *)
Theorem linear_navigation (d : Direction) (s : State) (e : Element) :
  tracked s = Some e ->
  indexOf (getFocusableElements s (currentLayer s)) (Some e) <> -1 ->
  annotated_target s d (currentLayer s) = None ->
  let fs := getFocusableElements s (currentLayer s) in
  let i := indexOf fs (Some e) in
  let j := match d with
           | DirUp | DirLeft => i - 1
           | DirDown | DirRight => i + 1
           end in
  if Z.ltb j 0 || Z.leb (Z.of_nat (length fs)) j
  then moveFocus d s = (false, s)
  else exists x, at_index fs (Some j) = Some x /\
                 moveFocus d s = (true, setFocus (Some x) s).
Proof.
  intros Ht Hidx Han. cbn zeta.
  destruct (indexOf_found _ _ Hidx) as (Hr & _).
  unfold moveFocus, calculateTargetIndex. rewrite Ht, Han.
  set (fs := getFocusableElements s (currentLayer s)) in *.
  set (i := indexOf fs (Some e)) in *.
  destruct (Z.eqb_spec i (-1)) as [|_]; [contradiction|].
  unfold linear_target, differs.
  assert (Hat : forall j, 0 <= j < Z.of_nat (length fs) ->
                exists x, at_index fs (Some j) = Some x).
  { intros j Hj. unfold at_index. destruct (Z.ltb_spec j 0); [lia|].
    destruct (nth_error fs (Z.to_nat j)) eqn:E; [eauto|].
    apply nth_error_None in E. lia. }
  destruct d.
  - destruct (Z.ltb_spec (i - 1) 0); cbn [orb].
    + replace (Z.max 0 (i - 1)) with i by lia. rewrite Z.eqb_refl.
      rewrite Bool.andb_false_r. reflexivity.
    + destruct (Z.leb_spec (Z.of_nat (length fs)) (i - 1)); [lia|].
      replace (Z.max 0 (i - 1)) with (i - 1) by lia.
      destruct (Z.eqb_spec (i - 1) (-1)); [lia|].
      destruct (Z.eqb_spec (i - 1) i); [lia|]. cbn [negb andb].
      destruct (Hat (i - 1) ltac:(lia)) as [x Hx]. exists x. rewrite Hx. auto.
  - destruct (Z.ltb_spec (i + 1) 0); [lia|]. cbn [orb].
    destruct (Z.leb_spec (Z.of_nat (length fs)) (i + 1)).
    + replace (Z.min (Z.of_nat (length fs) - 1) (i + 1)) with i by lia.
      rewrite Z.eqb_refl. rewrite Bool.andb_false_r. reflexivity.
    + replace (Z.min (Z.of_nat (length fs) - 1) (i + 1)) with (i + 1) by lia.
      destruct (Z.eqb_spec (i + 1) (-1)); [lia|].
      destruct (Z.eqb_spec (i + 1) i); [lia|]. cbn [negb andb].
      destruct (Hat (i + 1) ltac:(lia)) as [x Hx]. exists x. rewrite Hx. auto.
  - destruct (Z.ltb_spec (i - 1) 0); cbn [orb].
    + replace (Z.max 0 (i - 1)) with i by lia. rewrite Z.eqb_refl.
      rewrite Bool.andb_false_r. reflexivity.
    + destruct (Z.leb_spec (Z.of_nat (length fs)) (i - 1)); [lia|].
      replace (Z.max 0 (i - 1)) with (i - 1) by lia.
      destruct (Z.eqb_spec (i - 1) (-1)); [lia|].
      destruct (Z.eqb_spec (i - 1) i); [lia|]. cbn [negb andb].
      destruct (Hat (i - 1) ltac:(lia)) as [x Hx]. exists x. rewrite Hx. auto.
  - destruct (Z.ltb_spec (i + 1) 0); [lia|]. cbn [orb].
    destruct (Z.leb_spec (Z.of_nat (length fs)) (i + 1)).
    + replace (Z.min (Z.of_nat (length fs) - 1) (i + 1)) with i by lia.
      rewrite Z.eqb_refl. rewrite Bool.andb_false_r. reflexivity.
    + replace (Z.min (Z.of_nat (length fs) - 1) (i + 1)) with (i + 1) by lia.
      destruct (Z.eqb_spec (i + 1) (-1)); [lia|].
      destruct (Z.eqb_spec (i + 1) i); [lia|]. cbn [negb andb].
      destruct (Hat (i + 1) ltac:(lia)) as [x Hx]. exists x. rewrite Hx. auto.
Qed.

Lemma linear_navigation_witness :
  moveFocus DirDown detail_page = (true, setFocus (Some (widget 42 2)) detail_page) /\
  moveFocus DirRight (setFocus (Some (widget 42 2)) detail_page)
    = (false, setFocus (Some (widget 42 2)) detail_page).
Proof.
  pose proof (linear_navigation DirDown detail_page (widget 41 1)) as A.
  pose proof (linear_navigation DirRight (setFocus (Some (widget 42 2)) detail_page)
                (widget 42 2)) as B.
  split.
  - destruct A as (x & Hx & Hm); [reflexivity | vm_compute; discriminate | reflexivity |].
    rewrite Hm. vm_compute in Hx. injection Hx as <-. reflexivity.
  - apply B; [reflexivity | vm_compute; discriminate | reflexivity].
Defined.

End FocusFacts2.

(** ** Focus manager: refresh and validation *)

Section RefreshFacts.
Import Keys Focus Dashboard FocusCare.

Lemma find_in_document (s : State) (p : Element -> bool) (x : Element) :
  find p (document s) = Some x -> body_contains s x = true.
Proof.
  intros H. apply find_some in H as [Hin _].
  unfold body_contains. apply existsb_exists. exists x. split; [exact Hin|].
  unfold same_node. apply Nat.eqb_refl.
Qed.

Lemma in_document (s : State) (x : Element) :
  In x (document s) -> body_contains s x = true.
Proof.
  intros Hin. unfold body_contains. apply existsb_exists. exists x.
  split; [exact Hin | apply Nat.eqb_refl].
Qed.

Lemma querySelector_in_document (s : State) (q : Selector) (x : Element) :
  querySelector s q = Found x -> body_contains s x = true.
Proof.
  unfold querySelector. destruct (reading q).
  - destruct (find (matches q) (document s)) as [e|] eqn:E; [|discriminate].
    intros [= <-]. now apply (find_in_document s (matches q)).
  - discriminate.
  - destruct (engine s q (document s)) as [| |k]; try discriminate.
    destruct (nth_error (document s) k) as [e|] eqn:E; [|discriminate].
    intros [= <-]. apply in_document. now apply nth_error_In in E.
Qed.

Lemma queryCaught_in_document (s : State) (q : option Selector) (x : Element) :
  queryCaught s q = Some x -> body_contains s x = true.
Proof.
  destruct q as [q|]; [|discriminate]. unfold queryCaught.
  destruct (querySelector s q) eqn:E; cbn [found]; try discriminate.
  intros [= <-]. now apply (querySelector_in_document s q).
Qed.

Lemma queryTile_in_document (s : State) (stt : option string) (x : Element) :
  queryTile s stt = Some x -> body_contains s x = true.
Proof.
  destruct stt as [v|]; [|discriminate]. unfold queryTile.
  destruct (querySelector s (SelStt v)) eqn:E; cbn [found]; try discriminate.
  intros [= <-]. now apply (querySelector_in_document s (SelStt v)).
Qed.

Lemma queryTile_find (s : State) (v : string) :
  queryTile s (Some v) = find (matches (SelStt v)) (document s).
Proof.
  unfold queryTile, querySelector. cbn [reading].
  destruct (find (matches (SelStt v)) (document s)); reflexivity.
Qed.

Lemma focusable_in_document (s : State) (l : string) (x : Element) :
  In x (getFocusableElements s l) -> body_contains s x = true.
Proof.
  unfold getFocusableElements.
  destruct (getLayerContainer s l); [|intros []].
  destruct (table_get l FOCUSABLE_SELECTORS); [|intros []].
  intros H. apply filter_In in H as [Hin _].
  unfold body_contains. apply existsb_exists. exists x. split; [exact Hin|].
  apply Nat.eqb_refl.
Qed.

Lemma at_index_in (l : list Element) (i : option Z) (x : Element) :
  at_index l i = Some x -> In x l.
Proof.
  destruct i as [z|]; [|discriminate]. unfold at_index.
  destruct (Z.ltb z 0); [discriminate|]. apply nth_error_In.
Qed.

Lemma body_contains_deref (s : State) (e : Element) :
  body_contains s (deref s e) = body_contains s e.
Proof.
  unfold deref. destruct (find (same_node e) (document s)) as [x|] eqn:E;
    [|reflexivity].
  apply find_some in E as [_ Hs]. cbn [default].
  unfold body_contains, same_node in *. apply Nat.eqb_eq in Hs.
  now rewrite Hs.
Qed.

Lemma head_in (l : list Element) (x : Element) : head l = Some x -> In x l.
Proof. destruct l; [discriminate|]. intros [= <-]. now left. Qed.

Lemma attempt_restoring (s : State) (cond : bool) (c : option Element)
    (st : option Element * State) :
  (forall x, c = Some x -> body_contains s x = true) ->
  Restoring s st -> Restoring s (attempt cond c st).
Proof.
  intros Hc. destruct st as [[y|] s']; unfold Restoring; cbn [fst snd attempt];
    [auto|].
  intros ->. destruct cond; [|reflexivity]. destruct c as [x|]; [|reflexivity].
  cbn [fst snd]. split; [now apply Hc|]. apply setFocus_tracks.
Qed.








Lemma resolves_by_document (s s' : State) (st : FocusState) :
  document s' = document s -> engine s' = engine s ->
  resolves s' st = resolves s st /\ raises s' st = raises s st.
Proof.
  intros H E. unfold resolves, raises, saved_query, querySelector, body_contains.
  now rewrite H, E.
Qed.

Lemma resolves_not_raises (s : State) (st : FocusState) :
  resolves s st = true -> raises s st = false.
Proof.
  unfold resolves, raises. destruct (saved_query s st) as [[e| |]|];
    try reflexivity; discriminate.
Qed.

(** The walk over the saved states: it ends with an error exactly when
    it meets a state whose selector raises one; otherwise it keeps the
    states it met that resolve, and all those it did not meet. *)
Lemma validate_states_spec (s : State) (order : list string)
    (m : gmap string FocusState) :
  match validate_states s order m with
  | (Returns _, m') =>
      (forall l st, In l order -> m !! l = Some st -> raises s st = false) /\
      (forall l st, m' !! l = Some st <->
                    m !! l = Some st /\ (In l order -> resolves s st = true))
  | (Throws, m') =>
      (exists l st, In l order /\ m !! l = Some st /\ raises s st = true) /\
      (forall l st, m' !! l = Some st -> m !! l = Some st)
  end.
Proof.
  revert m. induction order as [|l rest IH]; intros m.
  - cbn. split; [intros l st []|]. intros l st. split; [auto|tauto].
  - cbn [validate_states]. destruct (m !! l) as [state|] eqn:Hl.
    + destruct (raises s state) eqn:Hr.
      { split; [|auto]. exists l, state. split; [now left|auto]. }
      destruct (resolves s state) eqn:Hv.
      * specialize (IH m). destruct (validate_states s rest m) as [[[]|] m'].
        -- destruct IH as [A B]. split.
           ++ intros l0 st [<-|Hin] H0; [congruence | eauto].
           ++ intros l0 st. rewrite B. split.
              ** intros [H0 H1]. split; [exact H0|].
                 intros [<-|Hin]; [congruence | auto].
              ** intros [H0 H1]. split; [exact H0|]. intros Hin. apply H1. now right.
        -- destruct IH as [(l0 & st & Hin & H0 & H1) B]. split; [|exact B].
           exists l0, st. split; [now right|auto].
      * specialize (IH (delete l m)).
        destruct (validate_states s rest (delete l m)) as [[[]|] m'].
        -- destruct IH as [A B]. split.
           ++ intros l0 st [<-|Hin] H0; [congruence|].
              destruct (String.eqb_spec l0 l) as [->|Hne]; [congruence|].
              apply (A l0 st Hin). now rewrite lookup_delete_ne.
           ++ intros l0 st. rewrite B.
              destruct (String.eqb_spec l0 l) as [->|Hne].
              ** rewrite lookup_delete_eq. split; [intros [? _]; discriminate|].
                 intros [H0 H1]. rewrite Hl in H0. injection H0 as <-.
                 rewrite H1 in Hv by now left. discriminate.
              ** rewrite lookup_delete_ne by congruence. split.
                 --- intros [H0 H1]. split; [exact H0|].
                     intros [E|Hin]; [congruence | auto].
                 --- intros [H0 H1]. split; [exact H0|]. intros Hin.
                     apply H1. now right.
        -- destruct IH as [(l0 & st & Hin & H0 & H1) B]. split.
           ++ exists l0, st. split; [now right|]. split; [|exact H1].
              destruct (String.eqb_spec l0 l) as [->|Hne];
                [rewrite lookup_delete_eq in H0; discriminate|].
              now rewrite lookup_delete_ne in H0 by congruence.
           ++ intros l1 st1 H2. apply B in H2.
              destruct (String.eqb_spec l1 l) as [->|Hne];
                [rewrite lookup_delete_eq in H2; discriminate|].
              now rewrite lookup_delete_ne in H2 by congruence.
    + specialize (IH m). destruct (validate_states s rest m) as [[[]|] m'].
      * destruct IH as [A B]. split.
        -- intros l0 st [<-|Hin] H0; [congruence | eauto].
        -- intros l0 st. rewrite B. split.
           ++ intros [H0 H1]. split; [exact H0|].
              intros [<-|Hin]; [congruence | auto].
           ++ intros [H0 H1]. split; [exact H0|]. intros Hin. apply H1. now right.
      * destruct IH as [(l0 & st & Hin & H0 & H1) B]. split; [|exact B].
        exists l0, st. split; [now right|auto].
Qed.

Lemma validate_states_fixed (s : State) (order : list string)
    (m : gmap string FocusState) :
  (forall l st, In l order -> m !! l = Some st -> resolves s st = true) ->
  validate_states s order m = (Returns tt, m).
Proof.
  induction order as [|l rest IH]; intros H; [reflexivity|].
  cbn [validate_states]. destruct (m !! l) as [state|] eqn:Hl.
  - pose proof (H l state ltac:(now left) Hl) as Hv.
    rewrite (resolves_not_raises _ _ Hv), Hv. apply IH.
    intros l0 st Hin. apply H. now right.
  - apply IH. intros l0 st Hin. apply H. now right.
Qed.



End RefreshFacts.

(** ** Dashboard: annotations read back *)

Section AnnotationFacts.
Import Keys Grid Focus Dashboard.

Lemma digit_of_char (x : N) :
  (x < 10)%N -> digit_value (pretty_N_char x) = Some (Z.of_N x).
Proof.
  intros H.
  assert (x = 0 \/ x = 1 \/ x = 2 \/ x = 3 \/ x = 4 \/ x = 5 \/ x = 6 \/
          x = 7 \/ x = 8 \/ x = 9)%N as E by lia.
  repeat (destruct E as [->|E]; [reflexivity|]). now subst.
Qed.

(** Reading back the digits [pretty] writes: the accumulator is shifted
    by a power of ten and the number added. *)
Lemma parse_pretty_go (x : N) :
  (0 < x)%N ->
  exists p : Z, forall (str : string) (acc : option Z),
    parse_digits acc (pretty_N_go x str)
    = parse_digits (Some (default 0 acc * p + Z.of_N x)) str.
Proof.
  induction (N.lt_wf_0 x) as [x _ IH]. intros Hx.
  assert (Hm : (x mod 10 < 10)%N) by (apply N.mod_lt; lia).
  pose proof (N.div_mod x 10 ltac:(lia)) as Hdm.
  apply (f_equal Z.of_N) in Hdm. rewrite N2Z.inj_add, N2Z.inj_mul in Hdm.
  set (hi := Z.of_N (x / 10)) in *. set (lo := Z.of_N (x mod 10)) in *.
  destruct (N.eq_dec (x / 10)%N 0%N) as [Hz|Hnz].
  - assert (hi = 0) by (subst hi; now rewrite Hz).
    exists 10. intros str acc. rewrite pretty_N_go_step by exact Hx.
    rewrite Hz, pretty_N_go_0. cbn [parse_digits].
    rewrite (digit_of_char _ Hm). fold lo. do 2 f_equal. cbn in Hdm. lia.
  - destruct (IH (x / 10)%N) as [p Hp]; [apply N.div_lt; lia | lia |].
    exists (10 * p). intros str acc. rewrite pretty_N_go_step by exact Hx.
    rewrite Hp. cbn [parse_digits]. rewrite (digit_of_char _ Hm).
    cbn [default]. fold hi lo. do 2 f_equal. cbn in Hdm. rewrite Hdm. unfold Datatypes.id. ring.
Qed.

Lemma pretty_go_head (x : N) (str : string) :
  (0 < x)%N ->
  exists (c : ascii) (rest : string) (d : Z),
    pretty_N_go x str = String c rest /\ digit_value c = Some d.
Proof.
  revert str. induction (N.lt_wf_0 x) as [x _ IH]. intros str Hx.
  assert (Hm : (x mod 10 < 10)%N) by (apply N.mod_lt; lia).
  rewrite pretty_N_go_step by exact Hx.
  destruct (N.eq_dec (x / 10)%N 0%N) as [Hz|Hnz].
  - rewrite Hz, pretty_N_go_0. eexists _, _, _. split; [reflexivity|].
    now apply digit_of_char.
  - apply IH; [apply N.div_lt; lia | now apply N.neq_0_lt_0].
Qed.

Lemma digit_not_sign (c : ascii) (d : Z) :
  digit_value c = Some d ->
  is_space c = false /\ c <> "-"%char /\ c <> "+"%char.
Proof.
  destruct c as [[] [] [] [] [] [] [] []]; vm_compute; intros H;
    try discriminate; repeat split; discriminate.
Qed.

Lemma parseInt_digits (c : ascii) (rest : string) (d : Z) :
  digit_value c = Some d ->
  parseInt (String c rest) = parse_digits None (String c rest).
Proof.
  intros H. destruct (digit_not_sign c d H) as (Hs & Hm & Hp).
  unfold parseInt. cbn [skip_spaces]. rewrite Hs.
  destruct c as [[] [] [] [] [] [] [] []]; try reflexivity; congruence.
Qed.

Lemma parseInt_pretty_pos (p : positive) :
  parseInt (pretty (Z.pos p)) = Some (Z.pos p).
Proof.
  change (pretty (Z.pos p)) with (pretty_N_go (N.pos p) "").
  destruct (pretty_go_head (N.pos p) "" ltac:(lia)) as (c & rest & d & E & Hd).
  destruct (parse_pretty_go (N.pos p) ltac:(lia)) as [q Hq].
  rewrite E, (parseInt_digits c rest d Hd), <- E, Hq. cbn. reflexivity.
Qed.

(** [parseInt(String(z), 10)] is [z]. *)
Lemma parseInt_pretty (z : Z) : parseInt (pretty z) = Some z.
Proof.
  destruct z as [|p|p]; [reflexivity | apply parseInt_pretty_pos |].
  change (pretty (Z.neg p)) with (String "-" (pretty_N_go (N.pos p) "")).
  unfold parseInt. cbn [skip_spaces]. 
  change (is_space "-") with false. cbv iota.
  destruct (parse_pretty_go (N.pos p) ltac:(lia)) as [q Hq].
  rewrite Hq. reflexivity.
Qed.

Lemma pretty_usable (z : Z) :
  z <> -1 -> usable (Some (pretty z)) = Some (pretty z).
Proof.
  intros Hz. unfold usable.
  destruct (String.eqb_spec (pretty z) "") as [E|_].
  - pose proof (parseInt_pretty z) as P. rewrite E in P. discriminate.
  - destruct (String.eqb_spec (pretty z) "-1") as [E|_]; [|reflexivity].
    pose proof (parseInt_pretty z) as P. rewrite E in P.
    vm_compute in P. congruence.
Qed.

End AnnotationFacts.

(** ** Dashboard: moving on a rendered grid *)

Section DashboardFacts.
Import Keys Grid Focus Dashboard DashboardNav.

Lemma calculateLayout_fits (screenCount : Z) (layout : Layout) :
  1 <= screenCount ->
  calculateLayout screenCount = Some layout ->
  1 <= columns layout <= 4 /\
  (rows layout - 1) * columns layout < screenCount <= rows layout * columns layout.
Proof.
  intros Hn. unfold calculateLayout.
  destruct (Z.eqb_spec screenCount 0); [lia|].
  repeat match goal with
  | |- context [Z.eqb screenCount ?c] =>
      destruct (Z.eqb_spec screenCount c);
      [subst; cbn; intros [= <-]; cbn; lia|]
  end.
  cbn. intros [= <-]. cbn [columns rows]. unfold ceil_div.
  pose proof (Z.div_mod (screenCount + 4 - 1) 4 ltac:(lia)) as Hdm.
  pose proof (Z.mod_pos_bound (screenCount + 4 - 1) 4 ltac:(lia)) as Hmb.
  lia.
Qed.

(** An annotation never names the tile that carries it. *)
Lemma neighbour_moves (d : Direction) (layout : Layout) (count index : Z) :
  0 < columns layout -> 0 <= index < count ->
  (rows layout - 1) * columns layout < count ->
  towards d (neighbours layout count index) <> index.
Proof.
  intros Hc Hi Hfit. unfold towards, neighbours. cbn [up down left right].
  set (c := columns layout) in *. set (R := rows layout) in *.
  pose proof (Z.div_pos index c ltac:(lia) Hc) as Hrow.
  pose proof (Z.mod_pos_bound index c Hc) as Hcol.
  pose proof (Z.div_mod index c ltac:(lia)) as Hdm.
  set (r := index / c) in *. set (k := index mod c) in *.
  destruct d.
  - destruct (Z.ltb_spec 0 r); lia.
  - destruct (Z.ltb_spec r (R - 1)); [|lia].
    destruct (Z.ltb_spec (index + c) count); [lia|]. nia.
  - destruct (Z.ltb_spec 0 k); lia.
  - destruct (Z.ltb k (c - 1) && Z.ltb (index + 1) count); lia.
Qed.

Lemma nth_error_imap {A B : Type} (f : nat -> A -> B) (l : list A) (i : nat) :
  nth_error (imap f l) i = option_map (f i) (nth_error l i).
Proof.
  revert f i. induction l as [|a l IH]; intros f [|i]; try reflexivity.
  cbn. apply (IH (f ∘ S) i).
Qed.

Lemma filter_all {A : Type} (p : A -> bool) (l : list A) :
  (forall x, In x l -> p x = true) -> List.filter p l = l.
Proof.
  induction l as [|a l IH]; intros H; [reflexivity|]. cbn.
  rewrite (H a) by now left. f_equal. apply IH. intros x Hx. apply H. now right.
Qed.

(** In a list whose nodes are numbered in order, a node is found at its
    own place. *)
Lemma indexOf_numbered (ts : list Element) (base : nat) :
  (forall i t, nth_error ts i = Some t -> uid t = (base + i)%nat) ->
  forall i x k, nth_error ts i = Some x ->
  indexOf_from k ts x = k + Z.of_nat i /\ find (same_node x) ts = Some x.
Proof.
  revert base. induction ts as [|a ts IH]; intros base Hn i x k Hx;
    [destruct i; discriminate|].
  destruct i as [|i].
  - injection Hx as ->. cbn. unfold same_node. rewrite Nat.eqb_refl.
    split; [lia|reflexivity].
  - cbn in Hx. cbn [indexOf_from find].
    pose proof (Hn 0%nat a eq_refl) as Ha.
    pose proof (Hn (S i) x Hx) as Hxu.
    assert (E1 : same_node a x = false) by (apply Nat.eqb_neq; lia).
    assert (E2 : same_node x a = false) by (apply Nat.eqb_neq; lia).
    rewrite E1, E2.
    assert (Hn' : forall j t, nth_error ts j = Some t -> uid t = (S base + j)%nat).
    { intros j t H. rewrite (Hn (S j) t H). lia. }
    destruct (IH (S base) Hn' i x (k + 1) Hx) as [H1 H2].
    split; [lia|exact H2].
Qed.


Lemma tile_at (screens : list Z) (i : nat) (stt : Z) :
  nth_error screens i = Some stt ->
  nth_error (rendered_tiles screens) i
  = Some (createScreenElement (calculateLayout (Z.of_nat (length screens)))
            screens stt i).
Proof.
  intros H. unfold rendered_tiles. rewrite nth_error_imap, H. reflexivity.
Qed.

Lemma tile_shape (screens : list Z) (i : nat) (x : Element) :
  nth_error (rendered_tiles screens) i = Some x ->
  exists stt, nth_error screens i = Some stt /\
    x = createScreenElement (calculateLayout (Z.of_nat (length screens)))
          screens stt i.
Proof.
  unfold rendered_tiles. rewrite nth_error_imap.
  destruct (nth_error screens i) as [stt|]; [|discriminate].
  intros [= <-]. eauto.
Qed.

Lemma tiles_numbered (screens : list Z) (i : nat) (x : Element) :
  nth_error (rendered_tiles screens) i = Some x -> uid x = (100 + i)%nat.
Proof. intros H. apply tile_shape in H as (stt & _ & ->). reflexivity. Qed.

Lemma tile_is_focusable (lay : option Layout) (screens : list Z) (stt : Z)
    (i : nat) :
  let x := createScreenElement lay screens stt i in
  inside_container x = true /\ contains_class x "screen-tile" = true /\
  attr_is x "tabindex" "0" = true /\ offsetParent x = true.
Proof.
  cbn zeta. unfold inside_container, contains_class, attr_is, getAttribute.
  cbn [createScreenElement ancestorIds classList attributes offsetParent].
  repeat split; try reflexivity.
  destruct (Z.eqb stt 0); reflexivity.
Qed.

Lemma rendered_document (b : bool) (screens : list Z) (f : nat) :
  document (set_isInitialized b (page screens f)) = container :: rendered_tiles screens.
Proof. reflexivity. Qed.

Lemma focusables_page (b : bool) (screens : list Z) (f : nat) :
  getFocusableElements (set_isInitialized b (page screens f)) DASHBOARD = rendered_tiles screens.
Proof.
  unfold getFocusableElements, getLayerContainer, getElementById.
  rewrite rendered_document.
  change (table_get DASHBOARD LAYER_CONTAINERS) with (Some "dashboard-container").
  cbv beta iota.
  change (find _ (container :: rendered_tiles screens)) with (Some container).
  cbn [table_get FOCUSABLE_SELECTORS DASHBOARD String.eqb Ascii.eqb Bool.eqb].
  cbn [List.filter]. 
  change (existsb _ (ancestorIds container)) with false. cbn [andb].
  apply filter_all. intros x Hx. apply In_nth_error in Hx as [i Hi].
  apply tile_shape in Hi as (stt & _ & ->).
  destruct (tile_is_focusable (calculateLayout (Z.of_nat (length screens)))
              screens stt i) as (A & B & C & D).
  unfold inside_container in A. 
  change (id container) with "dashboard-container".
  rewrite A, B, C, D. reflexivity.
Qed.

Lemma screen_tiles_page (b : bool) (screens : list Z) (f : nat) :
  screen_tiles (set_isInitialized b (page screens f)) = rendered_tiles screens.
Proof.
  unfold screen_tiles. rewrite rendered_document. cbn [List.filter].
  change (inside_container container) with false. cbn [andb].
  apply filter_all. intros x Hx. apply In_nth_error in Hx as [i Hi].
  apply tile_shape in Hi as (stt & _ & ->).
  destruct (tile_is_focusable (calculateLayout (Z.of_nat (length screens)))
              screens stt i) as (A & B & _).
  now rewrite A, B.
Qed.


Lemma tile_annotations (d : Direction) (layout : Layout) (screens : list Z)
    (stt : Z) (i : nat) :
  let x := createScreenElement (Some layout) screens stt i in
  let t := towards d (neighbours layout (Z.of_nat (length screens)) (Z.of_nat i)) in
  contains_class x "screen-tile" = true /\
  getAttribute x ("data-nav-" ++ direction_name d) = Some (pretty t) /\
  getAttribute x (("data-nav-" ++ direction_name d) ++ "-stt")
    = Some (pretty (getNeighborStt screens t)).
Proof.
  cbn zeta. split; [apply (tile_is_focusable (Some layout))|].
  destruct d; split; reflexivity.
Qed.

Lemma tile_takes_focus (b : bool) (screens : list Z) (f i : nat) (x : Element) :
  nth_error (rendered_tiles screens) i = Some x ->
  takes_focus (set_isInitialized b (page screens f)) x = true.
Proof.
  intros Hx. unfold takes_focus.
  assert (Hb : body_contains (set_isInitialized b (page screens f)) x = true).
  { unfold body_contains. rewrite rendered_document. apply existsb_exists.
    exists x. split; [right; eapply nth_error_In; exact Hx | apply Nat.eqb_refl]. }
  apply tile_shape in Hx as (stt & _ & ->). rewrite Hb. reflexivity.
Qed.

Lemma deref_tile (b : bool) (screens : list Z) (f i : nat) (x : Element) :
  nth_error (rendered_tiles screens) i = Some x ->
  deref (set_isInitialized b (page screens f)) x = x.
Proof.
  intros Hx. unfold deref. rewrite rendered_document. cbn [find].
  assert (E : same_node x container = false).
  { unfold same_node. rewrite (tiles_numbered _ _ _ Hx). reflexivity. }
  rewrite E.
  destruct (indexOf_numbered (rendered_tiles screens) 100 (tiles_numbered screens)
              i x 0 Hx) as [_ ->].
  reflexivity.
Qed.

(** X20: on a dashboard as [renderGrid] builds it, with the focus on the
    tile at [f], both ways of moving follow the annotation
    [setNavigationAttributes] wrote.  Where it names a tile,
    [FocusManager.moveFocus] and [DashboardGrid.navigate] both put the
    browser focus on that tile; [moveFocus] makes the manager track it,
    and after [navigate] the manager tracks it exactly when its focus
    listener is installed ([listening]), otherwise it stays on the tile
    it came from.  Where the annotation is the sentinel, [navigate] does
    nothing, and [moveFocus] finds no annotation to use and falls back
    to its linear step. *)
Theorem dashboard_arrows_follow_grid (d : Direction) (screens : list Z)
    (f : nat) (layout : Layout) (b : bool) :
  calculateLayout (Z.of_nat (length screens)) = Some layout ->
  (f < length screens)%nat ->
  let s := set_isInitialized b (page screens f) in
  let t := towards d (neighbours layout (Z.of_nat (length screens)) (Z.of_nat f)) in
  if Z.eqb t (-1)
  then navigate d (Z.of_nat f) s = s /\
       annotated_target s d DASHBOARD = None
  else exists x,
       nth_error (rendered_tiles screens) (Z.to_nat t) = Some x /\
       moveFocus d s = (true, setFocus (Some x) s) /\
       navigate d (Z.of_nat f) s = focus_and_scroll x s /\
       activeElement (snd (moveFocus d s)) = Some x /\
       currentFocusedElement (snd (moveFocus d s)) = Some x /\
       activeElement (navigate d (Z.of_nat f) s) = Some x /\
       currentFocusedElement (navigate d (Z.of_nat f) s)
       = (if b then Some x else nth_error (rendered_tiles screens) f).
Proof.
  intros Hlay Hf. cbn zeta.
  set (count := Z.of_nat (length screens)) in *.
  set (t := towards d (neighbours layout count (Z.of_nat f))).
  destruct (calculateLayout_fits count layout ltac:(lia) Hlay) as (Hc & Hfit).
  destruct (nth_error screens f) as [stt|] eqn:Hstt;
    [|apply nth_error_None in Hstt; lia].
  pose proof (tile_at screens f stt Hstt) as Htile. fold count in Htile.
  rewrite Hlay in Htile.
  set (cur := createScreenElement (Some layout) screens stt f) in *.
  destruct (tile_annotations d layout screens stt f) as (Hcls & Hnav & Hnavstt).
  fold count t cur in Hcls, Hnav, Hnavstt.
  assert (Hactive : active (set_isInitialized b (page screens f)) = Some cur).
  { unfold active, page, set_isInitialized. cbn [activeElement].
    change (nth_error (renderGrid screens) (S f))
      with (nth_error (rendered_tiles screens) f).
    rewrite Htile. cbn [fmap option_fmap option_map]. f_equal.
    apply (deref_tile b screens f f cur Htile). }
  assert (Htracked : tracked (set_isInitialized b (page screens f)) = Some cur).
  { unfold tracked, page, set_isInitialized. cbn [currentFocusedElement].
    change (nth_error (renderGrid screens) (S f))
      with (nth_error (rendered_tiles screens) f).
    rewrite Htile. f_equal. apply (deref_tile b screens f f cur Htile). }
  assert (Hcurrent : at_index (rendered_tiles screens) (Some (Z.of_nat f)) = Some cur).
  { unfold at_index. destruct (Z.ltb_spec (Z.of_nat f) 0); [lia|].
    now rewrite Nat2Z.id. }
  destruct (Z.eqb_spec t (-1)) as [Et|Et].
  - assert (U1 : usable (getAttribute cur ("data-nav-" ++ direction_name d)) = None)
      by (rewrite Hnav, Et; reflexivity).
    assert (U2 : usable (getAttribute cur (("data-nav-" ++ direction_name d) ++ "-stt"))
                 = None) by (rewrite Hnavstt, Et; reflexivity).
    split.
    + unfold navigate. rewrite screen_tiles_page, Hcurrent. cbv zeta.
      now rewrite U1, U2.
    + unfold annotated_target. rewrite String.eqb_refl, Hactive, Hcls.
      cbv zeta. now rewrite U1, U2.
  - assert (Ht : 0 <= t < count).
    { destruct (neighbours_in_range layout count (Z.of_nat f) ltac:(lia) ltac:(lia))
        as (A & B & C & D).
      subst t. destruct d; cbn [towards] in *; lia. }
    assert (Htf : t <> Z.of_nat f)
      by (apply neighbour_moves; lia).
    destruct (nth_error (rendered_tiles screens) (Z.to_nat t)) as [x|] eqn:Hx.
    2:{ apply nth_error_None in Hx. unfold rendered_tiles in Hx.
        rewrite length_imap in Hx. lia. }
    assert (Htarget : at_index (rendered_tiles screens) (Some t) = Some x).
    { unfold at_index. destruct (Z.ltb_spec t 0); [lia|exact Hx]. }
    assert (U1 : usable (getAttribute cur ("data-nav-" ++ direction_name d))
                 = Some (pretty t)) by (rewrite Hnav; now apply pretty_usable).
    assert (Hmove : moveFocus d (set_isInitialized b (page screens f))
                    = (true, setFocus (Some x) (set_isInitialized b (page screens f)))).
    { unfold moveFocus. change (currentLayer (set_isInitialized b (page screens f))) with DASHBOARD.
      rewrite focusables_page, Htracked.
      cbn [indexOf].
      destruct (indexOf_numbered (rendered_tiles screens) 100
                  (tiles_numbered screens) f cur 0 Htile) as [-> _].
      destruct (Z.eqb_spec (0 + Z.of_nat f) (-1)); [lia|].
      unfold calculateTargetIndex, annotated_target.
      rewrite String.eqb_refl, Hactive, Hcls. cbv zeta. rewrite U1.
      rewrite parseInt_pretty. unfold differs.
      destruct (Z.eqb_spec t (-1)); [lia|].
      destruct (Z.eqb_spec t (0 + Z.of_nat f)); [lia|].
      cbn [negb andb]. now rewrite Htarget. }
    assert (Hnavigate : navigate d (Z.of_nat f) (set_isInitialized b (page screens f))
                        = focus_and_scroll x (set_isInitialized b (page screens f))).
    { unfold navigate. rewrite screen_tiles_page, Hcurrent. cbv zeta.
      rewrite U1, parseInt_pretty, Htarget. cbn [is_some].
      unfold focusScreen. now rewrite screen_tiles_page, Htarget. }
    pose proof (tile_takes_focus b screens f _ x Hx) as Htakes.
    exists x. rewrite Hmove, Hnavigate. unfold setFocus, focus_and_scroll, focus.
    rewrite Htakes. repeat split; destruct b; reflexivity.
Qed.


Lemma dashboard_arrows_follow_grid_witness :
  (activeElement (navigate DirDown 1 (page [0; 4; 5; 6; 7] 1))
     = nth_error (rendered_tiles [0; 4; 5; 6; 7]) 4 /\
   currentFocusedElement (navigate DirDown 1 (page [0; 4; 5; 6; 7] 1))
     = nth_error (rendered_tiles [0; 4; 5; 6; 7]) 4) /\
  currentFocusedElement
    (navigate DirDown 1 (set_isInitialized false (page [0; 4; 5; 6; 7] 1)))
    = nth_error (rendered_tiles [0; 4; 5; 6; 7]) 1 /\
  navigate DirRight 2 (page [0; 4; 5; 6; 7] 2) = page [0; 4; 5; 6; 7] 2.
Proof.
  pose proof (dashboard_arrows_follow_grid DirDown [0; 4; 5; 6; 7] 1
                (mkLayout 3 2) true eq_refl ltac:(cbn; lia)) as A.
  pose proof (dashboard_arrows_follow_grid DirDown [0; 4; 5; 6; 7] 1
                (mkLayout 3 2) false eq_refl ltac:(cbn; lia)) as A'.
  pose proof (dashboard_arrows_follow_grid DirRight [0; 4; 5; 6; 7] 2
                (mkLayout 3 2) true eq_refl ltac:(cbn; lia)) as B.
  cbv zeta in A, A', B.
  change (towards DirDown (neighbours (mkLayout 3 2) (Z.of_nat (length [0; 4; 5; 6; 7]))
                             (Z.of_nat 1))) with 4 in A, A'.
  change (towards DirRight (neighbours (mkLayout 3 2) (Z.of_nat (length [0; 4; 5; 6; 7]))
                              (Z.of_nat 2))) with (-1) in B.
  cbv iota beta delta [Z.eqb Pos.eqb] in A, A', B.
  destruct A as (x & Hx & _ & _ & _ & _ & Hn & Hc).
  destruct A' as (x' & _ & _ & _ & _ & _ & _ & Hc').
  destruct B as [B _].
  split; [split|split]; [| | exact Hc' | exact B].
  - transitivity (Some x); [exact Hn | symmetry; exact Hx].
  - transitivity (Some x); [exact Hc | symmetry; exact Hx].
Defined.

End DashboardFacts.

(** ** Input handler: the detail shortcut *)

Section EnterFacts.
Import Layers Navigation.

(** X21: the shortcut [TVRemoteInputHandler.openDetailScreen] takes
    (writing the layer pointer and the history itself) fits the manager
    when it starts from the dashboard: the history stays a walk from the
    map, a second use adds no second entry, and a Back afterwards goes
    through [popLayer], succeeds when no collaborator fails, and leaves
    the layer and the history the shortcut found, restoring the
    dashboard focus on the way. *)
Theorem enter_detail_then_back (tizen : bool) (m : Manager) :
  settled m -> currentLayer m = CONTROL_PANEL ->
  settled (enterDetail m) /\
  enterDetail (enterDetail m) = enterDetail m /\
  exists m',
    back (calm tizen) (enterDetail m) = (true, m') /\
    currentLayer m' = CONTROL_PANEL /\
    layerHistory m' = layerHistory m /\
    In (RestoreFocusState (Some "dashboard")) (calls m') /\
    settled m'.
Proof.
  intros (Htr & Hts & Hhd & Hlast & Hwalk) Hcur.
  assert (Hne : layerHistory m <> []) by (intros E; rewrite E in Hlast; discriminate).
  assert (Hed : enterDetail m
                = set_layerHistory (layerHistory m ++ [DETAIL_SCREEN])
                    (set_currentLayer DETAIL_SCREEN m)).
  { unfold enterDetail. cbn [set_currentLayer layerHistory].
    rewrite Hlast, Hcur. reflexivity. }
  assert (Hs : settled (enterDetail m)).
  { rewrite Hed. unfold settled.
    cbn [set_layerHistory set_currentLayer isTransitioning transitionState
         layerHistory currentLayer].
    repeat split; auto.
    - destruct (layerHistory m); [contradiction|exact Hhd].
    - apply last_snoc.
    - apply (walk_snoc _ CONTROL_PANEL); [exact Hwalk | congruence | reflexivity]. }
  split; [exact Hs|]. split.
  { rewrite Hed. unfold enterDetail.
    cbn [set_layerHistory set_currentLayer layerHistory].
    rewrite last_snoc. reflexivity. }
  destruct (last_penultimate (layerHistory m) DETAIL_SCREEN Hne) as [Hnth Hlen].
  rewrite Hlast, Hcur in Hnth.
  unfold back, popLayer. rewrite Hed.
  cbn [set_layerHistory set_currentLayer isTransitioning layerHistory currentLayer].
  rewrite Htr, Hnth.
  apply Nat.ltb_lt in Hlen.
  destruct (Nat.leb_spec (length (layerHistory m ++ [DETAIL_SCREEN])) 1) as [Hle|_];
    [lia|].
  destruct m as [cur hist ts tr ifr cs]. cbn in *. subst.
  unfold performTransition, begin_transition, complete_transition,
    bind, call, modify, get, when, ret.
  cbn [calm throws]. cbn -[removelast app walk last hd_error In].
  destruct ifr; cbn -[removelast app walk last hd_error In];
    (eexists; split; [reflexivity|]);
    cbn -[removelast app walk last hd_error In]; unfold pop;
    rewrite removelast_last;
    (repeat split; auto;
     [rewrite ?in_app_iff; cbn; tauto]).
Qed.

Lemma enter_detail_then_back_witness :
  exists m', back (calm true) (enterDetail dashboard) = (true, m') /\
             layerHistory m' = [MAP; CONTROL_PANEL].
Proof.
  assert (S : settled dashboard) by (repeat split).
  destruct (enter_detail_then_back true dashboard S eq_refl)
    as (_ & _ & m' & Hb & _ & Hh & _).
  exists m'. split; [exact Hb | exact Hh].
Defined.

End EnterFacts.

(** ** ScreenManager *)

Section ScreenFacts.
Import Keys Screens.

Lemma screens_columns_pos (m : ScreenManager) :
  1 <= columns (calculateLayout m) <= 4.
Proof.
  unfold calculateLayout.
  repeat match goal with
  | |- context [if ?b then _ else _] => destruct b
  end; cbn; lia.
Qed.

Lemma focusScreen_true (i : Z) (m : ScreenManager) :
  0 <= i < count m ->
  exists stt, screen_at m i = Some stt /\
    focusScreen i m
    = (true, dispatch (ScreenFocus i stt) (set_focusedScreenIndex i m)).
Proof.
  intros Hi. unfold focusScreen.
  destruct (Z.ltb_spec i 0); [lia|]. destruct (Z.leb_spec (count m) i); [lia|].
  cbn [orb]. unfold screen_at. destruct (Z.ltb_spec i 0); [lia|].
  destruct (nth_error (activeScreens m) (Z.to_nat i)) as [stt|] eqn:E.
  - exists stt. auto.
  - apply nth_error_None in E. unfold count in Hi. lia.
Qed.

Lemma focusScreen_false (i : Z) (m : ScreenManager) :
  fst (focusScreen i m) = false -> snd (focusScreen i m) = m.
Proof.
  unfold focusScreen.
  destruct (Z.ltb i 0 || Z.leb (count m) i); [reflexivity|].
  destruct (screen_at m i); [discriminate|reflexivity].
Qed.

Lemma focusScreen_range (i : Z) (m : ScreenManager) :
  fst (focusScreen i m) = true -> 0 <= i < count m.
Proof.
  unfold focusScreen.
  destruct (Z.ltb_spec i 0); [discriminate|].
  destruct (Z.leb_spec (count m) i); [discriminate|]. lia.
Qed.

(** The index [moveFocus] aims at from a focused cell. *)
Lemma moveFocus_focused (d : Direction) (m : ScreenManager) :
  currentView m = DashboardView -> 0 <= focusedScreenIndex m -> count m <> 0 ->
  exists j,
    j - focusedScreenIndex m
      = match d with
        | DirUp => - columns (calculateLayout m)
        | DirDown => columns (calculateLayout m)
        | DirLeft => -1
        | DirRight => 1
        end /\
    (moveFocus d m = focusScreen j m \/ moveFocus d m = (false, m)).
Proof.
  intros Hv Hi Hc. unfold moveFocus. rewrite Hv. cbn [is_dashboard negb orb].
  destruct (Z.eqb_spec (count m) 0); [contradiction|].
  destruct (Z.ltb_spec (focusedScreenIndex m) 0); [lia|].
  pose proof (screens_columns_pos m) as Hcol.
  set (c := columns (calculateLayout m)) in *.
  set (i := focusedScreenIndex m) in *.
  pose proof (Z.div_mod i c ltac:(lia)) as Hdm.
  set (r := i / c) in *. set (k := i mod c) in *.
  destruct d.
  - exists (i - c). split; [lia|].
    destruct (Z.ltb 0 r); [|right; now rewrite Z.eqb_refl].
    replace ((r - 1) * c + k) with (i - c) by lia.
    destruct (Z.eqb_spec (i - c) i); [lia|]. now left.
  - exists (i + c). split; [lia|].
    destruct (Z.ltb r (rows (calculateLayout m) - 1));
      [|right; now rewrite Z.eqb_refl].
    replace ((r + 1) * c + k) with (i + c) by lia.
    destruct (Z.ltb (i + c) (count m)); [|right; now rewrite Z.eqb_refl].
    destruct (Z.eqb_spec (i + c) i); [lia|]. now left.
  - exists (i - 1). split; [lia|].
    destruct (Z.ltb 0 k); [|right; now rewrite Z.eqb_refl].
    destruct (Z.eqb_spec (i - 1) i); [lia|]. now left.
  - exists (i + 1). split; [lia|].
    destruct (Z.ltb k (c - 1) && Z.ltb (i + 1) (count m));
      [|right; now rewrite Z.eqb_refl].
    destruct (Z.eqb_spec (i + 1) i); [lia|]. now left.
Qed.

(** X22: [ScreenManager.moveFocus] either reports [false] and changes
    nothing, or reports [true] on the dashboard with the focus on a
    screen of the list, one [screenFocus] event dispatched for that
    screen and nothing else changed: on the first screen when nothing
    was focused, otherwise exactly one cell away (one index left or
    right, one row of columns up or down). *)
Theorem screen_focus_moves_one_cell (d : Direction) (m : ScreenManager) :
  let r := moveFocus d m in
  let j := focusedScreenIndex (snd r) in
  if fst r then
    currentView m = DashboardView /\
    activeScreens (snd r) = activeScreens m /\
    currentView (snd r) = currentView m /\
    0 <= j < count m /\
    (exists stt, screen_at m j = Some stt /\
       dispatched (snd r) = (dispatched m ++ [ScreenFocus j stt])%list) /\
    (if Z.ltb (focusedScreenIndex m) 0 then j = 0
     else j - focusedScreenIndex m
          = match d with
            | DirUp => - columns (calculateLayout m)
            | DirDown => columns (calculateLayout m)
            | DirLeft => -1
            | DirRight => 1
            end)
  else snd r = m.
Proof.
  cbn zeta.
  assert (Hfocus : forall i, fst (focusScreen i m) = true ->
            activeScreens (snd (focusScreen i m)) = activeScreens m /\
            currentView (snd (focusScreen i m)) = currentView m /\
            focusedScreenIndex (snd (focusScreen i m)) = i /\
            0 <= i < count m /\
            exists stt, screen_at m i = Some stt /\
              dispatched (snd (focusScreen i m))
              = (dispatched m ++ [ScreenFocus i stt])%list).
  { intros i Hi. pose proof (focusScreen_range i m Hi) as Hr.
    destruct (focusScreen_true i m Hr) as (stt & Hs & ->).
    cbn. repeat split; try lia. eauto. }
  destruct (currentView m) eqn:Hv.
  { unfold moveFocus. rewrite Hv. reflexivity. }
  destruct (Z.eqb_spec (count m) 0) as [Hz|Hnz].
  { unfold moveFocus. rewrite Hv, Hz. reflexivity. }
  destruct (Z.ltb_spec (focusedScreenIndex m) 0) as [Hneg|Hpos].
  - assert (E : moveFocus d m = focusScreen 0 m).
    { unfold moveFocus. rewrite Hv. cbn [is_dashboard negb orb].
      destruct (Z.eqb_spec (count m) 0); [contradiction|].
      destruct (Z.ltb_spec (focusedScreenIndex m) 0); [reflexivity|lia]. }
    rewrite E. destruct (fst (focusScreen 0 m)) eqn:Hr;
      [|now apply focusScreen_false].
    destruct (Hfocus 0 Hr) as (A & B & C & D & F).
    rewrite C. repeat split; auto; lia.
  - destruct (moveFocus_focused d m Hv Hpos Hnz) as (j & Hj & [E|E]);
      rewrite E; [|reflexivity].
    destruct (fst (focusScreen j m)) eqn:Hr; [|now apply focusScreen_false].
    destruct (Hfocus j Hr) as (A & B & C & D & F).
    rewrite C. repeat split; auto; lia.
Qed.


Lemma layout_tables (n : Z) (m : ScreenManager) :
  count m = n -> 1 <= n ->
  (n <> 3 /\ n <> 7 /\ n <> 8 ->
   Grid.calculateLayout n
   = Some (Grid.mkLayout (columns (calculateLayout m)) (rows (calculateLayout m)))) /\
  (n = 3 \/ n = 7 \/ n = 8 ->
   Grid.calculateLayout n
   <> Some (Grid.mkLayout (columns (calculateLayout m)) (rows (calculateLayout m)))).
Proof.
  intros Hc Hn. unfold calculateLayout. rewrite Hc. clear Hc m.
  assert (n = 1 \/ n = 2 \/ n = 3 \/ n = 4 \/ n = 5 \/ n = 6 \/ n = 7 \/ n = 8 \/
          n = 9 \/ n = 10 \/ n = 11 \/ n = 12 \/ 13 <= n) as E by lia.
  repeat (destruct E as [->|E];
          [split; [intros (? & ? & ?); try lia; reflexivity
                  |intros [?|[?|?]]; try lia; discriminate]|]).
  split; [intros _|lia].
  unfold Grid.calculateLayout.
  repeat match goal with
  | |- context [Z.eqb n ?c] => destruct (Z.eqb_spec n c); [lia|]
  end.
  repeat match goal with
  | |- context [Z.leb n ?c] => destruct (Z.leb_spec n c); [lia|]
  end.
  reflexivity.
Qed.

(** X23: [ScreenManager.calculateLayout] and
    [DashboardGrid.calculateLayout] give the same columns and rows for
    every positive number of screens except 3, 7 and 8, where they
    differ. *)
Theorem layout_tables_agree (m : ScreenManager) :
  1 <= count m ->
  (Grid.calculateLayout (count m)
   = Some (Grid.mkLayout (columns (calculateLayout m)) (rows (calculateLayout m)))
   <-> count m <> 3 /\ count m <> 7 /\ count m <> 8).
Proof.
  intros Hn. destruct (layout_tables (count m) m eq_refl Hn) as [A B].
  split; [|exact A].
  intros E. repeat split; intros H; apply B; auto.
Qed.

Lemma layout_tables_agree_witness :
  Grid.calculateLayout 5 = Some (Grid.mkLayout 3 2) /\
  Grid.calculateLayout 7 <> Some (Grid.mkLayout 3 3).
Proof.
  split.
  - apply (layout_tables_agree (showing [0; 4; 5; 6; 7] 0));
      unfold count; cbn; lia.
  - intros E.
    apply (layout_tables_agree (showing [0; 4; 5; 6; 7; 8; 9] 0)) in E;
      unfold count in *; cbn in *; lia.
Defined.


Lemma focusScreen_index (j : Z) (m : ScreenManager) :
  0 <= j < count m -> focusedScreenIndex (snd (focusScreen j m)) = j.
Proof.
  intros Hj. destruct (focusScreen_true j m Hj) as (stt & _ & ->). reflexivity.
Qed.

(** X24: where the two layout tables agree, [ScreenManager.moveFocus]
    from a focused screen lands on the tile the annotation of
    [DashboardGrid.setNavigationAttributes] names, and stays where the
    annotation is the sentinel; the one difference is Down above a gap
    in the last row, where the annotation names the last tile and
    [ScreenManager] stays. *)
Theorem screen_manager_follows_annotations (d : Direction) (m : ScreenManager)
    (layout : Grid.Layout) :
  currentView m = DashboardView ->
  0 <= focusedScreenIndex m < count m ->
  Grid.calculateLayout (count m) = Some layout ->
  count m <> 3 /\ count m <> 7 /\ count m <> 8 ->
  let i := focusedScreenIndex m in
  let t := DashboardNav.towards d (Grid.neighbours layout (count m) i) in
  focusedScreenIndex (snd (moveFocus d m))
  = if Z.eqb t (-1) ||
       match d with
       | DirDown => Z.leb (count m) (i + Grid.columns layout)
       | _ => false
       end
    then i else t.
Proof.
  intros Hv Hi Hlay Hex. cbn zeta.
  destruct (layout_tables (count m) m eq_refl ltac:(lia)) as [A _].
  rewrite (A Hex) in Hlay. injection Hlay as <-. cbn [Grid.columns Grid.rows].
  unfold moveFocus. rewrite Hv. cbn [is_dashboard negb orb].
  destruct (Z.eqb_spec (count m) 0) as [|_]; [lia|].
  destruct (Z.ltb_spec (focusedScreenIndex m) 0) as [|_]; [lia|].
  pose proof (screens_columns_pos m) as Hcol.
  unfold DashboardNav.towards, Grid.neighbours.
  cbn [Grid.up Grid.down Grid.left Grid.right Grid.columns Grid.rows].
  set (c := columns (calculateLayout m)) in *.
  set (R := rows (calculateLayout m)) in *.
  set (i := focusedScreenIndex m) in *.
  set (N := count m) in *.
  pose proof (Z.div_mod i c ltac:(lia)) as Hdm.
  pose proof (Z.mod_pos_bound i c ltac:(lia)) as Hk.
  pose proof (Z.div_pos i c ltac:(lia) ltac:(lia)) as Hr.
  set (r := i / c) in *. set (k := i mod c) in *.
  destruct d.
  - destruct (Z.ltb_spec 0 r).
    + replace ((r - 1) * c + k) with (i - c) by lia.
      destruct (Z.eqb_spec (i - c) i); [lia|]. cbn [negb].
      rewrite focusScreen_index by (fold N; nia).
      destruct (Z.eqb_spec (i - c) (-1)); [nia|]. reflexivity.
    + rewrite Z.eqb_refl. reflexivity.
  - destruct (Z.ltb_spec r (R - 1)).
    + replace ((r + 1) * c + k) with (i + c) by lia.
      destruct (Z.ltb_spec (i + c) N).
      * destruct (Z.eqb_spec (i + c) i); [lia|]. cbn [negb].
        rewrite focusScreen_index by (fold N; lia).
        destruct (Z.eqb_spec (i + c) (-1)); [lia|].
        destruct (Z.leb_spec N (i + c)); [lia|]. reflexivity.
      * rewrite Z.eqb_refl. cbn [negb snd].
        destruct (Z.leb_spec N (i + c)); [|lia].
        now rewrite Bool.orb_true_r.
    + rewrite Z.eqb_refl. reflexivity.
  - destruct (Z.ltb_spec 0 k).
    + destruct (Z.eqb_spec (i - 1) i); [lia|]. cbn [negb].
      rewrite focusScreen_index by (fold N; lia).
      destruct (Z.eqb_spec (i - 1) (-1)); [lia|]. reflexivity.
    + rewrite Z.eqb_refl. reflexivity.
  - destruct (Z.ltb_spec k (c - 1)); destruct (Z.ltb_spec (i + 1) N);
      cbn [andb]; try (rewrite Z.eqb_refl; reflexivity).
    destruct (Z.eqb_spec (i + 1) i); [lia|]. cbn [negb].
    rewrite focusScreen_index by (fold N; lia).
    destruct (Z.eqb_spec (i + 1) (-1)); [lia|]. reflexivity.
Qed.

Lemma screen_manager_follows_annotations_witness :
  focusedScreenIndex (snd (moveFocus DirDown (showing [0; 4; 5; 6; 7] 1))) = 4 /\
  focusedScreenIndex (snd (moveFocus DirDown (showing [0; 4; 5; 6; 7] 2))) = 2.
Proof.
  split.
  - apply (screen_manager_follows_annotations DirDown (showing [0; 4; 5; 6; 7] 1)
             (Grid.mkLayout 3 2)); unfold count; cbn; try reflexivity; lia.
  - apply (screen_manager_follows_annotations DirDown (showing [0; 4; 5; 6; 7] 2)
             (Grid.mkLayout 3 2)); unfold count; cbn; try reflexivity; lia.
Defined.

End ScreenFacts.
Section ViewFacts.
Import Screens.

(** X25: [autoSwitchView] makes the view follow the list: afterwards the
    dashboard is shown exactly when there is an active screen.  It
    dispatches one [viewChange] event when the view changes and none
    when it does not, leaves the list and the focused index alone, and
    does nothing when run again. *)
Theorem autoSwitchView_settles (m : ScreenManager) :
  let m' := autoSwitchView m in
  is_dashboard (currentView m') = Z.ltb 0 (count m) /\
  activeScreens m' = activeScreens m /\
  focusedScreenIndex m' = focusedScreenIndex m /\
  dispatched m'
    = (dispatched m ++
       if Bool.eqb (is_dashboard (currentView m)) (Z.ltb 0 (count m)) then []
       else [ViewChange (currentView m')])%list /\
  autoSwitchView m' = m'.
Proof.
  cbn zeta. unfold autoSwitchView, count.
  destruct m as [screens view idx ds]. cbn [activeScreens currentView].
  destruct (Z.ltb 0 (Z.of_nat (length screens))) eqn:Hn; destruct view;
    cbn; rewrite ?Hn, ?app_nil_r; repeat split; reflexivity.
Qed.

End ViewFacts.

(** ** IframeScreenManager: the screen mapping *)

Section IframeFacts.
Import IframeScreens.

(** X26: [setScreenPath] with a path that is not empty makes
    [getScreenPath] return that path and [hasScreen] accept the screen,
    and changes the answer for no other screen; with a number that does
    not parse it changes nothing.  An empty path hides the entry
    instead: [hasScreen] refuses the screen. *)
Theorem set_then_get (n : Z) (path : string) (m : gmap (option Z) string) :
  (path <> "" ->
   getScreenPath (Some n) (setScreenPath (Some n) path m) = Some path /\
   hasScreen (Some n) (setScreenPath (Some n) path m) = true) /\
  hasScreen (Some n) (setScreenPath (Some n) "" m) = false /\
  (forall k, k <> Some n ->
     getScreenPath k (setScreenPath (Some n) path m) = getScreenPath k m /\
     hasScreen k (setScreenPath (Some n) path m) = hasScreen k m) /\
  setScreenPath None path m = m.
Proof.
  unfold getScreenPath, hasScreen, setScreenPath. cbv beta iota.
  split; [|split; [|split; [|reflexivity]]].
  - intros Hp. rewrite lookup_insert_eq. unfold truthy.
    destruct (String.eqb_spec path ""); [contradiction|]. auto.
  - rewrite lookup_insert_eq. reflexivity.
  - intros k Hk. rewrite lookup_insert_ne by congruence. auto.
Qed.

Lemma set_then_get_witness :
  getScreenPath (Some 12) (setScreenPath (Some 12) "screens/M12.html" default_mapping)
  = Some "screens/M12.html".
Proof.
  apply (set_then_get 12 "screens/M12.html" default_mapping). discriminate.
Defined.

Lemma truthy_default (k : option Z) : truthy (default_path k) = default_path k.
Proof.
  destruct k as [n|]; [|reflexivity]. unfold default_path, DEFAULT_SCREEN_MAPPING.
  cbn [entry].
  repeat match goal with
  | |- context [Z.eqb n ?c] => destruct (Z.eqb n c); [reflexivity|]
  end.
  reflexivity.
Qed.

(** X27: after [removeScreen], [hasScreen] (and with it [openScreen])
    refuses the screen, whatever the mapping held; [getScreenPath]
    however still answers with the built-in path, so for the screens 4
    to 11 it never returns null. *)
Theorem removed_builtin_still_resolves (k : option Z) (m : gmap (option Z) string) :
  hasScreen k (removeScreen k m) = false /\
  getScreenPath k (removeScreen k m) = default_path k /\
  (forall n, k = Some n -> 4 <= n <= 11 ->
     exists path, getScreenPath k m = Some path /\ path <> "").
Proof.
  assert (Hgone : truthy (removeScreen k m !! k) = None).
  { unfold removeScreen. destruct (truthy (m !! k)) eqn:E; [|exact E].
    now rewrite lookup_delete_eq. }
  unfold hasScreen, getScreenPath. rewrite Hgone.
  split; [reflexivity|]. split; [apply truthy_default|].
  intros n -> Hn. destruct (truthy (m !! Some n)) as [p|] eqn:E.
  - exists p. split; [reflexivity|]. unfold truthy in E.
    destruct (m !! Some n) as [q|]; [|discriminate].
    destruct (String.eqb_spec q ""); [discriminate|]. congruence.
  - rewrite truthy_default. cbn [default_path].
    assert (n = 4 \/ n = 5 \/ n = 6 \/ n = 7 \/ n = 8 \/ n = 9 \/ n = 10 \/ n = 11)
      as H by lia.
    repeat (destruct H as [->|H]; [eexists; split; [reflexivity|discriminate]|]).
    subst. eexists; split; [reflexivity|discriminate].
Qed.

Lemma removed_builtin_still_resolves_witness :
  exists path,
    getScreenPath (Some 5) (removeScreen (Some 5) default_mapping) = Some path /\
    path <> "".
Proof.
  destruct (removed_builtin_still_resolves (Some 5)
              (removeScreen (Some 5) default_mapping)) as (_ & _ & H).
  apply (H 5 eq_refl). lia.
Defined.

(** X28: for every screen number with a known name pattern the path
    [generateScreenPath] builds from the pattern is the built-in path of
    that screen, whatever name the API sent. *)
Theorem generated_path_is_default (n : Z) (pattern : string)
    (fromName : option string) :
  entry n SCREEN_NAME_PATTERNS = Some pattern ->
  generateScreenPath (Some n) fromName = default_path (Some n) /\
  generateScreenPath (Some n) fromName
  = Some ("screens/M" ++ pretty n ++ pattern ++ ".html").
Proof.
  unfold generateScreenPath, default_path, SCREEN_NAME_PATTERNS,
    DEFAULT_SCREEN_MAPPING.
  cbn [mbind option_bind entry].
  repeat match goal with
  | |- context [Z.eqb n ?c] =>
      destruct (Z.eqb_spec n c); [subst; intros [= <-]; split; reflexivity|]
  end.
  discriminate.
Qed.

Lemma generated_path_is_default_witness :
  generateScreenPath (Some 7) (Some "tienDo")
  = Some "screens/M7thongTinTienDoThiCongMangDuongOngCap12.html".
Proof.
  apply (generated_path_is_default 7 "thongTinTienDoThiCongMangDuongOngCap12"
           (Some "tienDo")). reflexivity.
Defined.

End IframeFacts.
